(** * Sam60 — the video routes ([backend/routes/videos.js])

    A shallow embedding of the upload, list and delete handlers of the
    video router, with the local temp directory, the remote media host
    and the two database tables as explicit state, and the outcome of
    every call to an external collaborator (ffprobe, SSH, MySQL, the SMIL
    service) supplied by an oracle.

    Conventions.
    - A JS string is modelled as the [string] of its UTF-8 bytes. The
      characters the router looks for ([.], [/], [@], [_], the letters and
      digits of extensions and codec names) are ASCII, and no byte of a
      character outside ASCII is an ASCII byte, so searching, splitting
      and comparing agree with JS; [toLowerCase] is described where it is
      defined.
    - JS numbers that the code only uses as integers (sizes in bytes,
      megabytes, kbps, ids) are [Z]; [Math.ceil (n / 2^20)] is exact on
      doubles for the sizes multer lets through (at most 2 GiB), so it is the
      integer ceiling.
    - Identifiers (user id, folder id) are kept as the strings the
      database driver receives. *)

From Stdlib Require Import Ascii String ZArith QArith.Qround Lia.
From stdpp Require Import gmap strings list sorting pretty.

Open Scope string_scope.
Open Scope Z_scope.

(** ** Strings: the JS string operations the router uses *)

Module Str.

Definition code (c : ascii) : N := N_of_ascii c.

Definition is_upper (c : ascii) : bool := (65 <=? code c)%N && (code c <=? 90)%N.
Definition is_lower (c : ascii) : bool := (97 <=? code c)%N && (code c <=? 122)%N.
Definition is_digit (c : ascii) : bool := (48 <=? code c)%N && (code c <=? 57)%N.

Definition lower_char (c : ascii) : ascii :=
  if is_upper c then ascii_of_N (code c + 32) else c.

Fixpoint map (f : ascii -> ascii) (s : string) : string :=
  match s with
  | EmptyString => EmptyString
  | String c s' => String (f c) (map f s')
  end.

Fixpoint forallb (p : ascii -> bool) (s : string) : bool :=
  match s with
  | EmptyString => true
  | String c s' => p c && forallb p s'
  end.

(** [s.toLowerCase()]. ASCII letters are mapped as usual. Of the
    characters outside ASCII exactly one lower-cases to an ASCII
    character: U+212A, the Kelvin sign (bytes 226 132 170), becomes [k].
    Every other character outside ASCII lower-cases to characters outside
    ASCII and is left as it is here. The router compares lower-cased
    strings with ASCII strings only (the extensions, the codec names,
    [mp4]), and such a comparison gives the same answer either way; the
    one lower-cased string it shows rather than compares is the extension
    in the message for an unsupported format. *)
Fixpoint toLowerCase (s : string) : string :=
  match s with
  | EmptyString => EmptyString
  | String c s' =>
      if Ascii.eqb c "226" then
        match s' with
        | String c2 (String c3 s'') =>
            if Ascii.eqb c2 "132" && Ascii.eqb c3 "170"
            then String "k" (toLowerCase s'')
            else String c (toLowerCase s')
        | _ => String c (toLowerCase s')
        end
      else String (lower_char c) (toLowerCase s')
  end.

(** Every character is ASCII. *)
Definition is_ascii (s : string) : bool :=
  forallb (fun c => (code c <? 128)%N) s.

(** [s.startsWith(p)] *)
Definition startsWith (s p : string) : bool := String.prefix p s.

(** [s.includes(p)] *)
Fixpoint includes (s p : string) : bool :=
  String.prefix p s ||
  match s with
  | EmptyString => false
  | String _ s' => includes s' p
  end.

Fixpoint drop (n : nat) (s : string) : string :=
  match n, s with
  | O, _ => s
  | S n', String _ s' => drop n' s'
  | S _, EmptyString => EmptyString
  end.

(** [s.endsWith(p)] *)
Definition endsWith (s p : string) : bool :=
  (String.length p <=? String.length s)%nat &&
  String.eqb (drop (String.length s - String.length p) s) p.

(** [s.replace(pat, rep)] with a string pattern: the first occurrence only. *)
Fixpoint replace (pat rep s : string) : string :=
  if String.prefix pat s then rep ++ drop (String.length pat) s
  else match s with
       | EmptyString => EmptyString
       | String c s' => String c (replace pat rep s')
       end.

(** [s.substring(1)] *)
Definition substring1 (s : string) : string := drop 1 s.

(** [s.split('@')[0]]: the part before the first [sep]. *)
Fixpoint before (sep : ascii) (s : string) : string :=
  match s with
  | EmptyString => EmptyString
  | String c s' => if Ascii.eqb c sep then EmptyString else String c (before sep s')
  end.

(** [xs.includes(x)] on an array of strings *)
Definition mem (x : string) (xs : list string) : bool :=
  existsb (String.eqb x) xs.

(** JS truthiness of a string: [s || d] *)
Definition or_else (s d : string) : string :=
  if String.eqb s "" then d else s.

End Str.

(** ** Node's [path.extname] (POSIX flavour)

    The extension runs from the last [.] of the last path component
    (trailing slashes ignored) to the end of that component; it is empty
    when the component has no [.], when its only [.] is its first
    character, or when the component is [..]. *)

Module Path.

Fixpoint drop_slashes (l : list ascii) : list ascii :=
  match l with
  | c :: l' => if Ascii.eqb c "/" then drop_slashes l' else l
  | [] => []
  end.

Fixpoint take_until (stop : ascii) (l : list ascii) : list ascii :=
  match l with
  | c :: l' => if Ascii.eqb c stop then [] else c :: take_until stop l'
  | [] => []
  end.

Fixpoint drop_until (stop : ascii) (l : list ascii) : list ascii :=
  match l with
  | c :: l' => if Ascii.eqb c stop then l else drop_until stop l'
  | [] => []
  end.

(** The last component of the path, reversed. *)
Definition rev_basename (p : string) : list ascii :=
  take_until "/" (drop_slashes (rev (list_ascii_of_string p))).

Definition extname (p : string) : string :=
  let rb := rev_basename p in
  match drop_until "." rb with
  | [] => ""                                   (* no dot at all *)
  | _ :: [] => ""                              (* the dot starts the name *)
  | dot :: _ :: _ =>
      if bool_decide (rb = ["."; "."]%char) then ""
      else string_of_list_ascii (dot :: rev (take_until "." rb))
  end.

End Path.

(** ** multer's disk storage: the generated file name (lines 23-28) *)

Definition allowed_char (c : ascii) : bool :=
  Str.is_lower c || Str.is_upper c || Str.is_digit c
  || Ascii.eqb c "." || Ascii.eqb c "-".

(** [.replace(/[^a-zA-Z0-9.-]/g, '_')]. A character outside ASCII is one
    or two UTF-16 units in JS and several bytes here; either way it
    becomes a run of underscores, which the second replacement collapses,
    so the sanitised name is the same. *)
Definition replace_disallowed (s : string) : string :=
  Str.map (fun c => if allowed_char c then c else "_"%char) s.

(** [.replace(/_{2,}/g, '_')]: every maximal run of two or more
    underscores becomes one; an underscore followed by another one is
    dropped, the last of the run is kept. *)
Fixpoint collapse_underscores (s : string) : string :=
  match s with
  | EmptyString => EmptyString
  | String c s' =>
      if Ascii.eqb c "_" && Str.startsWith s' "_"
      then collapse_underscores s'
      else String c (collapse_underscores s')
  end.

Definition sanitizedName (originalname : string) : string :=
  collapse_underscores (replace_disallowed originalname).

(** [`${Date.now()}_${sanitizedName}`] *)
Definition storage_filename (now : N) (originalname : string) : string :=
  pretty now ++ "_" ++ sanitizedName originalname.

Definition tempDir : string := "/tmp/video-uploads".

(** ** Compatibility helpers (lines 104-114) *)

(** [compatibleCodecs.includes(codecName?.toLowerCase())] *)
Definition isCompatibleCodec (codecName : option string) : bool :=
  match codecName with
  | Some c => Str.mem (Str.toLowerCase c) ["h264"; "h265"; "hevc"]
  | None => false
  end.

(** [compatibleFormats.includes(extension?.toLowerCase()?.replace('.', ''))];
    [formatName] is not used by the body. *)
Definition isCompatibleFormat (formatName : string) (extension : option string) : bool :=
  match extension with
  | Some e => Str.mem (Str.replace "." "" (Str.toLowerCase e)) ["mp4"]
  | None => false
  end.

Definition videoExtensions : list string :=
  [".mp4"; ".avi"; ".mov"; ".wmv"; ".flv"; ".webm"; ".mkv";
   ".3gp"; ".3g2"; ".ts"; ".mpg"; ".mpeg"; ".ogv"; ".m4v"; ".asf"].

(** ** Data model *)

Definition Id := string.

(** [req.user], as the authentication middleware leaves it. *)
Record User := {
  user_id : Id;
  user_email : option string;
  user_usuario : option string;
  user_bitrate : option Z;
  user_espectadores : option Z
}.

(** [req.file], as multer leaves it. *)
Record UploadedFile := {
  originalname : string;
  mimetype : string;
  size : Z;
  filename : string;
  path : string
}.

(** A row of table [streamings] (a destination, "pasta"). *)
Record Streaming := {
  codigo : Id;
  codigo_cliente : Id;
  codigo_servidor : Z;
  identificacao : string;
  espaco : Z;
  espaco_usado : Z
}.

(** A row of table [videos]. *)
Record Video := {
  id : Z;
  nome : string;
  descricao : string;
  url : string;
  caminho : string;
  duracao : Z;
  tamanho_arquivo : Z;
  v_codigo_cliente : Id;
  pasta : Id;
  bitrate_video : Z;
  formato_original : string;
  codec_video : string;
  largura : Z;
  altura : Z;
  is_mp4 : Z;
  compativel : string
}.

(** The document ffprobe prints, after [JSON.parse]. Numeric fields hold
    what [parseInt] / [parseFloat] make of them ([None]: absent or NaN);
    string fields are [None] when absent. *)
Record ProbeFormat := {
  f_duration : option QArith_base.Q;
  f_bit_rate : option Z;
  f_format_name : option string
}.

Record ProbeStream := {
  s_codec_type : option string;
  s_codec_name : option string;
  s_width : option Z;
  s_height : option Z;
  s_bit_rate : option Z
}.

Inductive ProbeDoc :=
| DocNull                               (* [null]: reading a property throws *)
| DocObj (format : option ProbeFormat) (streams : option (list ProbeStream)).

(** What the spawned ffprobe process does. *)
Inductive ProcOutcome :=
| ProcError (msg : string)              (* the ['error'] event *)
| ProcClose (exit_code : Z) (stdout : string).

(** The calls to external collaborators, by call site. *)
Inductive Op :=
| OpSelectFolder | OpSshStructure | OpSshFolder | OpSshUpload
| OpInsertVideo | OpAddUsed | OpSmil
| OpListFolder | OpListVideos
| OpSelectVideo | OpSelectServer | OpSshStat | OpSshDelete
| OpDeleteVideo | OpReleaseUsed.

(** The environment of one request: what ffprobe does, what [JSON.parse]
    makes of its output, and which external calls throw (with what
    message). *)
Record Oracle := {
  proc : ProcOutcome;
  JSON_parse : string -> option ProbeDoc;
  fails : Op -> option string
}.

(** Every call that leaves the process, in the order it is issued. *)
Inductive Event :=
| EProbe (file : string)
| EUnlink (file : string)
| ESelectFolder (folderId userId : Id)
| ESshStructure (serverId : Z) (login : string) (bitrate espectadores : Z)
| ESshFolder (serverId : Z) (login folder : string)
| ESshUpload (serverId : Z) (local remote : string)
| EInsertVideo (nome caminho : string)
| EAddUsed (folderId : Id) (mb : Z)
| ESmil (userId : Id) (login : string) (serverId : Z)
| EListFolder (folderId userId : Id)
| EListVideos (userId folderId : Id)
| ESelectVideo (videoId : Z) (userId : Id)
| ESelectServer (userId : Id)
| ESshStat (serverId : Z) (remote : string)
| ESshDelete (serverId : Z) (remote : string)
| EDeleteVideo (videoId : Z)
| EReleaseUsed (folderId : Id) (mb : Z).

(** Calls that change the remote host. *)
Definition remote_effect (e : Event) : bool :=
  match e with
  | ESshStructure _ _ _ _ | ESshFolder _ _ _ | ESshUpload _ _ _
  | ESshDelete _ _ | ESmil _ _ _ => true
  | _ => false
  end.

(** Calls that write to the database. *)
Definition persistence_effect (e : Event) : bool :=
  match e with
  | EInsertVideo _ _ | EAddUsed _ _ | EDeleteVideo _ | EReleaseUsed _ _ => true
  | _ => false
  end.

(** The state the handlers act on. *)
Record World := {
  tmp_files : gmap string Z;              (* local files: path to size *)
  remote_files : gmap (Z * string) Z;     (* (server, path) to size *)
  streamings : list Streaming;
  videos : list Video;
  next_insert_id : Z;
  trace : list Event
}.

Definition set_tmp (f : gmap string Z -> gmap string Z) (w : World) : World :=
  {| tmp_files := f (tmp_files w); remote_files := remote_files w;
     streamings := streamings w; videos := videos w;
     next_insert_id := next_insert_id w; trace := trace w |}.

Definition set_remote (f : gmap (Z * string) Z -> gmap (Z * string) Z) (w : World) : World :=
  {| tmp_files := tmp_files w; remote_files := f (remote_files w);
     streamings := streamings w; videos := videos w;
     next_insert_id := next_insert_id w; trace := trace w |}.

Definition set_streamings (f : list Streaming -> list Streaming) (w : World) : World :=
  {| tmp_files := tmp_files w; remote_files := remote_files w;
     streamings := f (streamings w); videos := videos w;
     next_insert_id := next_insert_id w; trace := trace w |}.

Definition set_videos (f : list Video -> list Video) (n : Z) (w : World) : World :=
  {| tmp_files := tmp_files w; remote_files := remote_files w;
     streamings := streamings w; videos := f (videos w);
     next_insert_id := n; trace := trace w |}.

Definition log (e : Event) (w : World) : World :=
  {| tmp_files := tmp_files w; remote_files := remote_files w;
     streamings := streamings w; videos := videos w;
     next_insert_id := next_insert_id w; trace := trace w ++ [e] |}.

(** ** The effect monad: state and JS exceptions

    A computation in [M] runs from its start to its end on the state it
    is given: it stands for code that no other request gets in between.
    A handler gives control away at every [await], so a whole handler in
    [M] is a request that no other request overlaps; overlapping uploads
    are described further down, by running the two halves of the upload
    handler separately. *)

Inductive JsError :=
| ReferenceError (message : string)
| TypeError (message : string)
| Error (message : string).

Definition message_of (e : JsError) : string :=
  match e with ReferenceError m | TypeError m | Error m => m end.

Inductive Outcome (A : Type) :=
| Ok (a : A)
| Throw (e : JsError).
Arguments Ok {A} a.
Arguments Throw {A} e.

Definition M (A : Type) : Type := World -> Outcome A * World.

Definition ret {A} (a : A) : M A := fun w => (Ok a, w).
Definition throw {A} (e : JsError) : M A := fun w => (Throw e, w).
Definition bind {A B} (m : M A) (k : A -> M B) : M B :=
  fun w => match m w with
           | (Ok a, w') => k a w'
           | (Throw e, w') => (Throw e, w')
           end.
(** [try { m } catch (e) { h e }] *)
Definition try_catch {A} (m : M A) (h : JsError -> M A) : M A :=
  fun w => match m w with
           | (Ok a, w') => (Ok a, w')
           | (Throw e, w') => h e w'
           end.
Definition get : M World := fun w => (Ok w, w).
Definition modify (f : World -> World) : M unit := fun w => (Ok tt, f w).

Declare Scope js_scope.
Delimit Scope js_scope with js.
Notation "x <- m ;; k" := (bind m (fun x => k))
  (at level 100, m at next level, right associativity) : js_scope.
Notation "m ;;; k" := (bind m (fun _ => k))
  (at level 100, right associativity) : js_scope.
Open Scope js_scope.

(** An external call: logged, then it throws or not as the oracle says. *)
Definition call (o : Oracle) (op : Op) (e : Event) : M unit :=
  modify (log e) ;;;
  match fails o op with
  | Some msg => throw (Error msg)
  | None => ret tt
  end.

(** ** External collaborators *)

(** [fs.unlink(p)]: rejects when the file is not there. *)
Definition fs_unlink (p : string) : M unit :=
  modify (log (EUnlink p)) ;;;
  w <- get ;;
  match tmp_files w !! p with
  | Some _ => modify (set_tmp (delete p))
  | None => throw (Error "ENOENT: no such file or directory")
  end.

(** [fs.unlink(p).catch(() => { })] *)
Definition fs_unlink_quiet (p : string) : M unit :=
  try_catch (fs_unlink p) (fun _ => ret tt).

(** [getVideoInfo] (lines 64-102): resolves with the parsed document when
    ffprobe exits with 0 and printed something that parses, rejects
    otherwise. *)
Definition getVideoInfo (o : Oracle) (filePath : string) : M ProbeDoc :=
  modify (log (EProbe filePath)) ;;;
  match proc o with
  | ProcError msg => throw (Error msg)
  | ProcClose exit_code stdout =>
      if (exit_code =? 0) && negb (String.eqb stdout "") then
        match JSON_parse o stdout with
        | Some info => ret info
        | None => throw (Error "Erro ao analisar informações do vídeo")
        end
      else throw (Error "Erro ao obter informações do vídeo")
  end.

(** [SELECT ... FROM streamings s WHERE s.codigo = ? AND
    (s.codigo_cliente = ? OR s.codigo = ?)] with [folderId, userId, userId] *)
Definition owns_folder (folderId userId : Id) (s : Streaming) : bool :=
  String.eqb (codigo s) folderId &&
  (String.eqb (codigo_cliente s) userId || String.eqb (codigo s) userId).

Definition db_select_folder (o : Oracle) (folderId userId : Id) : M (list Streaming) :=
  call o OpSelectFolder (ESelectFolder folderId userId) ;;;
  w <- get ;;
  ret (List.filter (owns_folder folderId userId) (streamings w)).

(** [SSHManager.createCompleteUserStructure(serverId, login,
    { bitrate, espectadores, status_gravando: 'nao' })] *)
Definition ssh_createCompleteUserStructure (o : Oracle) (serverId : Z) (login : string)
    (bitrate espectadores : Z) : M unit :=
  call o OpSshStructure (ESshStructure serverId login bitrate espectadores).

Definition ssh_createUserFolder (o : Oracle) (serverId : Z) (login folder : string) : M unit :=
  call o OpSshFolder (ESshFolder serverId login folder).

(** [SSHManager.uploadFile]: on success the remote path holds a copy of
    the local file. *)
Definition ssh_uploadFile (o : Oracle) (serverId : Z) (local remote : string) : M unit :=
  call o OpSshUpload (ESshUpload serverId local remote) ;;;
  w <- get ;;
  match tmp_files w !! local with
  | Some sz => modify (set_remote <[(serverId, remote) := sz]>)
  | None => throw (Error "ENOENT: no such file or directory")
  end.

(** [INSERT INTO videos (...)]: the row gets the next auto-increment id,
    which is returned as [result.insertId]. *)
Definition db_insert_video (o : Oracle) (row : Z -> Video) : M Z :=
  w <- get ;;
  let n := next_insert_id w in
  call o OpInsertVideo (EInsertVideo (nome (row n)) (caminho (row n))) ;;;
  modify (set_videos (fun vs => (vs ++ [row n])%list) (n + 1)) ;;;
  ret n.

Definition with_used (u : Z) (s : Streaming) : Streaming :=
  {| codigo := codigo s; codigo_cliente := codigo_cliente s;
     codigo_servidor := codigo_servidor s; identificacao := identificacao s;
     espaco := espaco s; espaco_usado := u |}.

(** [SET espaco_usado = espaco_usado + ? WHERE codigo = ?], on one row *)
Definition add_used (mb : Z) (folderId : Id) (s : Streaming) : Streaming :=
  if String.eqb (codigo s) folderId then with_used (espaco_usado s + mb) s else s.

(** [UPDATE streamings SET espaco_usado = espaco_usado + ? WHERE codigo = ?] *)
Definition db_add_used (o : Oracle) (mb : Z) (folderId : Id) : M unit :=
  call o OpAddUsed (EAddUsed folderId mb) ;;;
  modify (set_streamings (List.map (add_used mb folderId))).

(** [PlaylistSMILService.updateUserSMIL] *)
Definition smil_updateUserSMIL (o : Oracle) (userId : Id) (login : string) (serverId : Z) : M unit :=
  call o OpSmil (ESmil userId login serverId).

(** ** Responses *)

(** The [spaceInfo] of the quota error; its [percentage] field, a rounded
    floating-point quotient, is left out. *)
Record SpaceInfo := {
  required : Z;
  available : Z;
  total : Z;
  used : Z
}.

Record UploadBody := {
  r_id : Z;
  r_nome : string;
  r_url : string;
  r_path : string;
  r_originalFile : string;
  r_bitrate_video : Z;
  r_codec_video : string;
  r_formato_original : string;
  r_largura : Z;
  r_altura : Z;
  r_is_mp4 : bool;
  r_needs_conversion : bool;
  r_compatibility_status : string;
  r_compatibility_color : string;
  r_duracao : Z;
  r_tamanho : Z;
  r_space_used_mb : Z
}.

(** One element of the list response (lines 215-237). *)
Record VideoView := {
  l_id : Z;
  l_nome : string;
  l_url : string;
  l_duracao : Z;
  l_tamanho : Z;
  l_bitrate_video : Z;
  l_formato_original : string;
  l_codec_video : string;
  l_is_mp4 : Z;
  l_compativel : string;
  l_largura : Z;
  l_altura : Z;
  l_folder : string;
  l_user : string;
  l_user_bitrate_limit : Z;
  l_bitrate_exceeds_limit : bool;
  l_needs_conversion : bool;
  l_compatibility_status : string;
  l_compatibility_message : string;
  l_codec_compatible : bool;
  l_format_compatible : bool
}.

Inductive Body :=
| BError (error : string) (details : option string)
| BQuota (error details : string) (spaceInfo : SpaceInfo)
| BCreated (b : UploadBody)
| BVideos (l : list VideoView)
| BSuccess (message : string).

Record Response := { status : Z; body : Body }.

(** ** The upload handler (lines 248-483) *)

Record UploadRequest := {
  req_user : User;
  req_folder_id : option string;          (* [req.query.folder_id] *)
  req_file : option UploadedFile
}.

(** [x || d] on numbers: 0 (and a missing value) is falsy. *)
Definition Z_or (x : option Z) (d : Z) : Z :=
  match x with
  | Some v => if v =? 0 then d else v
  | None => d
  end.

(** [x || d] on strings that may be missing. *)
Definition str_or (x : option string) (d : string) : string :=
  match x with
  | Some s => Str.or_else s d
  | None => d
  end.

(** [req.user.email.split('@')[0]] *)
Definition email_login (u : User) : M string :=
  match user_email u with
  | Some e => ret (Str.before "@" e)
  | None => throw (TypeError "Cannot read properties of undefined (reading 'split')")
  end.

(** [Math.ceil(bytes / (1024 * 1024))] *)
Definition ceilMB (bytes : Z) : Z := - ((- bytes) / (1024 * 1024)).

(** The variables the probe block assigns (lines 278-284). *)
Record ProbeVars := {
  p_duracao : Z;
  p_bitrateVideo : Z;
  p_codecVideo : string;
  p_largura : Z;
  p_altura : Z;
  p_formatoOriginal : string
}.

Definition probe_defaults (fileExtension : string) : ProbeVars :=
  {| p_duracao := 0; p_bitrateVideo := 0; p_codecVideo := "unknown";
     p_largura := 0; p_altura := 0;
     p_formatoOriginal := Str.substring1 fileExtension |}.

(** [Math.floor(parseInt(x) / 1000) || 0] *)
Definition kbps (bit_rate : option Z) : Z :=
  match bit_rate with
  | Some n => n / 1000
  | None => 0
  end.

(** [Math.floor(parseFloat(x) || 0)] *)
Definition whole_seconds (duration : option QArith_base.Q) : Z :=
  match duration with
  | Some q => Qfloor q
  | None => 0
  end.

(** Lines 290-294. *)
Definition read_format (fileExtension : string) (v : ProbeVars) (f : ProbeFormat) : ProbeVars :=
  {| p_duracao := whole_seconds (f_duration f);
     p_bitrateVideo := kbps (f_bit_rate f);
     p_codecVideo := p_codecVideo v;
     p_largura := p_largura v; p_altura := p_altura v;
     p_formatoOriginal := str_or (f_format_name f) (Str.substring1 fileExtension) |}.

(** Lines 298-307. *)
Definition read_stream (v : ProbeVars) (s : ProbeStream) : ProbeVars :=
  {| p_duracao := p_duracao v;
     p_bitrateVideo :=
       if (p_bitrateVideo v =? 0) && bool_decide (is_Some (s_bit_rate s))
       then kbps (s_bit_rate s) else p_bitrateVideo v;
     p_codecVideo := str_or (s_codec_name s) "unknown";
     p_largura := Z_or (s_width s) 0; p_altura := Z_or (s_height s) 0;
     p_formatoOriginal := p_formatoOriginal v |}.

(** [streams.find(s => s.codec_type === 'video')] *)
Definition find_video (streams : list ProbeStream) : option ProbeStream :=
  List.find (fun s => bool_decide (s_codec_type s = Some "video")) streams.

(** Lines 290-308 on a document that is an object. *)
Definition doc_vars (fileExtension : string) (format : option ProbeFormat)
    (streams : option (list ProbeStream)) : ProbeVars :=
  let v0 := probe_defaults fileExtension in
  let v1 := match format with Some f => read_format fileExtension v0 f | None => v0 end in
  match streams with
  | Some ss => match find_video ss with
               | Some s => read_stream v1 s
               | None => v1
               end
  | None => v1
  end.

Definition read_doc (fileExtension : string) (info : ProbeDoc) : M ProbeVars :=
  match info with
  | DocNull => throw (TypeError "Cannot read properties of null (reading 'format')")
  | DocObj format streams => ret (doc_vars fileExtension format streams)
  end.

(** Lines 277-321: a probe that throws leaves the defaults. *)
Definition probe_stage (o : Oracle) (file : UploadedFile) (fileExtension : string) : M ProbeVars :=
  try_catch
    (info <- getVideoInfo o (path file) ;; read_doc fileExtension info)
    (fun _ => ret (probe_defaults fileExtension)).

(** Line 447 reads [userBitrateLimit]. Its only declaration (line 162) is
    local to the callback of the list handler; neither the upload handler
    nor the module declares it, so evaluating the identifier throws. *)
Definition read_userBitrateLimit : M Z :=
  throw (ReferenceError "userBitrateLimit is not defined").

(** The quota error (lines 350-360). *)
Definition quota_response (spaceMB availableSpace : Z) (userData : Streaming) : Response :=
  {| status := 400;
     body := BQuota
       ("Espaço insuficiente. Necessário: " ++ pretty spaceMB ++ "MB, Disponível: "
          ++ pretty availableSpace ++ "MB")
       ("Seu plano permite " ++ pretty (espaco userData)
          ++ "MB de armazenamento. Atualmente você está usando "
          ++ pretty (espaco_usado userData)
          ++ "MB. Para enviar este arquivo, você precisa de mais "
          ++ pretty (spaceMB - availableSpace) ++ "MB livres.")
       {| required := spaceMB; available := availableSpace;
          total := espaco userData; used := espaco_usado userData |} |}.

(** Lines 363-470, the body of the inner [try]. *)
Definition place_and_persist (o : Oracle) (req : UploadRequest) (file : UploadedFile)
    (userLogin : string) (folderId : Id) (fileExtension : string) (v : ProbeVars)
    (serverId : Z) (folderName : string) (spaceMB : Z) : M Response :=
  let userId := user_id (req_user req) in
  ssh_createCompleteUserStructure o serverId userLogin
    (Z_or (user_bitrate (req_user req)) 2500)
    (Z_or (user_espectadores (req_user req)) 100) ;;;
  ssh_createUserFolder o serverId userLogin folderName ;;;
  let remotePath := "/home/streaming/" ++ userLogin ++ "/" ++ folderName ++ "/" ++ filename file in
  ssh_uploadFile o serverId (path file) remotePath ;;;
  fs_unlink (path file) ;;;
  let relativePath := userLogin ++ "/" ++ folderName ++ "/" ++ filename file in
  let videoTitle := originalname file in
  let isMP4 := String.eqb fileExtension ".mp4" in
  let codecCompatible := isCompatibleCodec (Some (p_codecVideo v)) in
  let formatCompatible := isCompatibleFormat (p_formatoOriginal v) (Some fileExtension) in
  let needsConversion := negb isMP4 || negb codecCompatible in
  let compatibilityStatus := if needsConversion then "nao" else "sim" in
  insertId <- db_insert_video o (fun n =>
    {| id := n; nome := videoTitle; descricao := ""; url := relativePath;
       caminho := remotePath; duracao := p_duracao v; tamanho_arquivo := size file;
       v_codigo_cliente := userId; pasta := folderId;
       bitrate_video := p_bitrateVideo v; formato_original := p_formatoOriginal v;
       codec_video := p_codecVideo v; largura := p_largura v; altura := p_altura v;
       is_mp4 := if isMP4 then 1 else 0; compativel := compatibilityStatus |}) ;;
  db_add_used o spaceMB folderId ;;;
  try_catch (smil_updateUserSMIL o userId userLogin serverId) (fun _ => ret tt) ;;;
  st <- (if needsConversion then ret ("Necessário Conversão", "red")
         else userBitrateLimit <- read_userBitrateLimit ;;
              ret (if p_bitrateVideo v >? userBitrateLimit
                   then ("Bitrate Alto", "yellow")
                   else ("Vídeo compatível", "green"))) ;;
  ret {| status := 201;
         body := BCreated
           {| r_id := insertId; r_nome := videoTitle; r_url := relativePath;
              r_path := remotePath; r_originalFile := remotePath;
              r_bitrate_video := p_bitrateVideo v; r_codec_video := p_codecVideo v;
              r_formato_original := Str.substring1 fileExtension;
              r_largura := p_largura v; r_altura := p_altura v;
              r_is_mp4 := String.eqb fileExtension ".mp4";
              r_needs_conversion := needsConversion;
              r_compatibility_status := fst st; r_compatibility_color := snd st;
              r_duracao := p_duracao v; r_tamanho := size file;
              r_space_used_mb := spaceMB |} |}.

(** Lines 254-475, the body of the outer [try] once [req.file] is there. *)
Definition upload_body (o : Oracle) (req : UploadRequest) (file : UploadedFile) : M Response :=
  let userId := user_id (req_user req) in
  userLogin <- email_login (req_user req) ;;
  let folderId := str_or (req_folder_id req) "default" in
  let fileExtension := Str.toLowerCase (Path.extname (originalname file)) in
  if negb (Str.mem fileExtension videoExtensions) then
    fs_unlink_quiet (path file) ;;;
    ret {| status := 400;
           body := BError ("Formato de arquivo não suportado: " ++ fileExtension)
                     (Some ("Formatos aceitos: " ++ String.concat ", " videoExtensions)) |}
  else
    v <- probe_stage o file fileExtension ;;
    let tamanho := size file in
    userRows <- db_select_folder o folderId userId ;;
    match userRows with
    | [] => ret {| status := 404; body := BError "Pasta não encontrada" None |}
    | userData :: _ =>
        let serverId := Z_or (Some (codigo_servidor userData)) 1 in
        let folderName := identificacao userData in
        let spaceMB := ceilMB tamanho in
        let availableSpace := espaco userData - espaco_usado userData in
        if spaceMB >? availableSpace then
          fs_unlink_quiet (path file) ;;;
          ret (quota_response spaceMB availableSpace userData)
        else
          try_catch
            (place_and_persist o req file userLogin folderId fileExtension v
               serverId folderName spaceMB)
            (fun uploadError => fs_unlink_quiet (path file) ;;; throw uploadError)
    end.

Definition upload_handler (o : Oracle) (req : UploadRequest) : M Response :=
  try_catch
    match req_file req with
    | None => ret {| status := 400; body := BError "Nenhum arquivo enviado" None |}
    | Some file => upload_body o req file
    end
    (fun err =>
       match req_file req with
       | Some file => if String.eqb (path file) "" then ret tt
                      else fs_unlink_quiet (path file)
       | None => ret tt
       end ;;;
       ret {| status := 500;
              body := BError "Erro no upload do vídeo" (Some (message_of err)) |}).

(** ** multer in front of the upload handler (lines 13-61, 248) *)

(** The ["video"] part of the multipart body. *)
Record Incoming := {
  in_originalname : string;
  in_mimetype : string;
  in_size : Z
}.

Definition allowedTypes : list string :=
  ["video/mp4"; "video/avi"; "video/quicktime"; "video/x-msvideo";
   "video/wmv"; "video/x-ms-wmv"; "video/flv"; "video/x-flv";
   "video/webm"; "video/mkv"; "video/x-matroska"; "video/3gpp";
   "video/3gpp2"; "video/mp2t"; "video/mpeg"; "video/ogg";
   "application/octet-stream"].

Definition fileFilter (file : Incoming) : bool :=
  let fileName := Str.toLowerCase (in_originalname file) in
  let hasValidExtension := existsb (fun ext => Str.endsWith fileName ext) videoExtensions in
  Str.mem (in_mimetype file) allowedTypes || hasValidExtension.

Definition fileSizeLimit : Z := 2 * 1024 * 1024 * 1024.

(** [req.file] for a stored part: [path] is the temp directory joined
    with the generated name. *)
Definition stored_file (now : N) (file : Incoming) : UploadedFile :=
  let name := storage_filename now (in_originalname file) in
  {| originalname := in_originalname file;
     mimetype := in_mimetype file; size := in_size file;
     filename := name; path := tempDir ++ "/" ++ name |}.

(** [upload.single('video')] on a request whose only file part, if it
    has one, is in field [video], with the temp directory in place: a
    refused or oversized part is an error handed to Express; an accepted
    one is written to the temp directory under the generated name and
    becomes [req.file]. The other errors multer can hand to Express are
    not described: a [mkdir] of the temp directory that fails (lines
    14-21), and a file in another field or a second file, which multer
    refuses by itself. *)
Definition upload_single (now : N) (part : option Incoming) : M (option UploadedFile) :=
  match part with
  | None => ret None
  | Some file =>
      if fileFilter file then
        if in_size file >? fileSizeLimit then throw (Error "File too large")
        else
          let f := stored_file now file in
          modify (set_tmp <[path f := size f]>) ;;;
          ret (Some f)
      else throw (Error ("Tipo de arquivo não suportado: " ++ in_mimetype file
             ++ ". Extensões aceitas: .mp4, .avi, .mov, .wmv, .flv, .webm, .mkv, .3gp, .ts, .mpg, .ogv, .m4v"))
  end.

Record UploadRoute := {
  raw_user : User;
  raw_folder_id : option string;
  raw_part : option Incoming;
  raw_now : N                              (* [Date.now()] when the part arrives *)
}.

(** [router.post('/upload', authMiddleware, upload.single('video'), handler)]
    for an authenticated request. A [Throw] is an error left to Express. *)
Definition route_upload (o : Oracle) (raw : UploadRoute) : M Response :=
  file <- upload_single (raw_now raw) (raw_part raw) ;;
  upload_handler o {| req_user := raw_user raw;
                      req_folder_id := raw_folder_id raw;
                      req_file := file |}.

(** ** Uploads that overlap

    Between the quota check (line 347), made on the row the lookup
    returned, and the update of the counter (line 422) the handler awaits
    the media host three times, the removal of the temp file and the
    insert: another request can be served in between. The handler is cut
    at line 363 into what runs up to the check and what runs from the
    placement on. [upload_handler] is the two halves run back to back;
    two overlapping uploads are the first halves of both followed by the
    second halves of both. *)

(** The locals of the handler that are alive at line 363. *)
Record Checked := {
  ck_file : UploadedFile;
  ck_userLogin : string;
  ck_folderId : Id;
  ck_fileExtension : string;
  ck_vars : ProbeVars;
  ck_serverId : Z;
  ck_folderName : string;
  ck_spaceMB : Z
}.

(** The outer [catch] (lines 476-482). *)
Definition upload_failed (req : UploadRequest) (err : JsError) : M Response :=
  match req_file req with
  | Some file => if String.eqb (path file) "" then ret tt
                 else fs_unlink_quiet (path file)
  | None => ret tt
  end ;;;
  ret {| status := 500;
         body := BError "Erro no upload do vídeo" (Some (message_of err)) |}.

(** Lines 249-361: the response, or the request about to place its
    file. *)
Definition upload_until_check (o : Oracle) (req : UploadRequest) : M (Response + Checked) :=
  try_catch
    match req_file req with
    | None => ret (inl {| status := 400; body := BError "Nenhum arquivo enviado" None |})
    | Some file =>
        let userId := user_id (req_user req) in
        userLogin <- email_login (req_user req) ;;
        let folderId := str_or (req_folder_id req) "default" in
        let fileExtension := Str.toLowerCase (Path.extname (originalname file)) in
        if negb (Str.mem fileExtension videoExtensions) then
          fs_unlink_quiet (path file) ;;;
          ret (inl {| status := 400;
                      body := BError ("Formato de arquivo não suportado: " ++ fileExtension)
                                (Some ("Formatos aceitos: "
                                         ++ String.concat ", " videoExtensions)) |})
        else
          v <- probe_stage o file fileExtension ;;
          let tamanho := size file in
          userRows <- db_select_folder o folderId userId ;;
          match userRows with
          | [] => ret (inl {| status := 404; body := BError "Pasta não encontrada" None |})
          | userData :: _ =>
              let serverId := Z_or (Some (codigo_servidor userData)) 1 in
              let folderName := identificacao userData in
              let spaceMB := ceilMB tamanho in
              let availableSpace := espaco userData - espaco_usado userData in
              if spaceMB >? availableSpace then
                fs_unlink_quiet (path file) ;;;
                ret (inl (quota_response spaceMB availableSpace userData))
              else
                ret (inr {| ck_file := file; ck_userLogin := userLogin;
                            ck_folderId := folderId; ck_fileExtension := fileExtension;
                            ck_vars := v; ck_serverId := serverId;
                            ck_folderName := folderName; ck_spaceMB := spaceMB |})
          end
    end
    (fun err => r <- upload_failed req err ;; ret (inl r)).

(** Lines 363-482: the inner [try] and its [catch], within the outer
    one. *)
Definition upload_from_placement (o : Oracle) (req : UploadRequest) (c : Checked) : M Response :=
  try_catch
    (try_catch
       (place_and_persist o req (ck_file c) (ck_userLogin c) (ck_folderId c)
          (ck_fileExtension c) (ck_vars c) (ck_serverId c) (ck_folderName c)
          (ck_spaceMB c))
       (fun uploadError => fs_unlink_quiet (path (ck_file c)) ;;; throw uploadError))
    (upload_failed req).

Definition resume_upload (o : Oracle) (req : UploadRequest) (x : Response + Checked) : M Response :=
  match x with
  | inl r => ret r
  | inr c => upload_from_placement o req c
  end.



(** ** The list handler (lines 116-246) *)

Record ListRequest := {
  lreq_user : User;
  lreq_folder_id : option string
}.

(** [SELECT identificacao FROM streamings WHERE codigo = ? AND codigo_cliente = ?] *)
Definition db_list_folder (o : Oracle) (folderId userId : Id) : M (list Streaming) :=
  call o OpListFolder (EListFolder folderId userId) ;;;
  w <- get ;;
  ret (List.filter
         (fun s => String.eqb (codigo s) folderId && String.eqb (codigo_cliente s) userId)
         (streamings w)).

(** [ORDER BY id DESC] *)
Definition newer_first (a b : Video) : Prop := id b <= id a.

#[global] Instance newer_first_dec : RelDecision newer_first :=
  fun a b => decide (id b <= id a).

(** [SELECT ... FROM videos WHERE codigo_cliente = ? AND pasta = ? ORDER BY id DESC] *)
Definition db_list_videos (o : Oracle) (userId folderId : Id) : M (list Video) :=
  call o OpListVideos (EListVideos userId folderId) ;;;
  w <- get ;;
  ret (merge_sort newer_first
         (List.filter
            (fun v => String.eqb (v_codigo_cliente v) userId && String.eqb (pasta v) folderId)
            (videos w))).

Definition wowza_content : string := "/usr/local/WowzaStreamingEngine/content/".

(** Lines 166-186. *)
Definition view_url (userLogin folderName : string) (video : Video) : string :=
  let u0 := Str.or_else (url video) (caminho video) in
  let u1 := if String.eqb u0 "" && negb (String.eqb (caminho video) "")
            then caminho video else u0 in
  let u2 := if String.eqb u1 ""
            then userLogin ++ "/" ++ folderName ++ "/" ++ nome video else u1 in
  let u3 := if Str.includes u2 wowza_content then Str.replace wowza_content "" u2 else u2 in
  if Str.startsWith u3 "/" then Str.substring1 u3 else u3.

(** Lines 164-238, the callback of [rows.map]. *)
Definition video_view (userLogin folderName : string) (userBitrateLimit : Z)
    (video : Video) : VideoView :=
  let currentBitrate := Z_or (Some (bitrate_video video)) 0 in
  let bitrateExceedsLimit := currentBitrate >? userBitrateLimit in
  let fileExtension := Str.toLowerCase (Path.extname (nome video)) in
  let isMP4 := is_mp4 video =? 1 in
  let codecCompatible := isCompatibleCodec (Some (codec_video video)) in
  let formatCompatible := isCompatibleFormat (formato_original video) (Some fileExtension) in
  let needsConversion := negb isMP4 || negb codecCompatible || negb formatCompatible in
  let st := if needsConversion then ("needs_conversion", "Necessário Conversão")
            else if bitrateExceedsLimit then ("bitrate_high", "Bitrate Alto")
            else ("compatible", "Compatível") in
  {| l_id := id video; l_nome := nome video;
     l_url := view_url userLogin folderName video;
     l_duracao := duracao video; l_tamanho := tamanho_arquivo video;
     l_bitrate_video := bitrate_video video;
     l_formato_original := formato_original video;
     l_codec_video := codec_video video; l_is_mp4 := is_mp4 video;
     l_compativel := compativel video;
     l_largura := largura video; l_altura := altura video;
     l_folder := folderName; l_user := userLogin;
     l_user_bitrate_limit := userBitrateLimit;
     l_bitrate_exceeds_limit := bitrateExceedsLimit;
     l_needs_conversion := needsConversion;
     l_compatibility_status := fst st; l_compatibility_message := snd st;
     l_codec_compatible := codecCompatible;
     l_format_compatible := formatCompatible |}.

Definition list_handler (o : Oracle) (req : ListRequest) : M Response :=
  try_catch
    (let userId := user_id (lreq_user req) in
     let folderId := str_or (lreq_folder_id req) "" in
     if String.eqb folderId "" then
       ret {| status := 400; body := BError "folder_id é obrigatório" None |}
     else
       folderRows <- db_list_folder o folderId userId ;;
       match folderRows with
       | [] => ret {| status := 404; body := BError "Pasta não encontrada" None |}
       | folder :: _ =>
           let folderName := identificacao folder in
           userLogin <- email_login (lreq_user req) ;;
           rows <- db_list_videos o userId folderId ;;
           let userBitrateLimit := Z_or (user_bitrate (lreq_user req)) 2500 in
           ret {| status := 200;
                  body := BVideos (List.map (video_view userLogin folderName userBitrateLimit) rows) |}
       end)
    (fun err =>
       ret {| status := 500;
              body := BError "Erro ao buscar vídeos" (Some (message_of err)) |}).

(** ** The delete handler (lines 543-622) *)

Record DeleteRequest := {
  dreq_user : User;
  dreq_id : Z                              (* [req.params.id] *)
}.

(** [SELECT caminho, nome, tamanho_arquivo, pasta FROM videos WHERE id = ? AND
    (codigo_cliente = ? OR codigo_cliente IN
       (SELECT codigo FROM streamings WHERE codigo_cliente = ?))] *)
Definition db_select_video (o : Oracle) (videoId : Z) (userId : Id) : M (list Video) :=
  call o OpSelectVideo (ESelectVideo videoId userId) ;;;
  w <- get ;;
  ret (List.filter
         (fun v => (id v =? videoId) &&
                   (String.eqb (v_codigo_cliente v) userId ||
                    existsb (fun s => String.eqb (codigo_cliente s) userId &&
                                      String.eqb (codigo s) (v_codigo_cliente v))
                            (streamings w)))
         (videos w)).

(** [SELECT codigo_servidor FROM streamings WHERE codigo_cliente = ? LIMIT 1] *)
Definition db_select_server (o : Oracle) (userId : Id) : M (list Streaming) :=
  call o OpSelectServer (ESelectServer userId) ;;;
  w <- get ;;
  ret (take 1 (List.filter (fun s => String.eqb (codigo_cliente s) userId) (streamings w))).

(** [SSHManager.getFileInfo]: [(exists, size)] *)
Definition ssh_getFileInfo (o : Oracle) (serverId : Z) (remote : string) : M (bool * Z) :=
  call o OpSshStat (ESshStat serverId remote) ;;;
  w <- get ;;
  ret match remote_files w !! (serverId, remote) with
      | Some sz => (true, sz)
      | None => (false, 0)
      end.

Definition ssh_deleteFile (o : Oracle) (serverId : Z) (remote : string) : M unit :=
  call o OpSshDelete (ESshDelete serverId remote) ;;;
  modify (set_remote (delete (serverId, remote))).

(** [DELETE FROM videos WHERE id = ?] *)
Definition db_delete_video (o : Oracle) (videoId : Z) : M unit :=
  call o OpDeleteVideo (EDeleteVideo videoId) ;;;
  w <- get ;;
  modify (set_videos (List.filter (fun v => negb (id v =? videoId))) (next_insert_id w)).

(** [SET espaco_usado = GREATEST(espaco_usado - ?, 0) WHERE codigo = ?],
    on one row *)
Definition release_used (mb : Z) (folderId : Id) (s : Streaming) : Streaming :=
  if String.eqb (codigo s) folderId
  then with_used (Z.max (espaco_usado s - mb) 0) s else s.

(** [UPDATE streamings SET espaco_usado = GREATEST(espaco_usado - ?, 0) WHERE codigo = ?] *)
Definition db_release_used (o : Oracle) (mb : Z) (folderId : Id) : M unit :=
  call o OpReleaseUsed (EReleaseUsed folderId mb) ;;;
  modify (set_streamings (List.map (release_used mb folderId))).

(** [req.user.usuario || req.user.email?.split('@')[0] || `user_${userId}`] *)
Definition delete_login (u : User) : string :=
  Str.or_else (str_or (user_usuario u) "")
    (Str.or_else (match user_email u with Some e => Str.before "@" e | None => "" end)
       ("user_" ++ user_id u)).

Definition delete_handler (o : Oracle) (req : DeleteRequest) : M Response :=
  try_catch
    (let videoId := dreq_id req in
     let userId := user_id (dreq_user req) in
     let userLogin := delete_login (dreq_user req) in
     videoRows <- db_select_video o videoId userId ;;
     match videoRows with
     | [] => ret {| status := 404; body := BError "Vídeo não encontrado" None |}
     | video :: _ =>
         if negb (Str.includes (caminho video) ("/" ++ userLogin ++ "/")) then
           ret {| status := 403; body := BError "Acesso negado" None |}
         else
           serverRows <- db_select_server o userId ;;
           let serverId := match serverRows with
                           | s :: _ => codigo_servidor s
                           | [] => 1
                           end in
           let fileSize0 := Z_or (Some (tamanho_arquivo video)) 0 in
           let remotePath := if Str.startsWith (caminho video) "/home/streaming"
                             then caminho video
                             else "/home/streaming/" ++ caminho video in
           fileSize <- (if fileSize0 =? 0 then
                          try_catch
                            (fileInfo <- ssh_getFileInfo o serverId remotePath ;;
                             ret (if fst fileInfo then snd fileInfo else 0))
                            (fun _ => ret fileSize0)
                        else ret fileSize0) ;;
           try_catch
             (ssh_deleteFile o serverId remotePath ;;;
              try_catch (smil_updateUserSMIL o userId userLogin serverId)
                        (fun _ => ret tt))
             (fun _ => ret tt) ;;;
           db_delete_video o videoId ;;;
           let spaceMB := ceilMB fileSize in
           db_release_used o spaceMB (pasta video) ;;;
           ret {| status := 200; body := BSuccess "Vídeo removido com sucesso" |}
     end)
    (fun err =>
       ret {| status := 500;
              body := BError "Erro ao remover vídeo" (Some (message_of err)) |}).

(** ** The file name in the words of the specification

    "runs of consecutive underscores collapsed to one": the name is cut
    into its maximal runs of equal characters, every run of underscores
    is shortened to a single one, and the runs are glued back. *)

(** [(c, n)] stands for [n + 1] copies of [c]. *)
Fixpoint runs (s : string) : list (ascii * nat) :=
  match s with
  | EmptyString => []
  | String c s' =>
      match runs s' with
      | (d, n) :: rs => if Ascii.eqb c d then (d, S n) :: rs
                        else (c, O) :: (d, n) :: rs
      | [] => [(c, O)]
      end
  end.

Fixpoint repeat_char (c : ascii) (n : nat) (s : string) : string :=
  match n with
  | O => s
  | S n' => String c (repeat_char c n' s)
  end.

Fixpoint unruns (rs : list (ascii * nat)) : string :=
  match rs with
  | [] => EmptyString
  | (c, n) :: rs' => repeat_char c (S n) (unruns rs')
  end.

Definition shorten_underscores (r : ascii * nat) : ascii * nat :=
  if Ascii.eqb (fst r) "_" then (fst r, O) else r.

Definition collapse_runs_spec (s : string) : string :=
  unruns (List.map shorten_underscores (runs s)).

(** The characters a generated file name is made of. *)
Definition filename_char (c : ascii) : bool :=
  allowed_char c || Ascii.eqb c "_".

(** ** Vocabulary of the properties *)

(** The normalised extension the pipeline works with. *)
Definition fileExtension_of (name : string) : string :=
  Str.toLowerCase (Path.extname name).

(** The destination identifier the upload handler works with. *)
Definition folderId_of (raw : UploadRoute) : Id :=
  str_or (raw_folder_id raw) "default".

(** The probe rejected: process error, exit code other than 0, nothing
    printed, or output that does not parse. *)
Definition probe_failed (o : Oracle) : bool :=
  match proc o with
  | ProcError _ => true
  | ProcClose exit_code stdout =>
      negb (exit_code =? 0) || String.eqb stdout ""
      || negb (bool_decide (is_Some (JSON_parse o stdout)))
  end.

(** The rows the destination lookup of the upload handler returns. *)
Definition folder_rows (raw : UploadRoute) (w : World) : list Streaming :=
  List.filter (owns_folder (folderId_of raw) (user_id (raw_user raw)))
    (streamings w).

(** The request carries an acceptable part with a supported extension,
    the user has a login, and the destination lookup does not throw. *)
Definition reaches_lookup (o : Oracle) (raw : UploadRoute)
    (part : Incoming) (login : string) : Prop :=
  raw_part raw = Some part /\
  fileFilter part = true /\
  (in_size part >? fileSizeLimit) = false /\
  option_map (Str.before "@") (user_email (raw_user raw)) = Some login /\
  Str.mem (fileExtension_of (in_originalname part)) videoExtensions = true /\
  fails o OpSelectFolder = None.

(** ... and the lookup returns [userData] as its first row. *)
Definition looked_up (o : Oracle) (raw : UploadRoute) (w : World)
    (part : Incoming) (login : string) (userData : Streaming) : Prop :=
  reaches_lookup o raw part login /\
  head (folder_rows raw w) = Some userData.

(** The three SSH calls of the placement succeed. *)
Definition placement_ok (o : Oracle) : Prop :=
  fails o OpSshStructure = None /\ fails o OpSshFolder = None /\
  fails o OpSshUpload = None.

(** Where the upload handler puts the file on the media host. *)
Definition remotePath_of (login : string) (userData : Streaming) (file : UploadedFile) : string :=
  "/home/streaming/" ++ login ++ "/" ++ identificacao userData ++ "/" ++ filename file.

Definition serverId_of (userData : Streaming) : Z :=
  Z_or (Some (codigo_servidor userData)) 1.

(** [0 <= used <= capacity] on one destination, and on all of them. *)
Definition quota_ok (s : Streaming) : Prop :=
  0 <= espaco_usado s <= espaco s.

Definition quota_inv (w : World) : Prop :=
  Forall quota_ok (streamings w).

(** [codigo] is the key of table [streamings]. *)
Definition folder_key (w : World) : Prop :=
  NoDup (List.map codigo (streamings w)).


(** Every remote file has a record that points to it. *)
Definition orphan_free (w : World) : Prop :=
  forall serverId p sz, remote_files w !! (serverId, p) = Some sz ->
    exists v, In v (videos w) /\ caminho v = p.

Definition is_upload (e : Event) : bool :=
  match e with ESshUpload _ _ _ => true | _ => false end.

Definition is_insert (e : Event) : bool :=
  match e with EInsertVideo _ _ => true | _ => false end.

Definition is_add_used (e : Event) : bool :=
  match e with EAddUsed _ _ => true | _ => false end.

Definition is_release_used (e : Event) : bool :=
  match e with EReleaseUsed _ _ => true | _ => false end.

Definition is_ssh_delete (e : Event) : bool :=
  match e with ESshDelete _ _ => true | _ => false end.

(** "The reservation happens before the transfer": every increment of the
    used-capacity counter is issued before every file transfer. *)
Definition reserved_before_transfer (t : list Event) : Prop :=
  forall i j e1 e2, t !! i = Some e1 -> is_add_used e1 = true ->
                    t !! j = Some e2 -> is_upload e2 = true -> (i < j)%nat.

(** What the code does instead: an increment is only ever issued after a
    transfer and an insert. *)
Definition committed_after_insert (t : list Event) : Prop :=
  forall k e, t !! k = Some e -> is_add_used e = true ->
    exists i j e1 e2, (i < j < k)%nat /\
      t !! i = Some e1 /\ is_upload e1 = true /\
      t !! j = Some e2 /\ is_insert e2 = true.

(** Whatever [w'] has more than [w], in table [videos] or on the media
    host, lies at [/home/streaming/<login>/<folder>/<fn>]. *)
Definition named_after (fn : string) (w w' : World) : Prop :=
  (forall v, In v (videos w') -> In v (videos w) \/
     exists login folder,
       caminho v = "/home/streaming/" ++ login ++ "/" ++ folder ++ "/" ++ fn /\
       url v = login ++ "/" ++ folder ++ "/" ++ fn) /\
  (forall serverId p sz, remote_files w' !! (serverId, p) = Some sz ->
     remote_files w !! (serverId, p) = Some sz \/
     exists login folder,
       p = "/home/streaming/" ++ login ++ "/" ++ folder ++ "/" ++ fn).

(** What the probe block leaves in its variables. *)
Definition probe_vars (o : Oracle) (fileExtension : string) : ProbeVars :=
  match proc o with
  | ProcError _ => probe_defaults fileExtension
  | ProcClose exit_code stdout =>
      if (exit_code =? 0) && negb (String.eqb stdout "") then
        match JSON_parse o stdout with
        | Some (DocObj format streams) => doc_vars fileExtension format streams
        | _ => probe_defaults fileExtension
        end
      else probe_defaults fileExtension
  end.


(** ** Scenarios *)

Module Scenario.

Definition ana : User :=
  {| user_id := "7"; user_email := Some "ana@example.com";
     user_usuario := None; user_bitrate := Some 2500;
     user_espectadores := None |}.

(** A destination of ana's, of 1000 MB, [usado] MB of it used. *)
Definition folder (cod : Id) (name : string) (usado : Z) : Streaming :=
  {| codigo := cod; codigo_cliente := "7"; codigo_servidor := 1;
     identificacao := name; espaco := 1000; espaco_usado := usado |}.

Definition filmes (usado : Z) : Streaming := folder "12" "filmes" usado.

Definition world_of (rows : list Streaming) : World :=
  {| tmp_files := ∅; remote_files := ∅; streamings := rows;
     videos := []; next_insert_id := 1; trace := [] |}.

(** A world whose only destination is [filmes]. *)
Definition world (usado : Z) : World := world_of [filmes usado].

(** ffprobe's report: an audio stream and a video stream of the given
    codec, the container at [kb] kbps. *)
Definition report (codec : string) (kb : Z) : ProbeDoc :=
  DocObj
    (Some {| f_duration := Some (QArith_base.Qmake 21 2);
             f_bit_rate := Some (kb * 1000);
             f_format_name := Some "mov,mp4,m4a,3gp,3g2,mj2" |})
    (Some [ {| s_codec_type := Some "audio"; s_codec_name := Some "aac";
               s_width := None; s_height := None; s_bit_rate := Some 128000 |};
            {| s_codec_type := Some "video"; s_codec_name := Some codec;
               s_width := Some 1920; s_height := Some 1080;
               s_bit_rate := Some (kb * 1000) |} ]).

#[global] Instance Op_eq_dec : EqDecision Op.
Proof. solve_decision. Defined.

(** ffprobe reports [doc]; the calls in [failing] throw, all others
    succeed. *)
Definition oracle (doc : ProbeDoc) (failing : list Op) : Oracle :=
  {| proc := ProcClose 0 "{ }";
     JSON_parse := fun _ => Some doc;
     fails := fun op => if bool_decide (op ∈ failing)
                        then Some "connection lost" else None |}.

(** ffprobe exits with [exit_code] and prints nothing that parses. *)
Definition oracle_probe_failing (exit_code : Z) : Oracle :=
  {| proc := ProcClose exit_code "";
     JSON_parse := fun _ => None;
     fails := fun _ => None |}.

Definition part (name : string) (bytes : Z) : Incoming :=
  {| in_originalname := name; in_mimetype := "video/mp4"; in_size := bytes |}.

Definition send (folder : option string) (name : string) (bytes : Z) : UploadRoute :=
  {| raw_user := ana; raw_folder_id := folder;
     raw_part := Some (part name bytes); raw_now := 1700000000000 |}.

End Scenario.


(** ** The test route (lines 497-541) *)

Record TestRequest := {
  treq_user : User;
  treq_userId : Id;                        (* [req.params.userId] *)
  treq_folder : string;
  treq_filename : string
}.

Inductive TestBody :=
| TExists (path : string) (size : Z) (url : string)   (* [success: true, exists: true] *)
| TNotFound (url : string)                            (* [success: false], line 524 *)
| TCheckFailed (details : string)                     (* line 531 *)
| TFailed (details : string).                         (* line 539 *)

Record TestResponse := { t_status : Z; t_body : TestBody }.

(** Line 526 reads [relativePath], which nothing in scope declares (the
    only [relativePath] of the module is local to the upload handler). *)
Definition read_relativePath : M string :=
  throw (ReferenceError "relativePath is not defined").

Definition test_handler (o : Oracle) (req : TestRequest) : M TestResponse :=
  try_catch
    (userLogin <- email_login (treq_user req) ;;
     serverRows <- db_select_server o (treq_userId req) ;;
     let serverId := match serverRows with
                     | s :: _ => codigo_servidor s
                     | [] => 1
                     end in
     let remotePath := wowza_content ++ userLogin ++ "/" ++ treq_folder req
                         ++ "/" ++ treq_filename req in
     try_catch
       (fileInfo <- ssh_getFileInfo o serverId remotePath ;;
        if fst fileInfo then
          ret {| t_status := 200;
                 t_body := TExists remotePath (snd fileInfo)
                             ("/content/" ++ userLogin ++ "/" ++ treq_folder req
                                ++ "/" ++ treq_filename req) |}
        else
          relativePath <- read_relativePath ;;
          ret {| t_status := 200; t_body := TNotFound ("/content" ++ relativePath) |})
       (fun sshError =>
          ret {| t_status := 500; t_body := TCheckFailed (message_of sshError) |}))
    (fun err => ret {| t_status := 500; t_body := TFailed (message_of err) |}).

(** ** [formatDuration] (lines 485-495), on whole seconds *)

(** [n.toString().padStart(2, '0')] *)
Definition pad2 (n : Z) : string :=
  let s := pretty n in
  if (String.length s <? 2)%nat then "0" ++ s else s.

(** [%] truncates towards zero ([Z.rem]); [Math.floor] of a quotient of
    integers is [Z.div]. *)
Definition formatDuration (seconds : Z) : string :=
  let h := seconds / 3600 in
  let m := Z.rem seconds 3600 / 60 in
  let s := Z.rem seconds 60 in
  if h >? 0 then pad2 h ++ ":" ++ pad2 m ++ ":" ++ pad2 s
  else pad2 m ++ ":" ++ pad2 s.

(** ** More vocabulary *)

(** multer refuses the part. *)
Definition refused (part : Incoming) : bool :=
  negb (fileFilter part) || (in_size part >? fileSizeLimit).

(** Every stage up to the update of the counter succeeds; the SMIL
    refresh may fail. *)
Definition persists (o : Oracle) (raw : UploadRoute) (w : World)
    (part : Incoming) (login : string) (userData : Streaming) : Prop :=
  looked_up o raw w part login userData /\
  ceilMB (in_size part) <= espaco userData - espaco_usado userData /\
  placement_ok o /\
  fails o OpInsertVideo = None /\ fails o OpAddUsed = None.

(** The upload handler's [needsConversion] for a part under an oracle. *)
Definition upload_needs_conversion (o : Oracle) (part : Incoming) : bool :=
  let ext := fileExtension_of (in_originalname part) in
  negb (String.eqb ext ".mp4")
  || negb (isCompatibleCodec (Some (p_codecVideo (probe_vars o ext)))).

(** The row the upload handler inserts. *)
Definition inserted_row (o : Oracle) (raw : UploadRoute) (w : World)
    (part : Incoming) (login : string) (userData : Streaming) : Video :=
  let file := stored_file (raw_now raw) part in
  let ext := fileExtension_of (in_originalname part) in
  let v := probe_vars o ext in
  {| id := next_insert_id w; nome := in_originalname part; descricao := "";
     url := login ++ "/" ++ identificacao userData ++ "/" ++ filename file;
     caminho := remotePath_of login userData file;
     duracao := p_duracao v; tamanho_arquivo := in_size part;
     v_codigo_cliente := user_id (raw_user raw); pasta := folderId_of raw;
     bitrate_video := p_bitrateVideo v; formato_original := p_formatoOriginal v;
     codec_video := p_codecVideo v; largura := p_largura v; altura := p_altura v;
     is_mp4 := if String.eqb ext ".mp4" then 1 else 0;
     compativel := if upload_needs_conversion o part then "nao" else "sim" |}.

(** The world a persisted upload leaves, up to its trace. *)
Definition persisted (o : Oracle) (raw : UploadRoute) (w w' : World)
    (part : Incoming) (login : string) (userData : Streaming) : Prop :=
  let file := stored_file (raw_now raw) part in
  tmp_files w' !! path file = None /\
  remote_files w'
  = <[(serverId_of userData, remotePath_of login userData file) := in_size part]>
      (remote_files w) /\
  videos w' = (videos w ++ [inserted_row o raw w part login userData])%list /\
  next_insert_id w' = next_insert_id w + 1 /\
  streamings w'
  = List.map (add_used (ceilMB (in_size part)) (folderId_of raw)) (streamings w).

(** The rows the list handler shows for a user and a folder. *)
Definition listed_rows (userId folderId : Id) (w : World) : list Video :=
  List.filter
    (fun v => String.eqb (v_codigo_cliente v) userId && String.eqb (pasta v) folderId)
    (videos w).

(** The status the list handler computes, in terms of the stored row. *)
Definition streams_as_is (row : Video) : bool :=
  (is_mp4 row =? 1) && isCompatibleCodec (Some (codec_video row))
  && String.eqb (fileExtension_of (nome row)) ".mp4".

Definition expected_status (limit : Z) (row : Video) : string :=
  if negb (streams_as_is row) then "needs_conversion"
  else if bitrate_video row >? limit then "bitrate_high"
  else "compatible".

(** Nothing but the trace changed. *)
Definition same_data (w w' : World) : Prop :=
  tmp_files w' = tmp_files w /\ remote_files w' = remote_files w /\
  streamings w' = streamings w /\ videos w' = videos w /\
  next_insert_id w' = next_insert_id w.

(** The rows the delete handler's lookup returns. *)
Definition deletable_rows (req : DeleteRequest) (w : World) : list Video :=
  List.filter
    (fun v => (id v =? dreq_id req) &&
              (String.eqb (v_codigo_cliente v) (user_id (dreq_user req)) ||
               existsb (fun s => String.eqb (codigo_cliente s) (user_id (dreq_user req)) &&
                                 String.eqb (codigo s) (v_codigo_cliente v))
                       (streamings w)))
    (videos w).

(** The media host the delete handler and the test route address: that
    of the first streaming of the user, 1 without one. *)
Definition first_serverId (userId : Id) (w : World) : Z :=
  match List.filter (fun s => String.eqb (codigo_cliente s) userId) (streamings w) with
  | s :: _ => codigo_servidor s
  | [] => 1
  end.

(** The path the delete handler removes for a row. *)
Definition delete_remotePath (video : Video) : string :=
  if Str.startsWith (caminho video) "/home/streaming"
  then caminho video else "/home/streaming/" ++ caminho video.

(** The lookups and writes the delete handler makes in the database
    succeed. *)
Definition delete_db_ok (o : Oracle) : Prop :=
  fails o OpSelectVideo = None /\ fails o OpSelectServer = None /\
  fails o OpDeleteVideo = None /\ fails o OpReleaseUsed = None.

(** The delete handler finds [video] for the request and lets the
    requester remove it. *)
Definition may_delete (req : DeleteRequest) (w : World) (video : Video) : Prop :=
  head (deletable_rows req w) = Some video /\
  Str.includes (caminho video) ("/" ++ delete_login (dreq_user req) ++ "/") = true.

(** A table with one uploaded video, its file on the media host. *)
Module Stored.

Definition clip : Video :=
  {| id := 1; nome := "clip.mkv"; descricao := "";
     url := "ana/filmes/1700000000000_clip.mkv";
     caminho := "/home/streaming/ana/filmes/1700000000000_clip.mkv";
     duracao := 10; tamanho_arquivo := 3000000;
     v_codigo_cliente := "7"; pasta := "12";
     bitrate_video := 1200; formato_original := "matroska,webm";
     codec_video := "h264"; largura := 1280; altura := 720;
     is_mp4 := 0; compativel := "nao" |}.

Definition world : World :=
  {| tmp_files := ∅;
     remote_files := {[ (1, caminho clip) := 3000000 ]};
     streamings := [Scenario.filmes 103];
     videos := [clip]; next_insert_id := 2; trace := [] |}.

Definition remove : DeleteRequest :=
  {| dreq_user := Scenario.ana; dreq_id := 1 |}.

End Stored.

(** The calls of an upload that goes through, in order. *)
Definition upload_calls (raw : UploadRoute) (part : Incoming) (login : string)
    (userData : Streaming) : list Event :=
  let file := stored_file (raw_now raw) part in
  let serverId := serverId_of userData in
  [ EProbe (path file);
    ESelectFolder (folderId_of raw) (user_id (raw_user raw));
    ESshStructure serverId login (Z_or (user_bitrate (raw_user raw)) 2500)
      (Z_or (user_espectadores (raw_user raw)) 100);
    ESshFolder serverId login (identificacao userData);
    ESshUpload serverId (path file) (remotePath_of login userData file);
    EUnlink (path file);
    EInsertVideo (in_originalname part) (remotePath_of login userData file);
    EAddUsed (folderId_of raw) (ceilMB (in_size part));
    ESmil (user_id (raw_user raw)) login serverId ].
Example extname_examples :
  Path.extname "index.html" = ".html" /\ Path.extname "index.coffee.md" = ".md" /\
  Path.extname "index." = "." /\ Path.extname "index" = "" /\
  Path.extname ".index" = "" /\ Path.extname ".index.md" = ".md" /\
  Path.extname ".." = "" /\ Path.extname "a/b.txt/" = ".txt" /\
  Path.extname "a.b/c" = "" /\ Path.extname "..." = ".".
Proof. repeat split; reflexivity. Qed.

Example storage_filename_example :
  storage_filename 1700000000000 "My  vídeo (1)__final.MP4"
  = "1700000000000_My_v_deo_1_final.MP4".
Proof. vm_compute. reflexivity. Qed.

(** * Properties *)

(** ** Strings *)

Section Forallb.
Variables p q : ascii -> bool.

Lemma forallb_app s t :
  Str.forallb p (s ++ t) = Str.forallb p s && Str.forallb p t.
Proof.
  induction s as [|c s IH]; simpl; [done|].
  by rewrite IH, andb_assoc.
Qed.

Lemma forallb_impl s :
  (forall c, p c = true -> q c = true) ->
  Str.forallb p s = true -> Str.forallb q s = true.
Proof.
  intros Hpq. induction s as [|c s IH]; simpl; [done|].
  rewrite !andb_true_iff. intros [Hc Hs]. auto.
Qed.
End Forallb.

Lemma pretty_N_go_digits x s :
  Str.forallb Str.is_digit s = true ->
  Str.forallb Str.is_digit (pretty_N_go x s) = true.
Proof.
  revert s. induction (N.lt_wf_0 x) as [x _ IH]. intros s Hs.
  destruct (decide (0 < x)%N) as [Hx|Hx].
  - rewrite pretty_N_go_step by done.
    apply IH; [by apply N.div_lt|].
    simpl. rewrite Hs, andb_true_r.
    unfold pretty_N_char. by repeat case_match.
  - assert (x = 0%N) as -> by lia. by rewrite pretty_N_go_0.
Qed.

Lemma pretty_N_digits (n : N) : Str.forallb Str.is_digit (pretty n) = true.
Proof.
  unfold pretty, pretty_N. case_decide; [done|].
  by apply pretty_N_go_digits.
Qed.

Lemma digit_filename_char c : Str.is_digit c = true -> filename_char c = true.
Proof.
  unfold filename_char, allowed_char. intros ->.
  by rewrite !orb_true_r.
Qed.

Lemma replace_disallowed_chars s :
  Str.forallb filename_char (replace_disallowed s) = true.
Proof.
  unfold replace_disallowed.
  induction s as [|c s IH]; simpl; [done|].
  rewrite IH, andb_true_r. unfold filename_char.
  destruct (allowed_char c) eqn:Hc; [by rewrite Hc|done].
Qed.

Lemma collapse_underscores_chars p s :
  Str.forallb p s = true -> Str.forallb p (collapse_underscores s) = true.
Proof.
  induction s as [|c s IH]; simpl; [done|].
  rewrite andb_true_iff. intros [Hc Hs].
  destruct (Ascii.eqb c "_" && Str.startsWith s "_"); simpl; [auto|].
  rewrite Hc. auto.
Qed.

Lemma storage_filename_chars now name :
  Str.forallb filename_char (storage_filename now name) = true.
Proof.
  unfold storage_filename, sanitizedName. rewrite !forallb_app.
  rewrite (forallb_impl _ _ _ digit_filename_char (pretty_N_digits now)).
  simpl. apply collapse_underscores_chars, replace_disallowed_chars.
Qed.

#[local] Arguments Str.startsWith : simpl never.
#[local] Arguments String.prefix : simpl never.

Lemma prefix_empty s : String.prefix "" s = true.
Proof. by destruct s. Qed.

Lemma prefix_cons d p c s :
  String.prefix (String d p) (String c s) = Ascii.eqb c d && String.prefix p s.
Proof.
  change (String.prefix (String d p) (String c s))
    with (if ascii_dec d c then String.prefix p s else false).
  destruct (ascii_dec d c) as [->|Hne].
  - by rewrite Ascii.eqb_refl.
  - apply not_eq_sym, Ascii.eqb_neq in Hne. by rewrite Hne.
Qed.

Lemma includes_cons c s p :
  Str.includes (String c s) p = String.prefix p (String c s) || Str.includes s p.
Proof. done. Qed.

Lemma startsWith_char c d s :
  Str.startsWith (String c s) (String d "") = Ascii.eqb c d.
Proof.
  unfold Str.startsWith. by rewrite prefix_cons, prefix_empty, andb_true_r.
Qed.

Lemma collapse_underscores_head s :
  Str.startsWith (collapse_underscores s) "_" = Str.startsWith s "_".
Proof.
  induction s as [|c s IH]; [done|].
  simpl. destruct (Ascii.eqb c "_" && Str.startsWith s "_") eqn:Hdrop.
  - apply andb_true_iff in Hdrop as [Hc Hs].
    by rewrite IH, Hs, startsWith_char, Hc.
  - by rewrite !startsWith_char.
Qed.

(** No two underscores in a row survive. *)
Lemma collapse_underscores_no_run s :
  Str.includes (collapse_underscores s) "__" = false.
Proof.
  induction s as [|c s IH]; [done|].
  simpl. destruct (Ascii.eqb c "_" && Str.startsWith s "_") eqn:Hdrop; [done|].
  rewrite includes_cons, IH, orb_false_r, prefix_cons.
  fold (Str.startsWith (collapse_underscores s) "_").
  by rewrite collapse_underscores_head.
Qed.

Lemma runs_head s :
  Str.startsWith s "_" =
  match runs s with
  | (d, _) :: _ => Ascii.eqb d "_"
  | [] => false
  end.
Proof.
  destruct s as [|c s]; [done|].
  rewrite startsWith_char. simpl.
  destruct (runs s) as [|[d n] rs]; [done|].
  destruct (Ascii.eqb c d) eqn:Hcd; [|done].
  by apply Ascii.eqb_eq in Hcd as ->.
Qed.

Lemma unruns_runs s : unruns (runs s) = s.
Proof.
  induction s as [|c s IH]; [done|].
  simpl. destruct (runs s) as [|[d n] rs].
  - simpl in *. by rewrite <- IH.
  - destruct (Ascii.eqb c d) eqn:Hcd.
    + apply Ascii.eqb_eq in Hcd as ->. simpl in *. by rewrite IH.
    + simpl in *. by rewrite IH.
Qed.

Lemma shorten_single c : shorten_underscores (c, O) = (c, O).
Proof. unfold shorten_underscores. simpl. by destruct (Ascii.eqb c "_"). Qed.

Lemma shorten_longer d n :
  shorten_underscores (d, S n)
  = if Ascii.eqb d "_" then shorten_underscores (d, n) else (d, S n).
Proof. unfold shorten_underscores. simpl. by destruct (Ascii.eqb d "_"). Qed.

(** The regular-expression replacement does what the specification says. *)
Lemma collapse_underscores_spec s :
  collapse_underscores s = collapse_runs_spec s.
Proof.
  unfold collapse_runs_spec.
  induction s as [|c s IH]; [done|].
  cbn [collapse_underscores runs]. rewrite runs_head.
  destruct (runs s) as [|[d n] rs].
  - rewrite andb_false_r, IH. cbn [List.map]. by rewrite shorten_single.
  - destruct (Ascii.eqb c d) eqn:Hcd.
    + apply Ascii.eqb_eq in Hcd as ->. rewrite andb_diag.
      cbn [List.map] in *. rewrite shorten_longer.
      destruct (Ascii.eqb d "_") eqn:Hd; [done|].
      rewrite IH. unfold shorten_underscores. simpl. by rewrite Hd.
    + assert (Ascii.eqb c "_" && Ascii.eqb d "_" = false) as ->.
      { destruct (Ascii.eqb c "_") eqn:Hc, (Ascii.eqb d "_") eqn:Hd; try done.
        apply Ascii.eqb_eq in Hc as ->. apply Ascii.eqb_eq in Hd as ->.
        by rewrite Ascii.eqb_refl in Hcd. }
      rewrite IH. cbn [List.map]. by rewrite shorten_single.
Qed.

(** ** Running the handlers

    The handlers are straight-line code over the effect monad, so a run is
    followed by unfolding the monad and splitting on whatever the next
    branch looks at: an oracle answer, a lookup, a test. *)

Ltac red_M_in H :=
  lazy beta iota zeta delta
    [bind ret throw try_catch modify get call
     fs_unlink fs_unlink_quiet db_select_folder ssh_createCompleteUserStructure
     ssh_createUserFolder ssh_uploadFile db_insert_video db_add_used
     smil_updateUserSMIL email_login read_userBitrateLimit
     db_list_folder db_list_videos db_select_video db_select_server
     ssh_getFileInfo ssh_deleteFile db_delete_video db_release_used] in H;
  cbn [log set_tmp set_remote set_streamings set_videos tmp_files remote_files
       streamings videos next_insert_id trace fst snd status body
       req_user req_folder_id req_file lreq_user lreq_folder_id
       dreq_user dreq_id negb orb andb
       probe_defaults p_duracao p_bitrateVideo p_codecVideo p_largura p_altura
       p_formatoOriginal nome caminho] in H;
  repeat match type of H with
         | context [originalname (stored_file ?n ?p)] =>
             change (originalname (stored_file n p)) with (in_originalname p) in H
         | context [size (stored_file ?n ?p)] =>
             change (size (stored_file n p)) with (in_size p) in H
         end.

Ltac split_on H x :=
  first [ match goal with E : x = _ |- _ => rewrite E in H end
        | destruct x eqn:? ].

Ltac split_head H :=
  match type of H with
  | context [match ?x with _ => _ end] =>
      lazymatch x with
      | context [match _ with _ => _ end] => fail
      | negb ?c => split_on H c
      | _ => split_on H x
      end
  end.

(** The probe block never throws: whatever ffprobe does, the upload goes
    on with some value of the variables. *)
Lemma probe_stage_run o file fileExtension w :
  probe_stage o file fileExtension w
  = (Ok (probe_vars o fileExtension), log (EProbe (path file)) w).
Proof.
  unfold probe_stage, getVideoInfo, read_doc, probe_vars.
  lazy beta iota zeta delta [bind ret throw try_catch modify get].
  destruct (proc o) as [msg|c out]; [done|].
  destruct ((c =? 0) && negb (String.eqb out "")); [|done].
  by destruct (JSON_parse o out) as [[|f s]|].
Qed.

Lemma probe_failed_defaults o fileExtension :
  probe_failed o = true -> probe_vars o fileExtension = probe_defaults fileExtension.
Proof.
  unfold probe_failed, probe_vars.
  destruct (proc o) as [msg|c out]; [done|].
  destruct (c =? 0); [|done].
  destruct (String.eqb out ""); [done|]. simpl.
  destruct (JSON_parse o out) as [d|]; [|done].
  rewrite bool_decide_eq_true_2; [done|by eexists].
Qed.

(** The failures of the probe, one by one. *)
Lemma probe_failed_iff o :
  probe_failed o = true <->
  (exists msg, proc o = ProcError msg) \/
  (exists exit_code stdout, proc o = ProcClose exit_code stdout /\
     (exit_code <> 0 \/ stdout = "" \/ JSON_parse o stdout = None)).
Proof.
  unfold probe_failed. destruct (proc o) as [msg|c out].
  - split; [left; by eexists|done].
  - rewrite !orb_true_iff, negb_true_iff, Z.eqb_neq, String.eqb_eq,
      negb_true_iff, bool_decide_eq_false, <- eq_None_not_Some.
    split.
    + intros H. right. eexists _, _. split; [done|tauto].
    + intros [[? [=]]|(? & ? & [= <- <-] & H)]. tauto.
Qed.

Lemma probe_stage_failed o file fileExtension w :
  probe_failed o = true ->
  probe_stage o file fileExtension w
  = (Ok (probe_defaults fileExtension), log (EProbe (path file)) w).
Proof. intros Hf. by rewrite probe_stage_run, probe_failed_defaults. Qed.

Lemma unknown_incompatible : isCompatibleCodec (Some "unknown") = false.
Proof. done. Qed.

Lemma stored_path_nonempty now part :
  String.eqb (path (stored_file now part)) "" = false.
Proof. done. Qed.

Ltac run_step H :=
  first [ rewrite probe_stage_run in H
        | rewrite stored_path_nonempty in H
        | rewrite lookup_insert_eq in H
        | rewrite lookup_delete_eq in H
        | split_head H ].

Ltac run_upload_using extra H :=
  unfold route_upload, upload_single, upload_handler, upload_body,
    place_and_persist in H;
  red_M_in H; repeat (first [extra H | run_step H]; red_M_in H).

Ltac run_upload H := run_upload_using ltac:(fun _ => fail) H.

Ltac use_looked_up Hl :=
  let e := fresh "email" in
  let rest := fresh "rest" in
  unfold looked_up, reaches_lookup, folder_rows, folderId_of, fileExtension_of in Hl;
  destruct Hl as ((?Hpart & ?Hfilter & ?Hsize & ?Hlogin & ?Hext & ?Hselect) & ?Hrow);
  match type of Hlogin with
  | option_map _ ?u = _ => destruct u as [e|] eqn:?Hemail; [|done]
  end;
  match type of Hrow with
  | head ?l = _ => destruct l as [|? rest] eqn:?Hrows; [done|]
  end;
  cbn [option_map head] in *; simplify_eq.

Ltac world_simpl :=
  cbn [log set_tmp set_remote set_streamings set_videos tmp_files remote_files
       streamings videos next_insert_id trace fst snd status body].

(** A request whose file does not fit is answered with the quota error
    after the probe and the lookup, and nothing else happened but the
    removal of the temp file. *)
Lemma quota_rejection_run o raw w part login userData :
  looked_up o raw w part login userData ->
  ceilMB (in_size part) > espaco userData - espaco_usado userData ->
  exists w',
    route_upload o raw w
    = (Ok (quota_response (ceilMB (in_size part))
             (espaco userData - espaco_usado userData) userData), w') /\
    tmp_files w' = delete (path (stored_file (raw_now raw) part)) (tmp_files w) /\
    remote_files w' = remote_files w /\
    videos w' = videos w /\
    streamings w' = streamings w /\
    trace w' = (trace w ++
      [EProbe (path (stored_file (raw_now raw) part));
       ESelectFolder (folderId_of raw) (user_id (raw_user raw));
       EUnlink (path (stored_file (raw_now raw) part))])%list.
Proof.
  intros Hl Hq. use_looked_up Hl.
  apply Z.gt_lt, Z.gtb_lt in Hq.
  destruct (route_upload o raw w) as [out w'] eqn:H.
  run_upload H. simplify_eq.
  eexists; split; [done|]. world_simpl.
  rewrite delete_insert_eq, <- !app_assoc. done.
Qed.

(** A string made of characters that satisfy [p] contains no character
    that does not. *)
Lemma forallb_excludes p c s :
  p c = false -> Str.forallb p s = true -> Str.includes s (String c "") = false.
Proof.
  intros Hc. induction s as [|d s IH]; [done|].
  cbn [Str.forallb]. rewrite andb_true_iff. intros [Hd Hs].
  rewrite includes_cons, prefix_cons, (IH Hs), orb_false_r.
  destruct (Ascii.eqb d c) eqn:E; [|done].
  apply Ascii.eqb_eq in E as ->. congruence.
Qed.

(** Whatever a run of the upload route adds to table [videos] or to the
    media host is named after the generated file name. *)
Lemma upload_names_run o raw w out w' part :
  raw_part raw = Some part ->
  route_upload o raw w = (out, w') ->
  named_after (storage_filename (raw_now raw) (in_originalname part)) w w'.
Proof.
  intros Hpart H. unfold named_after. run_upload H; simplify_eq; world_simpl.
  all: split; [intros v Hv | intros serverId p sz Hp]; auto.
  all: try (apply in_app_or in Hv as [Hv|[<-|[]]]; [auto|right; by eexists _, _]).
  all: try (apply lookup_insert_Some in Hp as [[[= <- <-] _]|[_ Hp]];
            [right; by eexists _, _|auto]).
Qed.

(** The fate of the temp file over all runs of the upload route: it is
    gone when the handler answers, except when the answer is 404. *)
Lemma temp_file_fate o raw w out w' part :
  raw_part raw = Some part ->
  route_upload o raw w = (out, w') ->
  let p := path (stored_file (raw_now raw) part) in
  match out with
  | Ok r => if status r =? 404
            then tmp_files w' !! p = Some (in_size part)
            else tmp_files w' !! p = None
  | Throw _ => tmp_files w' = tmp_files w
  end.
Proof.
  intros Hpart H p. run_upload H; simplify_eq; world_simpl.
  all: by rewrite ?lookup_delete_eq, ?lookup_insert_eq.
Qed.

(** A 201 never reports anything but a needed conversion: on the other
    branch the handler reads [userBitrateLimit], which is not defined. *)
Lemma created_needs_conversion o raw w r w' b :
  route_upload o raw w = (Ok r, w') ->
  body r = BCreated b ->
  status r = 201 /\ r_needs_conversion b = true /\
  r_compatibility_status b = "Necessário Conversão" /\
  r_compatibility_color b = "red".
Proof.
  intros H Hb. run_upload H; simplify_eq; cbn [body] in Hb; simplify_eq.
  all: cbn [r_needs_conversion r_compatibility_status r_compatibility_color
            fst snd status]; done.
Qed.

(** ** Extensions *)

Lemma drop_until_head stop l c l' :
  Path.drop_until stop l = c :: l' -> c = stop.
Proof.
  induction l as [|d l IH]; [done|].
  simpl. destruct (Ascii.eqb d stop) eqn:E; [|done].
  intros [= <- _]. by apply Ascii.eqb_eq.
Qed.

(** An extension is empty or starts with its dot. *)
Lemma extname_shape p :
  Path.extname p = "" \/ exists t, Path.extname p = String "." t.
Proof.
  unfold Path.extname.
  destruct (Path.drop_until "." (Path.rev_basename p)) as [|dot [|x l]] eqn:E; auto.
  case_bool_decide; auto.
  apply drop_until_head in E as ->. right. by eexists.
Qed.

Lemma lower_char_idemp c : Str.lower_char (Str.lower_char c) = Str.lower_char c.
Proof. by destruct c as [[] [] [] [] [] [] [] []]. Qed.

Lemma lower_char_226 c : Ascii.eqb (Str.lower_char c) "226" = Ascii.eqb c "226".
Proof. by destruct c as [[] [] [] [] [] [] [] []]. Qed.

Lemma lower_char_high c d :
  Str.lower_char c = d -> Str.is_lower d = false -> Str.is_upper c = false -> c = d.
Proof. unfold Str.lower_char. by intros <- _ ->. Qed.

Lemma toLowerCase_cons c s :
  Ascii.eqb c "226" = false ->
  Str.toLowerCase (String c s) = String (Str.lower_char c) (Str.toLowerCase s).
Proof. intros Hc. cbn [Str.toLowerCase]. by rewrite Hc. Qed.

Lemma toLowerCase_226 s :
  Str.toLowerCase (String "226" s)
  = match s with
    | String c2 (String c3 s'') =>
        if Ascii.eqb c2 "132" && Ascii.eqb c3 "170"
        then String "k" (Str.toLowerCase s'')
        else String "226" (Str.toLowerCase s)
    | _ => String "226" (Str.toLowerCase s)
    end.
Proof. by destruct s as [|c2 [|c3 s'']]. Qed.

(** A Kelvin sign is only read where one is written. *)
Lemma toLowerCase_226_other s :
  (forall r, s <> String "132" (String "170" r)) ->
  Str.toLowerCase (String "226" s) = String "226" (Str.toLowerCase s).
Proof.
  intros Hs. rewrite toLowerCase_226.
  destruct s as [|c2 [|c3 r]]; [done..|].
  destruct (Ascii.eqb c2 "132" && Ascii.eqb c3 "170") eqn:E; [|done].
  apply andb_true_iff in E as [->%Ascii.eqb_eq ->%Ascii.eqb_eq]. by destruct (Hs r).
Qed.

Lemma toLowerCase_head s d r :
  Str.toLowerCase s = String d r ->
  Ascii.eqb d "k" = false -> Ascii.eqb d "226" = false ->
  Str.is_lower d = false ->
  exists s', s = String d s' /\ Str.toLowerCase s' = r.
Proof.
  intros Hs Hk H226 Hlow. destruct s as [|c s']; [done|].
  destruct (Ascii.eqb c "226") eqn:Ec.
  - apply Ascii.eqb_eq in Ec as ->. rewrite toLowerCase_226 in Hs.
    destruct s' as [|c2 [|c3 s'']]; try (injection Hs as <- _; done).
    destruct (Ascii.eqb c2 "132" && Ascii.eqb c3 "170");
      injection Hs as <- _; done.
  - rewrite toLowerCase_cons in Hs by done. injection Hs as Hd Hr.
    exists s'. split; [|done]. f_equal.
    unfold Str.lower_char in Hd. destruct (Str.is_upper c) eqn:Eu; [|done].
    subst d. by destruct c as [[] [] [] [] [] [] [] []].
Qed.

Lemma toLowerCase_idemp_upto n s :
  (String.length s <= n)%nat ->
  Str.toLowerCase (Str.toLowerCase s) = Str.toLowerCase s.
Proof.
  revert s. induction n as [|n IH]; intros s Hlen.
  { destruct s; [done|]. cbn [String.length] in Hlen. lia. }
  destruct s as [|c s']; [done|]. cbn [String.length] in Hlen.
  assert (Str.toLowerCase (String "226" (Str.toLowerCase s'))
          = String "226" (Str.toLowerCase s') \/
          exists r, s' = String "132" (String "170" r)) as Hkeep.
  { destruct s' as [|c2 [|c3 r]].
    - by left.
    - left. rewrite toLowerCase_226_other.
      + rewrite IH; [done|cbn [String.length] in *; lia].
      + intros r Hr. apply toLowerCase_head in Hr as (s1 & Hs1 & Hr); [|done..].
        injection Hs1 as -> <-. done.
    - destruct (Ascii.eqb c2 "132" && Ascii.eqb c3 "170") eqn:E.
      + right. apply andb_true_iff in E as [->%Ascii.eqb_eq ->%Ascii.eqb_eq].
        by exists r.
      + left. rewrite toLowerCase_226_other.
        * rewrite IH; [done|cbn [String.length] in *; lia].
        * intros r' Hr. apply toLowerCase_head in Hr as (s1 & Hs1 & Hr); [|done..].
          injection Hs1 as -> <-.
          apply toLowerCase_head in Hr as (s2 & Hs2 & _); [|done..].
          injection Hs2 as -> <-. by rewrite !Ascii.eqb_refl in E. }
  destruct (Ascii.eqb c "226") eqn:Ec.
  - apply Ascii.eqb_eq in Ec as ->.
    destruct Hkeep as [Hkeep|[r ->]].
    + rewrite toLowerCase_226.
      destruct s' as [|c2 [|c3 r]]; [done..|].
      destruct (Ascii.eqb c2 "132" && Ascii.eqb c3 "170") eqn:E; [|done].
      rewrite toLowerCase_cons by done. f_equal.
      apply IH. cbn [String.length] in Hlen. lia.
    + rewrite toLowerCase_226. cbn [Ascii.eqb Bool.eqb andb].
      rewrite toLowerCase_cons by done. f_equal.
      apply IH. cbn [String.length] in Hlen. lia.
  - rewrite toLowerCase_cons by done.
    rewrite toLowerCase_cons by (by rewrite lower_char_226).
    rewrite lower_char_idemp, IH; [done|lia].
Qed.

(** The [K] of the first name is U+212A, the Kelvin sign. *)
Example toLowerCase_kelvin :
  fileExtension_of "clip.mKv" = ".mkv" /\
  fileExtension_of "Férias.MP4" = ".mp4" /\
  Str.toLowerCase "HEVC" = "hevc".
Proof. by repeat split. Qed.

Lemma toLowerCase_idemp s : Str.toLowerCase (Str.toLowerCase s) = Str.toLowerCase s.
Proof. by apply (toLowerCase_idemp_upto (String.length s)). Qed.

Lemma replace_leading_dot s : Str.replace "." "" (String "." s) = s.
Proof.
  cbn [Str.replace]. by rewrite prefix_cons, prefix_empty.
Qed.

(** Only the extension [.mp4] is a compatible format. *)
Lemma compatible_format_mp4 formatName name :
  isCompatibleFormat formatName (Some (fileExtension_of name)) = true ->
  fileExtension_of name = ".mp4".
Proof.
  unfold isCompatibleFormat, fileExtension_of.
  rewrite toLowerCase_idemp.
  destruct (extname_shape name) as [->|[t ->]]; [done|].
  rewrite toLowerCase_cons by done.
  change (Str.lower_char ".") with "."%char.
  rewrite replace_leading_dot. unfold Str.mem. simpl.
  rewrite orb_false_r. by intros ->%String.eqb_eq.
Qed.

Ltac run_list H :=
  unfold list_handler in H;
  red_M_in H; repeat (run_step H; red_M_in H).

(** The list handler answers with a view of rows of the table. *)
Lemma list_views_run o req w r w' l v :
  list_handler o req w = (Ok r, w') ->
  body r = BVideos l ->
  In v l ->
  exists login folder row,
    v = video_view login folder (Z_or (user_bitrate (lreq_user req)) 2500) row /\
    In row (videos w).
Proof.
  intros H Hb Hv. run_list H; simplify_eq; cbn [body] in Hb; simplify_eq.
  apply in_map_iff in Hv as (row & <- & Hrow).
  eexists _, _, row. split; [done|].
  apply list_elem_of_In in Hrow. rewrite merge_sort_Permutation in Hrow.
  apply list_elem_of_In in Hrow. by apply filter_In in Hrow as [? _].
Qed.

(** ** Traces *)

(** Walks down an explicit trace looking for the event at index [k]. In
    the traces of the upload route an increment of the counter sits
    behind the transfer (index 4) and the insert (index 6). *)
Ltac walk_trace k Hk He :=
  cbn in Hk;
  first
    [ discriminate Hk
    | destruct k as [|k];
      [ injection Hk as <-; cbn in He;
        first [ discriminate He
              | exists 4%nat, 6%nat; eexists _, _;
                repeat split; try lia; reflexivity ]
      | walk_trace k Hk He ] ].

Ltac solve_committed :=
  let k := fresh "k" in
  let e := fresh "e" in
  let Hk := fresh "Hk" in
  let He := fresh "He" in
  intros k e Hk He; walk_trace k Hk He.

(** ** The used-capacity counter *)

Lemma ceilMB_nonneg bytes : 0 <= bytes -> 0 <= ceilMB bytes.
Proof.
  intros Hb. unfold ceilMB.
  assert (- bytes / (1024 * 1024) <= 0); [|lia].
  apply Z.div_le_upper_bound; lia.
Qed.

Lemma key_unique (l : list Streaming) x y :
  NoDup (List.map codigo l) -> In x l -> In y l -> codigo x = codigo y -> x = y.
Proof.
  induction l as [|z l IH]; [done|].
  cbn [List.map]. intros [Hz Hl]%NoDup_cons [<-|Hx] [<-|Hy] Hc; auto.
  - destruct Hz. apply list_elem_of_In, in_map_iff. by exists y.
  - destruct Hz. apply list_elem_of_In, in_map_iff. by exists x.
Qed.





Lemma Z_or_same x : Z_or (Some x) 0 = x.
Proof. unfold Z_or. destruct (x =? 0) eqn:E; [|done]. by apply Z.eqb_eq in E. Qed.

Ltac run_delete_using extra H :=
  unfold delete_handler in H;
  red_M_in H; repeat (first [extra H | run_step H]; red_M_in H).

Ltac run_delete H := run_delete_using ltac:(fun _ => fail) H.



(** ** The two halves of the upload handler *)

(** Run back to back, the two halves are the handler. *)
Lemma upload_handler_resumed o req w :
  upload_handler o req w
  = (x <- upload_until_check o req ;; resume_upload o req x) w.
Proof.
  unfold upload_handler, upload_until_check, resume_upload, upload_from_placement,
    upload_failed, upload_body.
  lazy beta iota zeta delta [bind ret throw try_catch email_login].
  rewrite ?probe_stage_run.
  repeat (case_match; simplify_eq;
          cbn [ck_file ck_userLogin ck_folderId ck_fileExtension ck_vars ck_serverId
               ck_folderName ck_spaceMB] in *;
          rewrite ?probe_stage_run in *; simplify_eq); done.
Qed.

(** ** Uploads that go through *)

(** An upload that gets as far as the update of the counter leaves the
    same world whatever it then answers: 201 when a conversion is needed,
    500 otherwise, as the other branch reads [userBitrateLimit]. *)
Lemma persisted_run o raw w part login userData :
  persists o raw w part login userData ->
  exists out w' t,
    route_upload o raw w = (out, w') /\
    persisted o raw w w' part login userData /\
    trace w' = (trace w ++ t)%list /\
    if upload_needs_conversion o part
    then exists b, out = Ok {| status := 201; body := BCreated b |} /\
           r_id b = next_insert_id w /\ r_nome b = in_originalname part /\
           r_tamanho b = in_size part /\
           r_space_used_mb b = ceilMB (in_size part) /\
           r_url b = login ++ "/" ++ identificacao userData ++ "/"
                     ++ filename (stored_file (raw_now raw) part) /\
           r_path b = remotePath_of login userData (stored_file (raw_now raw) part) /\
           r_needs_conversion b = true
    else out = Ok {| status := 500;
                     body := BError "Erro no upload do vídeo"
                               (Some "userBitrateLimit is not defined") |}.
Proof.
  intros (Hl & Hfit & (Hstructure & Hfolder & Hupload) & Hinsert & Hadd).
  use_looked_up Hl.
  apply Z.le_ngt in Hfit. rewrite <- Z.gtb_lt in Hfit.
  apply not_true_is_false in Hfit.
  unfold persisted, inserted_row, upload_needs_conversion, fileExtension_of,
    remotePath_of, serverId_of, folderId_of.
  destruct (route_upload o raw w) as [out w'] eqn:H.
  run_upload H.
  all: simplify_eq.
  all: eexists _, _, _; split; [reflexivity|]; world_simpl.
  all: rewrite ?lookup_delete_eq, <- ?app_assoc; cbn [app].
  all: repeat match goal with E : _ = _ |- _ => rewrite E end.
  all: cbn [negb orb].
  all: split; [repeat split; reflexivity|].
  all: split; [reflexivity|].
  all: first [reflexivity | eexists; split; [reflexivity|]; repeat split; reflexivity].
Qed.


(** * The claims *)

(** ** The response to a compatible file *)

(** C1 — The scenario of the claim, run on the code: an [.mp4] with codec
    h264 probed at 3000 kbps, sent by an account whose ceiling is 2500
    kbps, to a destination with room for it. The file is placed, the
    record is inserted as compatible and the quota is counted, but the
    handler then reads the undeclared [userBitrateLimit] and answers 500;
    no response reports the high bitrate. *)
Theorem C1_bitrate_high_scenario_answers_500 :
  let o := Scenario.oracle (Scenario.report "h264" 3000) [] in
  let raw := Scenario.send (Some "12") "clip.mp4" 3000000 in
  user_bitrate (raw_user raw) = Some 2500 /\
  exists w' v,
    route_upload o raw (Scenario.world 100)
    = (Ok {| status := 500;
             body := BError "Erro no upload do vídeo"
                       (Some "userBitrateLimit is not defined") |}, w') /\
    videos w' = [v] /\
    codec_video v = "h264" /\ bitrate_video v = 3000 /\
    is_mp4 v = 1 /\ compativel v = "sim" /\
    streamings w' = [Scenario.filmes 103] /\
    remote_files w' !! (1, "/home/streaming/ana/filmes/1700000000000_clip.mp4")
    = Some 3000000.
Proof.
  intros o raw. split; [reflexivity|].
  eexists _, _. split; [vm_compute; reflexivity|].
  repeat split; vm_compute; reflexivity.
Qed.

(** ** A failed insert *)

(** C2, as stated, fails: with the transfer succeeding and the insert
    throwing, no remote delete is issued; the placed file stays on the
    media host and no record points to it. *)
Lemma C2_counterexample :
  let o := Scenario.oracle (Scenario.report "h264" 3000) [OpInsertVideo] in
  let raw := Scenario.send (Some "12") "clip.mp4" 3000000 in
  let w := Scenario.world 100 in
  let w' := snd (route_upload o raw w) in
  fails o OpSshUpload = None /\ fails o OpInsertVideo <> None /\
  orphan_free w /\
  remote_files w' !! (1, "/home/streaming/ana/filmes/1700000000000_clip.mp4")
  = Some 3000000 /\
  videos w' = [] /\
  existsb is_ssh_delete (trace w') = false /\
  ~ orphan_free w'.
Proof.
  intros o raw w w'.
  assert (remote_files w' !! (1, "/home/streaming/ana/filmes/1700000000000_clip.mp4")
          = Some 3000000) as Hfile by (vm_compute; reflexivity).
  assert (videos w' = []) as Hvideos by (vm_compute; reflexivity).
  repeat split; try done.
  intros Horphan. destruct (Horphan _ _ _ Hfile) as (v & Hv & _).
  rewrite Hvideos in Hv. destruct Hv.
Qed.

(** C2, amended — When placement succeeds and the insert throws, the
    answer is 500 with the cause; the temp file is deleted; the placed
    file is left on the media host, no remote delete being issued, and no
    record is added; the used-capacity counter is untouched, as no
    increment or release is issued. *)
Theorem C2_insert_failure_leaves_remote_file o raw w part login userData msg :
  looked_up o raw w part login userData ->
  ceilMB (in_size part) <= espaco userData - espaco_usado userData ->
  placement_ok o ->
  fails o OpInsertVideo = Some msg ->
  let file := stored_file (raw_now raw) part in
  exists w' t,
    route_upload o raw w
    = (Ok {| status := 500;
             body := BError "Erro no upload do vídeo" (Some msg) |}, w') /\
    tmp_files w' !! path file = None /\
    remote_files w'
    = <[(serverId_of userData, remotePath_of login userData file) := in_size part]>
        (remote_files w) /\
    videos w' = videos w /\
    streamings w' = streamings w /\
    trace w' = (trace w ++ t)%list /\
    existsb is_ssh_delete t = false /\
    existsb is_add_used t = false /\
    existsb is_release_used t = false.
Proof.
  intros Hl Hfit (Hstructure & Hfolder & Hupload) Hinsert file.
  use_looked_up Hl.
  apply Z.le_ngt in Hfit. rewrite <- Z.gtb_lt in Hfit.
  apply not_true_is_false in Hfit.
  destruct (route_upload o raw w) as [out w'] eqn:H.
  run_upload H.
  all: simplify_eq; subst file.
  all: eexists _, _; split; [reflexivity|]; world_simpl.
  all: rewrite lookup_delete_eq, <- !app_assoc; cbn [app].
  all: repeat split; reflexivity.
Qed.

Lemma C2_insert_failure_leaves_remote_file_witness :
  let o := Scenario.oracle (Scenario.report "h264" 3000) [OpInsertVideo] in
  let raw := Scenario.send (Some "12") "clip.mp4" 3000000 in
  let w := Scenario.world 100 in
  exists w' t,
    route_upload o raw w
    = (Ok {| status := 500;
             body := BError "Erro no upload do vídeo" (Some "connection lost") |}, w') /\
    tmp_files w' !! "/tmp/video-uploads/1700000000000_clip.mp4" = None /\
    remote_files w'
    = {[ (1, "/home/streaming/ana/filmes/1700000000000_clip.mp4") := 3000000 ]} /\
    videos w' = [] /\
    streamings w' = [Scenario.filmes 100] /\
    trace w' = t /\
    existsb is_ssh_delete t = false /\
    existsb is_add_used t = false /\
    existsb is_release_used t = false.
Proof.
  intros o raw w.
  apply (C2_insert_failure_leaves_remote_file o raw w
           (Scenario.part "clip.mp4" 3000000) "ana" (Scenario.filmes 100)
           "connection lost").
  - repeat split; vm_compute; reflexivity.
  - vm_compute. discriminate.
  - repeat split; vm_compute; reflexivity.
  - vm_compute. reflexivity.
Defined.

(** ** The temp file *)

(** C3 — The exit the claim is wrong about, run on the code: a supported
    file sent to a destination that does not exist for the account is
    answered 404, and the temp file is still there: no unlink was issued
    on that path. *)
Theorem C3_destination_not_found_keeps_temp_file :
  let o := Scenario.oracle (Scenario.report "h264" 3000) [] in
  let raw := Scenario.send (Some "99") "clip.mp4" 3000000 in
  exists w',
    route_upload o raw (Scenario.world 100)
    = (Ok {| status := 404; body := BError "Pasta não encontrada" None |}, w') /\
    tmp_files w' !! "/tmp/video-uploads/1700000000000_clip.mp4" = Some 3000000 /\
    trace w' = [EProbe "/tmp/video-uploads/1700000000000_clip.mp4";
                ESelectFolder "99" "7"].
Proof.
  intros o raw. eexists. split; [vm_compute; reflexivity|].
  split; vm_compute; reflexivity.
Qed.

(** ** When the quota is counted *)

(** C4, as stated, fails: in a successful upload the transfer is issued
    (fifth call) before the increment of the used-capacity counter (eighth
    call). *)
Lemma C4_counterexample :
  let o := Scenario.oracle (Scenario.report "h264" 3000) [] in
  let raw := Scenario.send (Some "12") "clip.mkv" 3000000 in
  let run := route_upload o raw (Scenario.world 100) in
  (exists b, fst run = Ok {| status := 201; body := BCreated b |}) /\
  trace (snd run) !! 4%nat
  = Some (ESshUpload 1 "/tmp/video-uploads/1700000000000_clip.mkv"
            "/home/streaming/ana/filmes/1700000000000_clip.mkv") /\
  trace (snd run) !! 7%nat = Some (EAddUsed "12" 3) /\
  ~ reserved_before_transfer (trace (snd run)).
Proof.
  intros o raw run.
  assert (trace (snd run) !! 4%nat
          = Some (ESshUpload 1 "/tmp/video-uploads/1700000000000_clip.mkv"
                    "/home/streaming/ana/filmes/1700000000000_clip.mkv")) as Hupload
    by (vm_compute; reflexivity).
  assert (trace (snd run) !! 7%nat = Some (EAddUsed "12" 3)) as Hadd
    by (vm_compute; reflexivity).
  split; [eexists; vm_compute; reflexivity|].
  repeat split; try done.
  intros Hbefore.
  specialize (Hbefore 7%nat 4%nat _ _ Hadd eq_refl Hupload eq_refl). lia.
Qed.

(** C4, amended — In every run of the upload route the used-capacity
    counter is incremented only after the transfer and the insert were
    issued, and no release is issued; what precedes the transfer is the
    check that the file fits. When the placement fails, no increment is
    issued and the counter is as it was. *)
Theorem C4_quota_counted_after_insert o raw w out w' :
  route_upload o raw w = (out, w') ->
  exists t,
    trace w' = (trace w ++ t)%list /\
    committed_after_insert t /\
    existsb is_release_used t = false /\
    (existsb is_upload t = true ->
     exists part userData,
       raw_part raw = Some part /\
       head (folder_rows raw w) = Some userData /\
       ceilMB (in_size part) <= espaco userData - espaco_usado userData) /\
    (existsb is_add_used t = false -> streamings w' = streamings w) /\
    (~ placement_ok o -> existsb is_add_used t = false).
Proof.
  intros H. unfold placement_ok, folder_rows, folderId_of.
  run_upload H; simplify_eq; world_simpl.
  all: rewrite <- ?app_assoc; cbn [app].
  all: eexists; split;
    [first [reflexivity | symmetry; apply app_nil_r]|].
  all: split; [solve_committed|].
  all: split; [reflexivity|].
  all: split;
    [cbn; first
       [ done
       | intros _; eexists _, _; split; [reflexivity|]; split; [reflexivity|];
         match goal with
         | E : (_ >? _) = false |- _ =>
             apply not_true_iff_false in E; rewrite Z.gtb_lt in E; lia
         end ]|].
  all: split; [cbn; done|].
  all: cbn; first [done | intros []; done].
Qed.

Lemma C4_quota_counted_after_insert_witness :
  let o := Scenario.oracle (Scenario.report "h264" 3000) [OpSshUpload] in
  let raw := Scenario.send (Some "12") "clip.mp4" 3000000 in
  let w := Scenario.world 100 in
  let run := route_upload o raw w in
  fst run = Ok {| status := 500;
                  body := BError "Erro no upload do vídeo" (Some "connection lost") |} /\
  exists t,
    trace (snd run) = (trace w ++ t)%list /\
    committed_after_insert t /\
    existsb is_release_used t = false /\
    (existsb is_upload t = true ->
     exists part userData,
       raw_part raw = Some part /\
       head (folder_rows raw w) = Some userData /\
       ceilMB (in_size part) <= espaco userData - espaco_usado userData) /\
    (existsb is_add_used t = false -> streamings (snd run) = streamings w) /\
    (~ placement_ok o -> existsb is_add_used t = false).
Proof.
  intros o raw w run. split; [vm_compute; reflexivity|].
  apply (C4_quota_counted_after_insert o raw w (fst run) (snd run)).
  vm_compute. reflexivity.
Defined.

(** ** Quota rejection *)

(** C5 — An upload whose size in megabytes, [ceil (bytes / 2^20)], exceeds
    the space left on its destination is answered 400 with a breakdown
    that reports that size as required and the space left as available;
    nothing is done on the media host or written to the database, and the
    temp file is deleted. The witness is the case of 6,291,456 bytes
    against 1000 MB of which 995 are used: required 6, available 5. *)
Theorem C5_quota_exceeded_rejected o raw w part login userData :
  looked_up o raw w part login userData ->
  ceilMB (in_size part) > espaco userData - espaco_usado userData ->
  exists r w' msg details info t,
    route_upload o raw w = (Ok r, w') /\
    status r = 400 /\ body r = BQuota msg details info /\
    required info = ceilMB (in_size part) /\
    available info = espaco userData - espaco_usado userData /\
    total info = espaco userData /\ used info = espaco_usado userData /\
    remote_files w' = remote_files w /\
    videos w' = videos w /\ streamings w' = streamings w /\
    trace w' = (trace w ++ t)%list /\
    forallb (fun e => negb (remote_effect e || persistence_effect e)) t = true /\
    tmp_files w' !! path (stored_file (raw_now raw) part) = None.
Proof.
  intros Hl Hq.
  destruct (quota_rejection_run _ _ _ _ _ _ Hl Hq)
    as (w' & Hrun & Htmp & Hremote & Hvideos & Hstreamings & Htrace).
  eexists _, w', _, _, _, _. split; [exact Hrun|].
  repeat split; try done.
  rewrite Htmp. apply lookup_delete_eq.
Qed.

Lemma C5_quota_exceeded_rejected_witness :
  ceilMB 6291456 = 6 /\
  exists r w' msg details info t,
    route_upload (Scenario.oracle (Scenario.report "h264" 3000) [])
      (Scenario.send (Some "12") "clip.mp4" 6291456) (Scenario.world 995)
    = (Ok r, w') /\
    status r = 400 /\ body r = BQuota msg details info /\
    required info = 6 /\ available info = 5 /\
    total info = 1000 /\ used info = 995 /\
    remote_files w' = ∅ /\ videos w' = [] /\
    streamings w' = [Scenario.filmes 995] /\
    trace w' = t /\
    forallb (fun e => negb (remote_effect e || persistence_effect e)) t = true /\
    tmp_files w' !! "/tmp/video-uploads/1700000000000_clip.mp4" = None.
Proof.
  split; [reflexivity|].
  apply (C5_quota_exceeded_rejected
           (Scenario.oracle (Scenario.report "h264" 3000) [])
           (Scenario.send (Some "12") "clip.mp4" 6291456) (Scenario.world 995)
           (Scenario.part "clip.mp4" 6291456) "ana" (Scenario.filmes 995)).
  - repeat split; vm_compute; reflexivity.
  - vm_compute. reflexivity.
Defined.

(** ** A failed probe *)

(** C6 — When the probe fails (the process errors, exits with another code
    than 0, or prints nothing that parses: [probe_failed_iff]) the upload
    goes on: if the
    destination is found, the file fits, and placement and insert succeed,
    a record is inserted with duration 0, bitrate 0 and codec "unknown",
    and once the counter update succeeds too the answer is 201 with the
    same values. *)
Theorem C6_probe_failure_uses_defaults o raw w part login userData :
  looked_up o raw w part login userData ->
  probe_failed o = true ->
  ceilMB (in_size part) <= espaco userData - espaco_usado userData ->
  placement_ok o ->
  fails o OpInsertVideo = None ->
  exists out w' v,
    route_upload o raw w = (out, w') /\
    videos w' = (videos w ++ [v])%list /\
    nome v = in_originalname part /\
    duracao v = 0 /\ bitrate_video v = 0 /\ codec_video v = "unknown" /\
    (fails o OpAddUsed = None ->
     exists b, out = Ok {| status := 201; body := BCreated b |} /\
               r_id b = id v /\
               r_duracao b = 0 /\ r_bitrate_video b = 0 /\
               r_codec_video b = "unknown").
Proof.
  intros Hl Hprobe Hfit (Hstructure & Hfolder & Hupload) Hinsert.
  use_looked_up Hl.
  apply Z.le_ngt in Hfit. rewrite <- Z.gtb_lt in Hfit.
  apply not_true_is_false in Hfit.
  destruct (route_upload o raw w) as [out w'] eqn:H.
  run_upload_using
    ltac:(fun H => first [ rewrite (probe_stage_failed _ _ _ _ Hprobe) in H
                         | rewrite unknown_incompatible in H
                         | rewrite orb_true_r in H ]) H.
  all: simplify_eq; world_simpl.
  all: eexists _, _, _; split; [reflexivity|].
  all: split; [reflexivity|]; cbn [nome duracao bitrate_video codec_video].
  all: repeat split; try done.
  all: intros _; eexists; split; [reflexivity|]; done.
Qed.

Lemma C6_probe_failure_uses_defaults_witness :
  let o := Scenario.oracle_probe_failing 1 in
  let raw := Scenario.send (Some "12") "clip.mp4" 3000000 in
  let w := Scenario.world 100 in
  exists out w' v,
    route_upload o raw w = (out, w') /\
    videos w' = [v] /\
    nome v = "clip.mp4" /\
    duracao v = 0 /\ bitrate_video v = 0 /\ codec_video v = "unknown" /\
    (fails o OpAddUsed = None ->
     exists b, out = Ok {| status := 201; body := BCreated b |} /\
               r_id b = id v /\
               r_duracao b = 0 /\ r_bitrate_video b = 0 /\
               r_codec_video b = "unknown").
Proof.
  intros o raw w.
  apply (C6_probe_failure_uses_defaults o raw w
           (Scenario.part "clip.mp4" 3000000) "ana" (Scenario.filmes 100)).
  - repeat split; vm_compute; reflexivity.
  - vm_compute. reflexivity.
  - vm_compute. discriminate.
  - repeat split; vm_compute; reflexivity.
  - vm_compute. reflexivity.
Defined.

(** ** Files that are not MP4 *)

(** C7 — For a file whose (lower-cased) extension is not [.mp4], whatever
    the probe reports: on the create path the record is stored as not MP4
    and not compatible, and a 201 says that a conversion is needed, never
    that the bitrate is high; on the list path the view of a record of
    that name, or of one whose stored [is_mp4] flag is not 1, has
    [needs_conversion] set and the status "needs_conversion", never
    "bitrate_high". *)
Theorem C7_non_mp4_needs_conversion name :
  fileExtension_of name <> ".mp4" ->
  (forall o raw w out w' part,
     raw_part raw = Some part -> in_originalname part = name ->
     route_upload o raw w = (out, w') ->
     (forall v, In v (videos w') -> In v (videos w) \/
        (nome v = name /\ is_mp4 v = 0 /\ compativel v = "nao")) /\
     (forall r b, out = Ok r -> body r = BCreated b ->
        r_is_mp4 b = false /\ r_needs_conversion b = true /\
        r_compatibility_status b = "Necessário Conversão" /\
        r_compatibility_status b <> "Bitrate Alto")) /\
  (forall o req w r w' l v,
     list_handler o req w = (Ok r, w') -> body r = BVideos l ->
     In v l -> l_nome v = name \/ l_is_mp4 v <> 1 ->
     l_needs_conversion v = true /\
     l_compatibility_status v = "needs_conversion" /\
     l_compatibility_status v <> "bitrate_high").
Proof.
  intros Hext. split.
  - intros o raw w out w' part Hpart <- H.
    apply String.eqb_neq in Hext. unfold fileExtension_of in Hext.
    run_upload_using ltac:(fun H => rewrite Hext in H) H.
    all: simplify_eq; world_simpl.
    all: split; [intros v Hv | intros r b [= <-] Hb].
    all: auto; cbn [body] in *; simplify_eq.
    all: try (apply in_app_or in Hv as [Hv|[<-|[]]]; [by left|by right]).
    all: cbn [r_is_mp4 r_needs_conversion r_compatibility_status fst];
      by rewrite ?Hext.
  - intros o req w r w' l v H Hb Hv Hfile.
    destruct (list_views_run _ _ _ _ _ _ _ H Hb Hv) as (login & folder & row & -> & _).
    cbn [video_view l_nome l_is_mp4] in Hfile.
    cbn [video_view l_needs_conversion l_compatibility_status].
    destruct Hfile as [<- | Hflag].
    + assert (isCompatibleFormat (formato_original row)
                (Some (Str.toLowerCase (Path.extname (nome row)))) = false) as ->.
      { apply not_true_is_false. by intros ?%compatible_format_mp4. }
      by rewrite !orb_true_r.
    + apply Z.eqb_neq in Hflag. by rewrite Hflag.
Qed.

Lemma C7_non_mp4_needs_conversion_witness :
  let o := Scenario.oracle (Scenario.report "h264" 3000) [] in
  let raw := Scenario.send (Some "12") "clip.mkv" 3000000 in
  let created := route_upload o raw (Scenario.world 100) in
  let listed := list_handler o {| lreq_user := Scenario.ana;
                                  lreq_folder_id := Some "12" |} (snd created) in
  (exists b, fst created = Ok {| status := 201; body := BCreated b |} /\
             r_codec_video b = "h264" /\ r_bitrate_video b = 3000 /\
             r_needs_conversion b = true /\
             r_compatibility_status b = "Necessário Conversão") /\
  (exists v, fst listed = Ok {| status := 200; body := BVideos [v] |} /\
             l_codec_video v = "h264" /\ l_bitrate_exceeds_limit v = true /\
             l_needs_conversion v = true /\
             l_compatibility_status v = "needs_conversion").
Proof.
  intros o raw created listed.
  assert (fileExtension_of "clip.mkv" <> ".mp4") as Hext
    by (vm_compute; discriminate).
  destruct (C7_non_mp4_needs_conversion "clip.mkv" Hext) as [Hcreate Hlist].
  split.
  - eexists. split; [vm_compute; reflexivity|].
    split; [reflexivity|]. split; [reflexivity|].
    edestruct (Hcreate o raw (Scenario.world 100) (fst created) (snd created)
                 (Scenario.part "clip.mkv" 3000000) eq_refl eq_refl)
      as [_ Hr]; [vm_compute; reflexivity|].
    edestruct Hr as (_ & Hn & Hs & _); [vm_compute; reflexivity|reflexivity|].
    split; [exact Hn|exact Hs].
  - eexists. split; [vm_compute; reflexivity|].
    split; [reflexivity|]. split; [reflexivity|].
    edestruct (Hlist o {| lreq_user := Scenario.ana; lreq_folder_id := Some "12" |}
                 (snd created)) as (Hn & Hs & _).
    + vm_compute. reflexivity.
    + reflexivity.
    + left. reflexivity.
    + left. reflexivity.
    + split; [exact Hn|exact Hs].
Defined.

(** ** The quota invariant *)




(** ** A request without a destination *)

(** C9, as stated, fails: a create request without [folder_id] is not
    answered 400. Where the account has no destination "default" it is
    answered 404; where it has one, the file is stored there and the
    answer is 201. *)
Lemma C9_counterexample :
  let o := Scenario.oracle (Scenario.report "h264" 3000) [] in
  let raw := Scenario.send None "clip.mkv" 3000000 in
  let run := route_upload o raw (Scenario.world 100) in
  let run' := route_upload o raw
                (Scenario.world_of [Scenario.folder "default" "geral" 100]) in
  raw_folder_id raw = None /\
  fst run = Ok {| status := 404; body := BError "Pasta não encontrada" None |} /\
  (exists b, fst run' = Ok {| status := 201; body := BCreated b |}) /\
  (exists v, videos (snd run') = [v] /\ pasta v = "default") /\
  remote_files (snd run') !! (1, "/home/streaming/ana/geral/1700000000000_clip.mkv")
  = Some 3000000 /\
  streamings (snd run') = [Scenario.folder "default" "geral" 103].
Proof.
  intros o raw run run'.
  split; [reflexivity|]. split; [vm_compute; reflexivity|].
  split; [eexists; vm_compute; reflexivity|].
  split; [eexists; split; vm_compute; reflexivity|].
  split; vm_compute; reflexivity.
Qed.

(** C9, amended — A create request without a destination identifier (or
    with an empty one) is handled exactly as a request for the destination
    "default": it is answered 404 when the lookup of that destination
    returns no row, and a 400 is only ever the answer to a missing file,
    an unsupported extension or a file that does not fit. *)
Theorem C9_missing_destination_defaults o raw w :
  raw_folder_id raw = None \/ raw_folder_id raw = Some "" ->
  route_upload o raw w
  = route_upload o {| raw_user := raw_user raw; raw_folder_id := Some "default";
                      raw_part := raw_part raw; raw_now := raw_now raw |} w /\
  (forall part login,
     reaches_lookup o raw part login -> folder_rows raw w = [] ->
     exists w', route_upload o raw w
                = (Ok {| status := 404; body := BError "Pasta não encontrada" None |}, w')) /\
  (forall out w' r,
     route_upload o raw w = (out, w') -> out = Ok r -> status r = 400 ->
     raw_part raw = None \/
     (exists part, raw_part raw = Some part /\
        Str.mem (fileExtension_of (in_originalname part)) videoExtensions = false) \/
     (exists msg details info, body r = BQuota msg details info)).
Proof.
  intros Hmissing. split; [|split].
  - unfold route_upload, upload_handler, upload_body. cbn [req_folder_id raw_folder_id].
    by destruct Hmissing as [-> | ->].
  - intros part login (Hpart & Hfilter & Hsize & Hlogin & Hext & Hselect) Hrows.
    unfold folder_rows, folderId_of, fileExtension_of in *.
    destruct (user_email (raw_user raw)) as [email|] eqn:Hemail; [|done].
    destruct (route_upload o raw w) as [out w'] eqn:H.
    run_upload H. simplify_eq. by eexists.
  - intros out w' r H -> Hstatus. unfold fileExtension_of.
    run_upload H; simplify_eq; cbn [status] in Hstatus; try done.
    + right. right. by eexists _, _, _.
    + right. left. eexists. split; [reflexivity|assumption].
    + by left.
Qed.

Lemma C9_missing_destination_defaults_witness :
  let o := Scenario.oracle (Scenario.report "h264" 3000) [] in
  let raw := Scenario.send None "clip.mkv" 3000000 in
  let w := Scenario.world 100 in
  route_upload o raw w = route_upload o (Scenario.send (Some "default") "clip.mkv" 3000000) w /\
  exists w', route_upload o raw w
             = (Ok {| status := 404; body := BError "Pasta não encontrada" None |}, w').
Proof.
  intros o raw w.
  destruct (C9_missing_destination_defaults o raw w (or_introl eq_refl))
    as (Hsame & Hnone & _).
  split; [exact Hsame|].
  apply (Hnone (Scenario.part "clip.mkv" 3000000) "ana").
  - repeat split; vm_compute; reflexivity.
  - vm_compute. reflexivity.
Defined.

(** ** The generated file name *)

(** C10, as stated, fails: the generated name is only the last component
    of the remote path. The login taken from the e-mail address and the
    destination's name are put into the path as they are; here the upload
    is answered 201 and the file is placed at a path with a space, a
    semicolon and [/../] in it. *)
Lemma C10_counterexample :
  let user := {| user_id := "7"; user_email := Some "a b;c@example.com";
                 user_usuario := None; user_bitrate := Some 2500;
                 user_espectadores := None |} in
  let folder := {| codigo := "12"; codigo_cliente := "7"; codigo_servidor := 1;
                   identificacao := "meus filmes/../x"; espaco := 1000;
                   espaco_usado := 100 |} in
  let o := Scenario.oracle (Scenario.report "h264" 3000) [] in
  let raw := {| raw_user := user; raw_folder_id := Some "12";
                raw_part := Some (Scenario.part "clip.mkv" 3000000);
                raw_now := 1700000000000 |} in
  let run := route_upload o raw (Scenario.world_of [folder]) in
  let remotePath := "/home/streaming/a b;c/meus filmes/../x/1700000000000_clip.mkv" in
  (exists b, fst run = Ok {| status := 201; body := BCreated b |} /\
             r_path b = remotePath) /\
  remote_files (snd run) !! (1, remotePath) = Some 3000000 /\
  (exists v, videos (snd run) = [v] /\ caminho v = remotePath) /\
  Str.includes remotePath " " = true /\ Str.includes remotePath ";" = true /\
  Str.includes remotePath "/../" = true.
Proof.
  intros user folder o raw run remotePath.
  split; [eexists; split; vm_compute; reflexivity|].
  split; [vm_compute; reflexivity|].
  split; [eexists; split; vm_compute; reflexivity|].
  repeat split; vm_compute; reflexivity.
Qed.

(** C10, amended — For every run of the upload route on a file part, the
    generated file name is the timestamp, an underscore, and the original
    name with every character outside [a-zA-Z0-9.-] replaced by an
    underscore and every run of underscores collapsed to one; it holds
    nothing but letters, digits, [.], [-] and [_] (so no space and no
    slash). The record and the remote file the run adds, if any, lie at
    [/home/streaming/<login>/<folder>/] followed by that name, where, for
    an upload that goes through, [<login>] is the part of the account's
    e-mail address before [@] and [<folder>] the name of the destination
    that was looked up, both as they are: only the last component of the
    path is sanitised. *)
Theorem C10_generated_filename o raw w out w' part :
  raw_part raw = Some part ->
  route_upload o raw w = (out, w') ->
  let fn := storage_filename (raw_now raw) (in_originalname part) in
  fn = pretty (raw_now raw) ++ "_"
       ++ collapse_runs_spec (replace_disallowed (in_originalname part)) /\
  Str.forallb filename_char fn = true /\
  Str.includes fn " " = false /\ Str.includes fn "/" = false /\
  Str.includes (sanitizedName (in_originalname part)) "__" = false /\
  named_after fn w w' /\
  (forall login userData,
     persists o raw w part login userData ->
     let remotePath := "/home/streaming/" ++ login ++ "/" ++ identificacao userData
                         ++ "/" ++ fn in
     option_map (Str.before "@") (user_email (raw_user raw)) = Some login /\
     head (folder_rows raw w) = Some userData /\
     remote_files w' !! (serverId_of userData, remotePath) = Some (in_size part) /\
     exists row,
       videos w' = (videos w ++ [row])%list /\ caminho row = remotePath /\
       url row = login ++ "/" ++ identificacao userData ++ "/" ++ fn).
Proof.
  intros Hpart Hrun fn.
  pose proof (storage_filename_chars (raw_now raw) (in_originalname part)) as Hchars.
  split.
  { unfold fn, storage_filename, sanitizedName.
    by rewrite collapse_underscores_spec. }
  split; [exact Hchars|].
  split; [by apply (forallb_excludes filename_char)|].
  split; [by apply (forallb_excludes filename_char)|].
  split; [apply collapse_underscores_no_run|].
  split; [by apply (upload_names_run o raw w out w' part)|].
  intros login userData Hp remotePath.
  destruct (persisted_run _ _ _ _ _ _ Hp) as (out0 & w0 & t & Hrun0 & Hw & _).
  rewrite Hrun in Hrun0. injection Hrun0 as <- <-.
  destruct Hw as (_ & Hremote & Hvideos & _).
  destruct Hp as (((_ & _ & _ & Hlogin & _) & Hhead) & _).
  split; [exact Hlogin|]. split; [exact Hhead|].
  split; [rewrite Hremote; apply lookup_insert_eq|].
  eexists. split; [exact Hvideos|]. by split.
Qed.

Lemma C10_generated_filename_witness :
  let o := Scenario.oracle (Scenario.report "h264" 3000) [] in
  let raw := Scenario.send (Some "12") "My  vídeo (1)__final.mkv" 3000000 in
  let w := Scenario.world 100 in
  let fn := "1700000000000_My_v_deo_1_final.mkv" in
  let remotePath := "/home/streaming/ana/filmes/1700000000000_My_v_deo_1_final.mkv" in
  storage_filename (raw_now raw) "My  vídeo (1)__final.mkv" = fn /\
  Str.forallb filename_char fn = true /\
  Str.includes fn " " = false /\ Str.includes fn "/" = false /\
  named_after fn w (snd (route_upload o raw w)) /\
  remote_files (snd (route_upload o raw w)) !! (1, remotePath) = Some 3000000 /\
  exists row,
    videos (snd (route_upload o raw w)) = [row] /\ caminho row = remotePath /\
    url row = "ana/filmes/1700000000000_My_v_deo_1_final.mkv".
Proof.
  intros o raw w fn remotePath. split; [vm_compute; reflexivity|].
  destruct (C10_generated_filename o raw w (fst (route_upload o raw w))
              (snd (route_upload o raw w))
              (Scenario.part "My  vídeo (1)__final.mkv" 3000000))
    as (_ & Hchars & Hspace & Hslash & _ & Hnamed & Hplaced).
  - reflexivity.
  - vm_compute. reflexivity.
  - destruct (Hplaced "ana" (Scenario.filmes 100)) as (_ & _ & Hfile & Hrow).
    + repeat split; vm_compute; (reflexivity || discriminate).
    + split; [exact Hchars|]. split; [exact Hspace|]. split; [exact Hslash|].
      split; [exact Hnamed|]. split; [exact Hfile|exact Hrow].
Defined.


(** * Further properties of the router *)

(** ** The upload route *)

(** X1 — The upload handler catches whatever is thrown below it: once
    multer has handed the request over, with a stored file or without
    one, the handler answers with 201, 400, 404 or 500 and passes no
    error on to Express. Without a file the answer is 400 and no call is
    made. *)
Theorem X1_upload_handler_always_answers o req w :
  exists r w',
    upload_handler o req w = (Ok r, w') /\
    In (status r) [201; 400; 404; 500] /\
    (req_file req = None ->
     r = {| status := 400; body := BError "Nenhum arquivo enviado" None |} /\ w' = w).
Proof.
  destruct (upload_handler o req w) as [out w'] eqn:H.
  unfold upload_handler, upload_body, place_and_persist in H.
  red_M_in H; repeat (run_step H; red_M_in H).
  all: simplify_eq; cbn [status quota_response].
  all: eexists _, _; split; [reflexivity|]; cbn [status].
  all: split; [cbn; tauto|].
  all: done.
Qed.

(** X2 — A part that multer lets through (here by its MIME type) but whose
    extension the handler does not support is answered 400 right away:
    the temp file is removed, and neither ffprobe nor the database nor
    the media host is called. The message names the lower-cased
    extension; it is the one computed here when the extension is written
    in ASCII. *)
Theorem X2_unsupported_extension_rejected o raw w part login :
  raw_part raw = Some part ->
  refused part = false ->
  option_map (Str.before "@") (user_email (raw_user raw)) = Some login ->
  Str.mem (fileExtension_of (in_originalname part)) videoExtensions = false ->
  let p := path (stored_file (raw_now raw) part) in
  exists r w',
    route_upload o raw w = (Ok r, w') /\
    status r = 400 /\
    (exists shown,
       body r = BError ("Formato de arquivo não suportado: " ++ shown)
                  (Some ("Formatos aceitos: " ++ String.concat ", " videoExtensions)) /\
       (Str.is_ascii (Path.extname (in_originalname part)) = true ->
        shown = fileExtension_of (in_originalname part))) /\
    tmp_files w' !! p = None /\
    remote_files w' = remote_files w /\ streamings w' = streamings w /\
    videos w' = videos w /\
    trace w' = (trace w ++ [EUnlink p])%list.
Proof.
  intros Hpart Hrefused Hlogin Hext p. subst p.
  unfold refused in Hrefused. apply orb_false_iff in Hrefused as [Hfilter Hsize].
  apply negb_false_iff in Hfilter.
  destruct (user_email (raw_user raw)) as [email|] eqn:Hemail; [|done].
  unfold fileExtension_of in *.
  destruct (route_upload o raw w) as [out w'] eqn:H.
  run_upload H. simplify_eq.
  eexists _, _. split; [reflexivity|]. world_simpl.
  split; [done|]. split; [by eexists|].
  by rewrite lookup_delete_eq.
Qed.

Lemma X2_unsupported_extension_rejected_witness :
  let o := Scenario.oracle (Scenario.report "h264" 3000) [] in
  let raw := Scenario.send (Some "12") "notes.TXT" 10 in
  let w := Scenario.world 100 in
  exists r w',
    route_upload o raw w = (Ok r, w') /\
    status r = 400 /\
    body r = BError "Formato de arquivo não suportado: .txt"
               (Some ("Formatos aceitos: " ++ String.concat ", " videoExtensions)) /\
    tmp_files w' !! "/tmp/video-uploads/1700000000000_notes.TXT" = None /\
    remote_files w' = remote_files w /\ streamings w' = streamings w /\
    videos w' = videos w /\
    trace w' = [EUnlink "/tmp/video-uploads/1700000000000_notes.TXT"].
Proof.
  intros o raw w.
  destruct (X2_unsupported_extension_rejected o raw w (Scenario.part "notes.TXT" 10) "ana")
    as (r & w' & Hrun & Hstatus & (shown & Hbody & Hshown) & Hrest).
  - reflexivity.
  - vm_compute. reflexivity.
  - reflexivity.
  - vm_compute. reflexivity.
  - exists r, w'. split; [exact Hrun|]. split; [exact Hstatus|].
    split; [|exact Hrest].
    rewrite Hbody, Hshown; [reflexivity|]. vm_compute. reflexivity.
Defined.

(** X3 — An upload that needs a conversion, finds its destination with
    room for the file, and whose placement, insert and counter update
    succeed is answered 201 whether or not the SMIL refresh fails. The
    response carries the new id and [ceil (size / 2^20)] as the space
    used; the temp file is gone, the file is on the media host, the row
    is appended to [videos], and the counter of the destination has grown
    by that many megabytes. *)
Theorem X3_upload_created o raw w part login userData :
  persists o raw w part login userData ->
  upload_needs_conversion o part = true ->
  exists b w',
    route_upload o raw w = (Ok {| status := 201; body := BCreated b |}, w') /\
    persisted o raw w w' part login userData /\
    r_id b = next_insert_id w /\ r_nome b = in_originalname part /\
    r_tamanho b = in_size part /\ r_space_used_mb b = ceilMB (in_size part) /\
    r_url b = login ++ "/" ++ identificacao userData ++ "/"
              ++ filename (stored_file (raw_now raw) part) /\
    r_path b = remotePath_of login userData (stored_file (raw_now raw) part) /\
    r_needs_conversion b = true.
Proof.
  intros Hp Hconv.
  destruct (persisted_run _ _ _ _ _ _ Hp) as (out & w' & t & Hrun & Hw & _ & Hout).
  rewrite Hconv in Hout. destruct Hout as (b & -> & Hb).
  by eexists b, w'.
Qed.

Lemma X3_upload_created_witness :
  let o := Scenario.oracle (Scenario.report "h264" 3000) [OpSmil] in
  let raw := Scenario.send (Some "12") "clip.mkv" 3000000 in
  let w := Scenario.world 100 in
  exists b w',
    route_upload o raw w = (Ok {| status := 201; body := BCreated b |}, w') /\
    persisted o raw w w' (Scenario.part "clip.mkv" 3000000) "ana" (Scenario.filmes 100) /\
    r_id b = 1 /\ r_nome b = "clip.mkv" /\
    r_tamanho b = 3000000 /\ r_space_used_mb b = 3 /\
    r_url b = "ana/filmes/1700000000000_clip.mkv" /\
    r_path b = "/home/streaming/ana/filmes/1700000000000_clip.mkv" /\
    r_needs_conversion b = true.
Proof.
  intros o raw w.
  apply (X3_upload_created o raw w (Scenario.part "clip.mkv" 3000000) "ana"
           (Scenario.filmes 100)).
  - repeat split; vm_compute; (reflexivity || discriminate).
  - vm_compute. reflexivity.
Defined.

(** X4 — An upload of an [.mp4] with a compatible codec that reaches the
    update of the counter is answered 500, "userBitrateLimit is not
    defined", although the file was placed, the row inserted and the
    megabytes counted exactly as for a 201. *)
Theorem X4_compatible_upload_answers_500 o raw w part login userData :
  persists o raw w part login userData ->
  upload_needs_conversion o part = false ->
  exists w',
    route_upload o raw w
    = (Ok {| status := 500;
             body := BError "Erro no upload do vídeo"
                       (Some "userBitrateLimit is not defined") |}, w') /\
    persisted o raw w w' part login userData /\
    compativel (inserted_row o raw w part login userData) = "sim" /\
    is_mp4 (inserted_row o raw w part login userData) = 1.
Proof.
  intros Hp Hconv.
  destruct (persisted_run _ _ _ _ _ _ Hp) as (out & w' & t & Hrun & Hw & _ & Hout).
  rewrite Hconv in Hout. subst out.
  exists w'. split; [done|]. split; [done|]. split.
  - unfold inserted_row. cbn [compativel]. by rewrite Hconv.
  - unfold upload_needs_conversion in Hconv.
    apply orb_false_iff in Hconv as [Hmp4%negb_false_iff _].
    unfold inserted_row. cbn [is_mp4]. by rewrite Hmp4.
Qed.

Lemma X4_compatible_upload_answers_500_witness :
  let o := Scenario.oracle (Scenario.report "HEVC" 1200) [] in
  let raw := Scenario.send (Some "12") "clip.MP4" 3000000 in
  let w := Scenario.world 100 in
  let part := Scenario.part "clip.MP4" 3000000 in
  exists w',
    route_upload o raw w
    = (Ok {| status := 500;
             body := BError "Erro no upload do vídeo"
                       (Some "userBitrateLimit is not defined") |}, w') /\
    persisted o raw w w' part "ana" (Scenario.filmes 100) /\
    compativel (inserted_row o raw w part "ana" (Scenario.filmes 100)) = "sim" /\
    is_mp4 (inserted_row o raw w part "ana" (Scenario.filmes 100)) = 1.
Proof.
  intros o raw w part.
  apply (X4_compatible_upload_answers_500 o raw w part "ana" (Scenario.filmes 100)).
  - repeat split; vm_compute; (reflexivity || discriminate).
  - vm_compute. reflexivity.
Defined.

(** ** The probe block *)

Lemma read_stream_bitrate v s :
  p_bitrateVideo (read_stream v s)
  = if p_bitrateVideo v =? 0 then kbps (s_bit_rate s) else p_bitrateVideo v.
Proof.
  cbn [read_stream p_bitrateVideo].
  destruct (p_bitrateVideo v =? 0) eqn:E; [|done]. cbn [andb].
  destruct (s_bit_rate s) as [n|].
  - by rewrite bool_decide_eq_true_2 by (by eexists).
  - rewrite bool_decide_eq_false_2 by (by intros [? [=]]).
    by apply Z.eqb_eq in E.
Qed.

Lemma kbps_nonneg x : (forall n, x = Some n -> 0 <= n) -> 0 <= kbps x.
Proof.
  destruct x as [n|]; intros Hn; cbn [kbps]; [|done].
  apply Z.div_pos; [by apply Hn|lia].
Qed.

(** X5 — When ffprobe exits with 0 and its output parses to an object, the
    bitrate kept is the container's, in whole kbps, unless that is 0 (a
    missing rate, or one under 1000 bit/s), in which case it is that of
    the first stream of type "video"; the codec is that stream's and
    "unknown" without one; audio streams contribute nothing. Rates that
    are not negative give a bitrate that is not negative. *)
Theorem X5_probe_bitrate_fallback o file ext w stdout format streams :
  proc o = ProcClose 0 stdout -> stdout <> "" ->
  JSON_parse o stdout = Some (DocObj format streams) ->
  let container := match format with Some f => kbps (f_bit_rate f) | None => 0 end in
  let video := match streams with Some ss => find_video ss | None => None end in
  exists v,
    probe_stage o file ext w = (Ok v, log (EProbe (path file)) w) /\
    p_bitrateVideo v
    = (if container =? 0
       then match video with Some s => kbps (s_bit_rate s) | None => 0 end
       else container) /\
    p_codecVideo v
    = match video with Some s => str_or (s_codec_name s) "unknown" | None => "unknown" end /\
    ((forall f n, format = Some f -> f_bit_rate f = Some n -> 0 <= n) ->
     (forall s n, video = Some s -> s_bit_rate s = Some n -> 0 <= n) ->
     0 <= p_bitrateVideo v).
Proof.
  intros Hproc Hout Hparse container video.
  eexists. split; [apply probe_stage_run|].
  unfold probe_vars. rewrite Hproc. apply String.eqb_neq in Hout.
  rewrite Hout, Hparse. cbn [Z.eqb negb andb].
  assert (p_bitrateVideo
            (match format with
             | Some f => read_format ext (probe_defaults ext) f
             | None => probe_defaults ext
             end) = container) as Hc by (by destruct format).
  assert (p_codecVideo
            (match format with
             | Some f => read_format ext (probe_defaults ext) f
             | None => probe_defaults ext
             end) = "unknown") as Hk by (by destruct format).
  unfold doc_vars. subst video.
  destruct streams as [ss|]; [destruct (find_video ss) as [s|]|].
  - rewrite read_stream_bitrate, Hc. split; [done|]. split; [done|].
    intros Hf Hs. destruct (container =? 0).
    + apply kbps_nonneg. eauto.
    + subst container. destruct format as [f|]; [|done].
      apply kbps_nonneg. eauto.
  - rewrite Hc, Hk. split; [by destruct (container =? 0) eqn:E; [apply Z.eqb_eq in E|]|].
    split; [done|]. intros Hf _. subst container.
    destruct format as [f|]; [|done]. apply kbps_nonneg. eauto.
  - rewrite Hc, Hk. split; [by destruct (container =? 0) eqn:E; [apply Z.eqb_eq in E|]|].
    split; [done|]. intros Hf _. subst container.
    destruct format as [f|]; [|done]. apply kbps_nonneg. eauto.
Qed.

Lemma X5_probe_bitrate_fallback_witness :
  let doc_format := {| f_duration := None; f_bit_rate := Some 900;
                       f_format_name := Some "matroska,webm" |} in
  let audio := {| s_codec_type := Some "audio"; s_codec_name := Some "aac";
                  s_width := None; s_height := None; s_bit_rate := Some 128000 |} in
  let video := {| s_codec_type := Some "video"; s_codec_name := Some "vp9";
                  s_width := Some 1280; s_height := Some 720;
                  s_bit_rate := Some 1800000 |} in
  let o := Scenario.oracle (DocObj (Some doc_format) (Some [audio; video])) [] in
  let file := stored_file 1700000000000 (Scenario.part "clip.mkv" 3000000) in
  exists v,
    probe_stage o file ".mkv" (Scenario.world 100)
    = (Ok v, log (EProbe (path file)) (Scenario.world 100)) /\
    p_bitrateVideo v = 1800 /\ p_codecVideo v = "vp9".
Proof.
  intros doc_format audio video o file.
  destruct (X5_probe_bitrate_fallback o file ".mkv" (Scenario.world 100) "{ }"
              (Some doc_format) (Some [audio; video]))
    as (v & Hrun & Hrate & Hcodec & _).
  - reflexivity.
  - discriminate.
  - reflexivity.
  - exists v. split; [exact Hrun|]. split; [exact Hrate|exact Hcodec].
Defined.

(** ** The list route *)

Lemma newer_first_sorted (l : list Video) :
  StronglySorted newer_first (merge_sort newer_first l).
Proof.
  apply StronglySorted_merge_sort.
  - intros a b c. unfold newer_first. lia.
  - intros a b. unfold newer_first. lia.
Qed.

(** X6 — The list handler never lets an error escape and never writes:
    it answers 200, 400, 404 or 500 and leaves files, tables and counter
    as they were. Without a [folder_id] (or with an empty one) the answer
    is 400 and the database is not consulted. *)
Theorem X6_list_reads_only o req w :
  exists r w',
    list_handler o req w = (Ok r, w') /\
    In (status r) [200; 400; 404; 500] /\
    same_data w w' /\
    (str_or (lreq_folder_id req) "" = "" ->
     r = {| status := 400; body := BError "folder_id é obrigatório" None |} /\
     w' = w).
Proof.
  destruct (list_handler o req w) as [out w'] eqn:H.
  run_list H; simplify_eq.
  all: eexists _, _; split; [reflexivity|]; world_simpl.
  all: split; [cbn; tauto|].
  all: split; [done|].
  all: try done.
  all: intros E; rewrite E in *; done.
Qed.

(** A listing that finds the folder, in terms of the table. *)
Lemma list_found_run o req w folderId folder email :
  lreq_folder_id req = Some folderId -> folderId <> "" ->
  head (List.filter
          (fun s => String.eqb (codigo s) folderId
                    && String.eqb (codigo_cliente s) (user_id (lreq_user req)))
          (streamings w)) = Some folder ->
  user_email (lreq_user req) = Some email ->
  fails o OpListFolder = None -> fails o OpListVideos = None ->
  list_handler o req w
  = (Ok {| status := 200;
           body := BVideos
                     (List.map (video_view (Str.before "@" email) (identificacao folder)
                                  (Z_or (user_bitrate (lreq_user req)) 2500))
                        (merge_sort newer_first
                           (listed_rows (user_id (lreq_user req)) folderId w))) |},
     log (EListVideos (user_id (lreq_user req)) folderId)
       (log (EListFolder folderId (user_id (lreq_user req))) w)).
Proof.
  intros Hid Hne Hfolder Hemail Hlf Hlv.
  apply String.eqb_neq in Hne.
  assert (str_or (lreq_folder_id req) "" = folderId) as Hf.
  { rewrite Hid. cbn [str_or]. unfold Str.or_else. by rewrite Hne. }
  destruct (List.filter _ (streamings w)) as [|f rest] eqn:Hrows; [done|].
  cbn [head] in Hfolder. injection Hfolder as ->.
  destruct (list_handler o req w) as [out w'] eqn:H.
  unfold list_handler in H. rewrite Hf in H.
  run_list H; by simplify_eq.
Qed.

(** X7 — A listing that finds the folder returns one view per row of
    [videos] that belongs to the user and the folder: the rows are exactly
    those (each once, none else), newest id first, and every view carries
    the folder's name, the login and the user's bitrate limit (2500 when
    the account has none, or 0). *)
Theorem X7_list_newest_first o req w folderId folder email :
  lreq_folder_id req = Some folderId -> folderId <> "" ->
  head (List.filter
          (fun s => String.eqb (codigo s) folderId
                    && String.eqb (codigo_cliente s) (user_id (lreq_user req)))
          (streamings w)) = Some folder ->
  user_email (lreq_user req) = Some email ->
  fails o OpListFolder = None -> fails o OpListVideos = None ->
  exists rows w',
    list_handler o req w
    = (Ok {| status := 200;
             body := BVideos
                       (List.map (video_view (Str.before "@" email) (identificacao folder)
                                    (Z_or (user_bitrate (lreq_user req)) 2500)) rows) |},
       w') /\
    Permutation rows (listed_rows (user_id (lreq_user req)) folderId w) /\
    StronglySorted (fun a b => id b <= id a) rows /\
    trace w' = (trace w ++ [EListFolder folderId (user_id (lreq_user req));
                            EListVideos (user_id (lreq_user req)) folderId])%list.
Proof.
  intros Hid Hne Hfolder Hemail Hlf Hlv.
  eexists _, _. split; [by eapply list_found_run|]. world_simpl.
  split; [apply merge_sort_Permutation|].
  split; [apply newer_first_sorted|].
  by rewrite <- app_assoc.
Qed.

Lemma X7_list_newest_first_witness :
  let row n name :=
    {| id := n; nome := name; descricao := ""; url := "ana/filmes/" ++ name;
       caminho := "/home/streaming/ana/filmes/" ++ name; duracao := 10;
       tamanho_arquivo := 3000000; v_codigo_cliente := "7"; pasta := "12";
       bitrate_video := 1200; formato_original := "mp4"; codec_video := "h264";
       largura := 1280; altura := 720; is_mp4 := 1; compativel := "sim" |} in
  let w := {| tmp_files := ∅; remote_files := ∅; streamings := [Scenario.filmes 100];
              videos := [row 1 "a.mp4"; row 2 "b.mp4"]; next_insert_id := 3;
              trace := [] |} in
  let req := {| lreq_user := Scenario.ana; lreq_folder_id := Some "12" |} in
  let o := Scenario.oracle DocNull [] in
  exists rows w',
    list_handler o req w
    = (Ok {| status := 200;
             body := BVideos (List.map (video_view "ana" "filmes" 2500) rows) |}, w') /\
    Permutation rows (listed_rows "7" "12" w) /\
    StronglySorted (fun a b => id b <= id a) rows /\
    trace w' = [EListFolder "12" "7"; EListVideos "7" "12"].
Proof.
  intros row w req o.
  apply (X7_list_newest_first o req w "12" (Scenario.filmes 100) "ana@example.com");
    (reflexivity || discriminate).
Defined.

(** The format check of the list handler looks at the extension only. *)
Lemma compatible_format_iff formatName name :
  isCompatibleFormat formatName (Some (fileExtension_of name))
  = String.eqb (fileExtension_of name) ".mp4".
Proof.
  destruct (isCompatibleFormat _ _) eqn:E.
  - apply compatible_format_mp4 in E. by rewrite E.
  - symmetry. apply String.eqb_neq. intros Hext.
    unfold isCompatibleFormat in E. rewrite Hext in E. done.
Qed.

(** X8 — What a view says about compatibility depends on the row only
    through its [is_mp4] flag, its codec, the extension of its name and its
    bitrate; the stored [formato_original] and [compativel] columns play no
    part. "bitrate_high" is reported exactly for rows that stream as they
    are and whose bitrate is over the limit. *)
Theorem X8_view_status login folder limit row :
  let v := video_view login folder limit row in
  l_needs_conversion v = negb (streams_as_is row) /\
  l_format_compatible v = String.eqb (fileExtension_of (nome row)) ".mp4" /\
  l_compatibility_status v = expected_status limit row /\
  (l_compatibility_status v = "bitrate_high"
   <-> streams_as_is row = true /\ limit < bitrate_video row) /\
  (l_compatibility_status v = "compatible"
   <-> streams_as_is row = true /\ bitrate_video row <= limit).
Proof.
  cbn zeta. unfold video_view, expected_status, streams_as_is.
  cbn [l_needs_conversion l_format_compatible l_compatibility_status].
  change (Str.toLowerCase (Path.extname (nome row))) with (fileExtension_of (nome row)).
  rewrite compatible_format_iff, Z_or_same.
  rewrite <- !negb_andb.
  destruct ((is_mp4 row =? 1) && isCompatibleCodec (Some (codec_video row))
            && (fileExtension_of (nome row) =? ".mp4")%string); cbn [negb fst].
  - destruct (bitrate_video row >? limit) eqn:E; cbn [fst].
    + apply Z.gtb_lt in E. intuition (done || lia).
    + rewrite Z.gtb_ltb in E. apply Z.ltb_ge in E. intuition (done || lia).
  - intuition done.
Qed.

(** ** An upload, then the listing *)

Lemma folderId_nonempty raw : folderId_of raw <> "".
Proof.
  unfold folderId_of, str_or, Str.or_else.
  destruct (raw_folder_id raw) as [s|]; [|done].
  destruct (String.eqb s "") eqn:E; [done|]. by apply String.eqb_neq.
Qed.

Lemma head_filter_narrower {A} (p q : A -> bool) l x :
  head (List.filter p l) = Some x ->
  (forall y, q y = true -> p y = true) -> q x = true ->
  head (List.filter q l) = Some x.
Proof.
  intros Hh Hqp Hx. induction l as [|a l IH]; [done|].
  cbn [List.filter] in *. destruct (p a) eqn:Hp.
  - cbn [head] in Hh. injection Hh as ->. by rewrite Hx.
  - destruct (q a) eqn:Hq; [|by apply IH].
    apply Hqp in Hq. congruence.
Qed.

Lemma head_filter_map {A} (q : A -> bool) (g : A -> A) l :
  (forall y, q (g y) = q y) ->
  head (List.filter q (List.map g l)) = option_map g (head (List.filter q l)).
Proof.
  intros Hg. induction l as [|a l IH]; [done|].
  cbn [List.map List.filter]. rewrite Hg. by destruct (q a).
Qed.

(** The row with the largest id heads the sorted rows. *)
Lemma newest_head (l : list Video) new :
  Forall (fun v => id v < id new) l ->
  head (merge_sort newer_first (l ++ [new])) = Some new.
Proof.
  intros Hl.
  pose proof (merge_sort_Permutation newer_first (l ++ [new])) as Hperm.
  pose proof (newer_first_sorted (l ++ [new])) as Hsorted.
  destruct (merge_sort newer_first (l ++ [new])) as [|h t].
  - apply Permutation_nil_l in Hperm. by destruct l.
  - cbn [head]. f_equal.
    assert (h ∈ (l ++ [new])%list) as Hh by (rewrite <- Hperm; left).
    assert (new ∈ h :: t) as Hn by (rewrite Hperm, elem_of_app; right; left).
    apply elem_of_app in Hh as [Hh|Hh%list_elem_of_singleton]; [|done].
    rewrite Forall_forall in Hl. apply Hl in Hh.
    apply elem_of_cons in Hn as [->|Hn]; [done|].
    apply StronglySorted_inv in Hsorted as [_ Ht].
    rewrite Forall_forall in Ht. apply Ht in Hn. unfold newer_first in Hn. lia.
Qed.

Lemma add_used_same_folder mb folderId s :
  codigo (add_used mb folderId s) = codigo s /\
  codigo_cliente (add_used mb folderId s) = codigo_cliente s /\
  identificacao (add_used mb folderId s) = identificacao s /\
  codigo_servidor (add_used mb folderId s) = codigo_servidor s.
Proof. unfold add_used. by destruct (String.eqb (codigo s) folderId). Qed.

Lemma inserted_row_needs_conversion o raw w part login userData :
  negb (streams_as_is (inserted_row o raw w part login userData))
  = upload_needs_conversion o part.
Proof.
  unfold streams_as_is, inserted_row, upload_needs_conversion.
  cbn [is_mp4 codec_video nome].
  destruct (String.eqb (fileExtension_of (in_originalname part)) ".mp4");
    cbn [Z.eqb negb andb orb]; [|done].
  by rewrite andb_true_r.
Qed.

Lemma view_needs_conversion login folder limit row :
  l_needs_conversion (video_view login folder limit row) = negb (streams_as_is row).
Proof.
  unfold video_view, streams_as_is. cbn [l_needs_conversion].
  change (Str.toLowerCase (Path.extname (nome row))) with (fileExtension_of (nome row)).
  by rewrite compatible_format_iff, <- !negb_andb.
Qed.

(** X9 — Once an upload has placed the file, inserted the row and counted
    the megabytes, the listing of its folder by the owner shows the new
    video first (ids being handed out in increasing order), with the very
    [needs_conversion] the upload computed, one view more than before.
    That holds whether the upload answered 201 or, for a compatible file,
    500. *)
Theorem X9_upload_then_list o o2 raw w part login userData :
  persists o raw w part login userData ->
  codigo_cliente userData = user_id (raw_user raw) ->
  Forall (fun v => id v < next_insert_id w) (videos w) ->
  fails o2 OpListFolder = None -> fails o2 OpListVideos = None ->
  let req := {| lreq_user := raw_user raw;
                lreq_folder_id := Some (folderId_of raw) |} in
  let row := inserted_row o raw w part login userData in
  exists out w1 first rest w2,
    route_upload o raw w = (out, w1) /\
    list_handler o2 req w1
    = (Ok {| status := 200; body := BVideos (first :: rest) |}, w2) /\
    first = video_view login (identificacao userData)
              (Z_or (user_bitrate (raw_user raw)) 2500) row /\
    l_needs_conversion first = upload_needs_conversion o part /\
    length rest
    = length (listed_rows (user_id (raw_user raw)) (folderId_of raw) w).
Proof.
  intros Hp Hown Hfresh Hlf Hlv req row.
  destruct (persisted_run _ _ _ _ _ _ Hp) as (out & w1 & t & Hrun & Hw & _ & _).
  destruct Hw as (_ & _ & Hvideos & _ & Hstreamings).
  destruct Hp as (Hl & _).
  assert (user_email (raw_user raw) <> None /\
          option_map (Str.before "@") (user_email (raw_user raw)) = Some login /\
          head (List.filter (owns_folder (folderId_of raw) (user_id (raw_user raw)))
                  (streamings w)) = Some userData) as (Hemail & Hlogin & Hhead).
  { destruct Hl as ((_ & _ & _ & Hlogin & _) & Hhead).
    split; [by destruct (user_email (raw_user raw))|]. by split. }
  destruct (user_email (raw_user raw)) as [email|] eqn:Hmail; [|done].
  cbn [option_map] in Hlogin. injection Hlogin as <-.
  set (q := fun s : Streaming =>
              String.eqb (codigo s) (folderId_of raw)
              && String.eqb (codigo_cliente s) (user_id (raw_user raw))).
  assert (q userData = true) as Hq.
  { apply head_Some_elem_of, list_elem_of_In, filter_In in Hhead as [_ Ho].
    unfold owns_folder in Ho. apply andb_true_iff in Ho as [Hc _].
    unfold q. rewrite Hc, Hown. by rewrite String.eqb_refl. }
  assert (head (List.filter q (streamings w1))
          = Some (add_used (ceilMB (in_size part)) (folderId_of raw) userData)) as Hfolder.
  { rewrite Hstreamings, head_filter_map.
    - erewrite head_filter_narrower; [done|exact Hhead| |exact Hq].
      intros y Hy. unfold q in Hy. apply andb_true_iff in Hy as [Hc Hu].
      unfold owns_folder. by rewrite Hc, Hu.
    - intros y. unfold q.
      by destruct (add_used_same_folder (ceilMB (in_size part)) (folderId_of raw) y)
        as (-> & -> & _). }
  pose proof (list_found_run o2 req w1 (folderId_of raw) _ email eq_refl
                (folderId_nonempty raw) Hfolder Hmail Hlf Hlv) as Hlist.
  destruct (add_used_same_folder (ceilMB (in_size part)) (folderId_of raw) userData)
    as (_ & _ & Hname & _).
  rewrite Hname in Hlist.
  unfold listed_rows in Hlist at 1. rewrite Hvideos, List.filter_app in Hlist.
  subst req row. cbn [lreq_user List.filter] in Hlist.
  set (row := inserted_row o raw w part (Str.before "@" email) userData) in *.
  assert (String.eqb (v_codigo_cliente row) (user_id (raw_user raw))
          && String.eqb (pasta row) (folderId_of raw) = true) as Hrow.
  { unfold row, inserted_row. cbn [v_codigo_cliente pasta].
    by rewrite !String.eqb_refl. }
  rewrite Hrow in Hlist.
  fold (listed_rows (user_id (raw_user raw)) (folderId_of raw) w) in Hlist.
  assert (Forall (fun v => id v < id row)
            (listed_rows (user_id (raw_user raw)) (folderId_of raw) w)) as Holder.
  { apply Forall_forall. intros v Hv%list_elem_of_In%filter_In.
    destruct Hv as [Hv%list_elem_of_In _].
    rewrite Forall_forall in Hfresh. by apply Hfresh. }
  pose proof (newest_head _ _ Holder) as Hnew.
  pose proof (merge_sort_Permutation newer_first
                (listed_rows (user_id (raw_user raw)) (folderId_of raw) w ++ [row]))
    as Hperm.
  destruct (merge_sort newer_first _) as [|h rest]; [done|].
  cbn [head] in Hnew. injection Hnew as ->.
  cbn [List.map] in Hlist.
  eexists out, w1, _, _, _. split; [exact Hrun|]. split; [exact Hlist|].
  split; [reflexivity|]. split.
  - rewrite view_needs_conversion. apply inserted_row_needs_conversion.
  - apply Permutation_length in Hperm.
    rewrite length_app in Hperm. cbn [length] in Hperm.
    rewrite length_map. lia.
Qed.

Lemma X9_upload_then_list_witness :
  let o := Scenario.oracle (Scenario.report "h264" 1200) [] in
  let raw := Scenario.send (Some "12") "clip.mp4" 3000000 in
  let w := Scenario.world 100 in
  let part := Scenario.part "clip.mp4" 3000000 in
  exists out w1 first rest w2,
    route_upload o raw w = (out, w1) /\
    list_handler o {| lreq_user := Scenario.ana; lreq_folder_id := Some "12" |} w1
    = (Ok {| status := 200; body := BVideos (first :: rest) |}, w2) /\
    first = video_view "ana" "filmes" 2500
              (inserted_row o raw w part "ana" (Scenario.filmes 100)) /\
    l_needs_conversion first = false /\
    length rest = 0%nat.
Proof.
  intros o raw w part.
  apply (X9_upload_then_list o o raw w part "ana" (Scenario.filmes 100)).
  - repeat split; vm_compute; (reflexivity || discriminate).
  - reflexivity.
  - apply Forall_nil. done.
  - reflexivity.
  - reflexivity.
Defined.

Lemma filter_none {A} (f : A -> bool) l :
  (forall y, In y l -> f y = false) -> List.filter f l = [].
Proof.
  induction l as [|a l IH]; [done|]. intros Hl. cbn [List.filter].
  rewrite (Hl a) by (by left). apply IH. intros y Hy. apply Hl. by right.
Qed.

(** X10 — The destination lookup of the upload handler accepts a folder
    that is not the user's when the folder's own [codigo] equals the
    user's id; the list handler's lookup does not. Such an upload is
    placed, recorded and counted on the other account's folder, and the
    uploader's listing of that folder answers 404. *)
Theorem X10_upload_into_unlisted_folder o o2 raw w part login userData :
  persists o raw w part login userData ->
  codigo_cliente userData <> user_id (raw_user raw) ->
  folder_key w ->
  fails o2 OpListFolder = None ->
  let req := {| lreq_user := raw_user raw;
                lreq_folder_id := Some (folderId_of raw) |} in
  exists out w1 w2,
    route_upload o raw w = (out, w1) /\
    persisted o raw w w1 part login userData /\
    codigo userData = user_id (raw_user raw) /\
    list_handler o2 req w1
    = (Ok {| status := 404; body := BError "Pasta não encontrada" None |}, w2).
Proof.
  intros Hp Hother Hkey Hlf req.
  destruct (persisted_run _ _ _ _ _ _ Hp) as (out & w1 & t & Hrun & Hw & _ & _).
  pose proof Hw as (_ & _ & _ & _ & Hstreamings).
  destruct Hp as ((_ & Hhead) & _).
  apply head_Some_elem_of, list_elem_of_In, filter_In in Hhead as [Hin Ho].
  unfold owns_folder in Ho. apply andb_true_iff in Ho as [Hc%String.eqb_eq Ho].
  apply orb_true_iff in Ho as [Ho%String.eqb_eq|Ho%String.eqb_eq]; [done|].
  assert (List.filter
            (fun s => String.eqb (codigo s) (folderId_of raw)
                      && String.eqb (codigo_cliente s) (user_id (raw_user raw)))
            (streamings w1) = []) as Hnone.
  { rewrite Hstreamings. apply filter_none.
    intros y' (y & <- & Hy)%in_map_iff.
    destruct (add_used_same_folder (ceilMB (in_size part)) (folderId_of raw) y)
      as (-> & -> & _).
    apply andb_false_iff.
    destruct (String.eqb (codigo y) (folderId_of raw)) eqn:E; [right|by left].
    apply String.eqb_eq in E. apply String.eqb_neq.
    assert (y = userData) as -> by (apply (key_unique (streamings w)); [done..|congruence]).
    done. }
  pose proof (folderId_nonempty raw) as Hne. apply String.eqb_neq in Hne.
  assert (list_handler o2 req w1
          = (Ok {| status := 404; body := BError "Pasta não encontrada" None |},
             log (EListFolder (folderId_of raw) (user_id (raw_user raw))) w1)) as Hlist.
  { destruct (list_handler o2 req w1) as [out2 w2] eqn:H.
    unfold list_handler in H. subst req. cbn [lreq_folder_id lreq_user str_or] in H.
    unfold Str.or_else in H at 1. rewrite Hne in H.
    replace (Str.or_else (folderId_of raw) "") with (folderId_of raw) in H
      by (unfold Str.or_else; by rewrite Hne).
    run_list H; by simplify_eq. }
  by eexists out, w1, _.
Qed.

Lemma X10_upload_into_unlisted_folder_witness :
  let shared := {| codigo := "7"; codigo_cliente := "9"; codigo_servidor := 1;
                   identificacao := "acervo"; espaco := 1000; espaco_usado := 100 |} in
  let o := Scenario.oracle (Scenario.report "h264" 1200) [] in
  let raw := Scenario.send (Some "7") "clip.mkv" 3000000 in
  let w := Scenario.world_of [shared] in
  exists out w1 w2,
    route_upload o raw w = (out, w1) /\
    persisted o raw w w1 (Scenario.part "clip.mkv" 3000000) "ana" shared /\
    codigo shared = "7" /\
    list_handler o {| lreq_user := Scenario.ana; lreq_folder_id := Some "7" |} w1
    = (Ok {| status := 404; body := BError "Pasta não encontrada" None |}, w2).
Proof.
  intros shared o raw w.
  apply (X10_upload_into_unlisted_folder o o raw w (Scenario.part "clip.mkv" 3000000)
           "ana" shared).
  - repeat split; vm_compute; (reflexivity || discriminate).
  - discriminate.
  - apply NoDup_singleton.
  - reflexivity.
Defined.

(** ** The delete route *)

Lemma take_one_head {A} (l : list A) :
  take 1 l = match l with x :: _ => [x] | [] => [] end.
Proof. by destruct l. Qed.

(** A delete that finds the row, is allowed and whose database calls
    succeed, whatever the media host does. *)
Lemma delete_found_run o req w video :
  delete_db_ok o -> may_delete req w video ->
  exists w' sz t,
    delete_handler o req w
    = (Ok {| status := 200; body := BSuccess "Vídeo removido com sucesso" |}, w') /\
    videos w' = List.filter (fun v => negb (id v =? dreq_id req)) (videos w) /\
    streamings w' = List.map (release_used (ceilMB sz) (pasta video)) (streamings w) /\
    (tamanho_arquivo video <> 0 -> sz = tamanho_arquivo video) /\
    tmp_files w' = tmp_files w /\ next_insert_id w' = next_insert_id w /\
    remote_files w'
    = (if bool_decide (fails o OpSshDelete = None)
       then delete (first_serverId (user_id (dreq_user req)) w, delete_remotePath video)
              (remote_files w)
       else remote_files w) /\
    trace w' = (trace w ++ t)%list /\
    (tamanho_arquivo video = 0 ->
     sz = match fails o OpSshStat with
          | None => default 0 (remote_files w
                                 !! (first_serverId (user_id (dreq_user req)) w,
                                     delete_remotePath video))
          | Some _ => 0
          end).
Proof.
  intros (Hsv & Hss & Hdv & Hru) (Hhead & Hpath).
  unfold deletable_rows in Hhead. unfold first_serverId, delete_remotePath.
  destruct (List.filter _ (videos w)) as [|v rest] eqn:Hrows; [done|].
  cbn [head] in Hhead. injection Hhead as ->.
  destruct (delete_handler o req w) as [out w'] eqn:H.
  run_delete_using ltac:(fun H => first [rewrite Z_or_same in H | rewrite take_one_head in H]) H.
  all: simplify_eq.
  all: eexists _, _, _; split; [reflexivity|]; world_simpl.
  all: split; [reflexivity|]; split; [reflexivity|].
  all: split; [first [done | by intros ?; match goal with
                                       | E : (_ =? 0) = true |- _ => apply Z.eqb_eq in E
                                       end]|].
  all: split; [reflexivity|]; split; [reflexivity|].
  all: first [rewrite bool_decide_eq_true_2 by done
             | rewrite bool_decide_eq_false_2 by done].
  all: split; [reflexivity|].
  all: split; [by rewrite <- ?app_assoc|].
  all: intros Hz.
  all: try match goal with
           | E : (_ =? 0) = false |- _ => by apply Z.eqb_neq in E
           end.
  all: done.
Qed.

(** X11 — The delete handler never lets an error escape: it answers 200,
    403, 404 or 500. A 404 means the lookup found no row for the id and
    the requester, a 403 that the first row's path does not contain
    [/<login>/]; in both cases no file, table or counter has changed and
    the media host was not called. A 200 means the row was found, the
    requester allowed, and no row with that id is left. *)
Theorem X11_delete_refusals_change_nothing o req w :
  exists r w' t,
    delete_handler o req w = (Ok r, w') /\
    trace w' = (trace w ++ t)%list /\
    In (status r) [200; 403; 404; 500] /\
    (status r = 404 ->
     deletable_rows req w = [] /\ same_data w w' /\ existsb remote_effect t = false) /\
    (status r = 403 ->
     (exists video, head (deletable_rows req w) = Some video /\
        Str.includes (caminho video) ("/" ++ delete_login (dreq_user req) ++ "/") = false) /\
     same_data w w' /\ existsb remote_effect t = false) /\
    (status r = 200 ->
     (exists video, may_delete req w video) /\
     Forall (fun v => id v <> dreq_id req) (videos w')).
Proof.
  unfold may_delete, deletable_rows.
  destruct (delete_handler o req w) as [out w'] eqn:H.
  run_delete_using ltac:(fun H => first [rewrite Z_or_same in H | rewrite take_one_head in H]) H.
  all: simplify_eq.
  all: eexists _, _, _; split; [reflexivity|]; world_simpl.
  all: split; [by rewrite <- ?app_assoc|].
  all: split; [cbn; tauto|].
  all: cbn [status].
  all: split; [first [done | by intros _]|].
  all: split; [first [done | intros _; split; [by eexists|done]]|].
  all: try done.
  all: intros _; split; [by eexists|].
  all: apply Forall_forall; intros x [_ Hx]%list_elem_of_In%filter_In.
  all: apply negb_true_iff in Hx; by apply Z.eqb_neq.
Qed.

(** X12 — A failure of the remote removal is only logged: the handler
    still deletes the row, releases the megabytes and answers 200, and
    the file stays on the media host with no row that could lead to it
    through this id. *)
Theorem X12_delete_survives_remote_failure o req w video msg :
  delete_db_ok o -> may_delete req w video ->
  fails o OpSshDelete = Some msg ->
  exists w' sz,
    delete_handler o req w
    = (Ok {| status := 200; body := BSuccess "Vídeo removido com sucesso" |}, w') /\
    remote_files w' = remote_files w /\
    videos w' = List.filter (fun v => negb (id v =? dreq_id req)) (videos w) /\
    streamings w' = List.map (release_used (ceilMB sz) (pasta video)) (streamings w) /\
    (tamanho_arquivo video <> 0 -> sz = tamanho_arquivo video).
Proof.
  intros Hdb Hmay Hssh.
  destruct (delete_found_run o req w video Hdb Hmay)
    as (w' & sz & t & Hrun & Hvideos & Hstreamings & Hsz & _ & _ & Hremote & _).
  rewrite Hssh, bool_decide_eq_false_2 in Hremote by done.
  by exists w', sz.
Qed.

Lemma X12_delete_survives_remote_failure_witness :
  let o := Scenario.oracle DocNull [OpSshDelete] in
  exists w' sz,
    delete_handler o Stored.remove Stored.world
    = (Ok {| status := 200; body := BSuccess "Vídeo removido com sucesso" |}, w') /\
    remote_files w' = remote_files Stored.world /\
    videos w' = [] /\
    streamings w' = List.map (release_used (ceilMB sz) "12") [Scenario.filmes 103] /\
    (3000000 <> 0 -> sz = 3000000).
Proof.
  intros o.
  apply (X12_delete_survives_remote_failure o Stored.remove Stored.world Stored.clip
           "connection lost").
  - repeat split; reflexivity.
  - split; vm_compute; reflexivity.
  - reflexivity.
Defined.

(** A failing [DELETE FROM videos] comes after the remote removal. *)
Lemma delete_row_failure_run o req w video msg :
  fails o OpSelectVideo = None -> fails o OpSelectServer = None ->
  may_delete req w video ->
  fails o OpSshDelete = None -> fails o OpDeleteVideo = Some msg ->
  exists w',
    delete_handler o req w
    = (Ok {| status := 500;
             body := BError "Erro ao remover vídeo" (Some msg) |}, w') /\
    remote_files w'
    = delete (first_serverId (user_id (dreq_user req)) w, delete_remotePath video)
        (remote_files w) /\
    videos w' = videos w /\ streamings w' = streamings w.
Proof.
  intros Hsv Hss (Hhead & Hpath) Hssh Hdv.
  unfold deletable_rows in Hhead. unfold first_serverId, delete_remotePath.
  destruct (List.filter _ (videos w)) as [|v rest] eqn:Hrows; [done|].
  cbn [head] in Hhead. injection Hhead as ->.
  destruct (delete_handler o req w) as [out w'] eqn:H.
  run_delete_using ltac:(fun H => first [rewrite Z_or_same in H | rewrite take_one_head in H]) H.
  all: simplify_eq.
  all: by eexists.
Qed.

(** X13 — When the remote removal succeeds and the [DELETE FROM videos]
    that follows fails, the handler answers 500 with the cause: the file
    is gone from the media host while its row is still in the table and
    its megabytes are still counted. *)
Theorem X13_delete_row_failure_after_removal o req w video msg sz :
  fails o OpSelectVideo = None -> fails o OpSelectServer = None ->
  may_delete req w video ->
  fails o OpSshDelete = None -> fails o OpDeleteVideo = Some msg ->
  remote_files w !! (first_serverId (user_id (dreq_user req)) w, delete_remotePath video)
  = Some sz ->
  exists w',
    delete_handler o req w
    = (Ok {| status := 500;
             body := BError "Erro ao remover vídeo" (Some msg) |}, w') /\
    remote_files w' !! (first_serverId (user_id (dreq_user req)) w, delete_remotePath video)
    = None /\
    In video (videos w') /\ streamings w' = streamings w.
Proof.
  intros Hsv Hss Hmay Hssh Hdv Hfile.
  destruct (delete_row_failure_run o req w video msg Hsv Hss Hmay Hssh Hdv)
    as (w' & Hrun & Hremote & Hvideos & Hstreamings).
  exists w'. split; [done|]. rewrite Hremote, Hvideos, lookup_delete_eq.
  split; [done|]. split; [|done].
  destruct Hmay as [Hhead _].
  apply head_Some_elem_of, list_elem_of_In, filter_In in Hhead. tauto.
Qed.

Lemma X13_delete_row_failure_after_removal_witness :
  let o := Scenario.oracle DocNull [OpDeleteVideo] in
  exists w',
    delete_handler o Stored.remove Stored.world
    = (Ok {| status := 500;
             body := BError "Erro ao remover vídeo" (Some "connection lost") |}, w') /\
    remote_files w' !! (1, "/home/streaming/ana/filmes/1700000000000_clip.mkv") = None /\
    In Stored.clip (videos w') /\ streamings w' = [Scenario.filmes 103].
Proof.
  intros o.
  apply (X13_delete_row_failure_after_removal o Stored.remove Stored.world Stored.clip
           "connection lost" 3000000).
  - reflexivity.
  - reflexivity.
  - split; vm_compute; reflexivity.
  - reflexivity.
  - reflexivity.
  - vm_compute. reflexivity.
Defined.

(** X14 — Deleting the same video again answers 404 and changes
    nothing: the first delete left no row with that id. *)
Theorem X14_delete_twice o o2 req w video :
  delete_db_ok o -> may_delete req w video ->
  fails o2 OpSelectVideo = None ->
  exists w1 w2,
    delete_handler o req w
    = (Ok {| status := 200; body := BSuccess "Vídeo removido com sucesso" |}, w1) /\
    delete_handler o2 req w1
    = (Ok {| status := 404; body := BError "Vídeo não encontrado" None |}, w2) /\
    same_data w1 w2.
Proof.
  intros Hdb Hmay Hsv.
  destruct (delete_found_run o req w video Hdb Hmay)
    as (w1 & sz & t & Hrun & Hvideos & _).
  assert (List.filter
            (fun v => (id v =? dreq_id req) &&
               (String.eqb (v_codigo_cliente v) (user_id (dreq_user req)) ||
                existsb (fun s => String.eqb (codigo_cliente s) (user_id (dreq_user req)) &&
                                  String.eqb (codigo s) (v_codigo_cliente v))
                        (streamings w1)))
            (videos w1) = []) as Hnone.
  { rewrite Hvideos. apply filter_none. intros y [_ Hy]%filter_In.
    apply negb_true_iff in Hy. by rewrite Hy. }
  assert (delete_handler o2 req w1
          = (Ok {| status := 404; body := BError "Vídeo não encontrado" None |},
             log (ESelectVideo (dreq_id req) (user_id (dreq_user req))) w1)) as Hagain.
  { destruct (delete_handler o2 req w1) as [out w2] eqn:H.
    run_delete H. by simplify_eq. }
  eexists w1, _. split; [done|]. split; [exact Hagain|]. done.
Qed.

Lemma X14_delete_twice_witness :
  let o := Scenario.oracle DocNull [] in
  exists w1 w2,
    delete_handler o Stored.remove Stored.world
    = (Ok {| status := 200; body := BSuccess "Vídeo removido com sucesso" |}, w1) /\
    delete_handler o Stored.remove w1
    = (Ok {| status := 404; body := BError "Vídeo não encontrado" None |}, w2) /\
    same_data w1 w2.
Proof.
  intros o.
  apply (X14_delete_twice o o Stored.remove Stored.world Stored.clip).
  - repeat split; reflexivity.
  - split; vm_compute; reflexivity.
  - reflexivity.
Defined.

(** ** An upload, then its removal *)

Lemma prefix_app p s : String.prefix p (p ++ s) = true.
Proof.
  induction p as [|c p IH]; [apply prefix_empty|].
  change (String c p ++ s) with (String c (p ++ s)).
  by rewrite prefix_cons, Ascii.eqb_refl, IH.
Qed.

Lemma includes_app a p s : Str.includes (a ++ p ++ s) p = true.
Proof.
  induction a as [|c a IH].
  - change ("" ++ p ++ s) with (p ++ s). destruct (p ++ s) eqn:E.
    + cbn [Str.includes]. by rewrite <- E, prefix_app.
    + rewrite includes_cons, <- E, prefix_app. done.
  - change (String c a ++ p ++ s) with (String c (a ++ p ++ s)).
    by rewrite includes_cons, IH, orb_true_r.
Qed.

Lemma release_add_used mb folderId s :
  0 <= espaco_usado s -> 0 <= mb ->
  release_used mb folderId (add_used mb folderId s) = s.
Proof.
  intros Hu Hmb. unfold release_used, add_used.
  destruct (String.eqb (codigo s) folderId) eqn:E; [|by rewrite E].
  destruct s as [c cc cs i e u]. cbn [with_used codigo espaco_usado] in *. rewrite E.
  unfold with_used. cbn [codigo codigo_cliente codigo_servidor identificacao espaco
                         espaco_usado].
  f_equal. lia.
Qed.

Lemma first_serverId_add_used userId w w' mb folderId :
  streamings w' = List.map (add_used mb folderId) (streamings w) ->
  first_serverId userId w' = first_serverId userId w.
Proof.
  intros Hs. unfold first_serverId. rewrite Hs. clear Hs.
  induction (streamings w) as [|s l IH]; [done|].
  cbn [List.map List.filter].
  destruct (add_used_same_folder mb folderId s) as (_ & -> & _ & Hserver).
  destruct (String.eqb (codigo_cliente s) userId); [exact Hserver|exact IH].
Qed.

Lemma filter_every {A} (f : A -> bool) l :
  (forall y, In y l -> f y = true) -> List.filter f l = l.
Proof.
  induction l as [|a l IH]; [done|]. intros Hl. cbn [List.filter].
  rewrite (Hl a) by (by left). f_equal. apply IH. intros y Hy. apply Hl. by right.
Qed.

Lemma append_assoc (a b c : string) : (a ++ b) ++ c = a ++ b ++ c.
Proof.
  induction a as [|x a IH]; [done|].
  change ((String x a ++ b) ++ c) with (String x ((a ++ b) ++ c)).
  by rewrite IH.
Qed.

(** A path under [/home/streaming/<login>/] passes the ownership check of
    the delete handler for that login and is removed as it stands. *)
Lemma path_includes_login login rest :
  Str.includes ("/home/streaming/" ++ login ++ "/" ++ rest) ("/" ++ login ++ "/") = true.
Proof.
  change ("/home/streaming/" ++ login ++ "/" ++ rest)
    with ("/home/streaming" ++ String "/" (login ++ "/" ++ rest)).
  rewrite <- (append_assoc login "/" rest).
  change (String "/" ((login ++ "/") ++ rest)) with (("/" ++ login ++ "/") ++ rest).
  apply includes_app.
Qed.

(** X15 — Removing a video right after its upload puts the tables back:
    with counters that are not negative, a file of positive size and ids
    handed out in increasing order, the delete of the new id answers 200,
    [videos] and every used-space counter are what they were before the
    upload. The file leaves the media host too when the removal succeeds
    on the host the upload used, which the delete handler takes from the
    user's first streaming rather than from the folder. *)
Theorem X15_upload_then_delete o o2 raw w part login userData :
  persists o raw w part login userData ->
  delete_db_ok o2 ->
  delete_login (raw_user raw) = login ->
  0 < in_size part ->
  quota_inv w ->
  Forall (fun v => id v < next_insert_id w) (videos w) ->
  let req := {| dreq_user := raw_user raw; dreq_id := next_insert_id w |} in
  let placed := (serverId_of userData,
                 remotePath_of login userData (stored_file (raw_now raw) part)) in
  exists out w1 w2,
    route_upload o raw w = (out, w1) /\
    delete_handler o2 req w1
    = (Ok {| status := 200; body := BSuccess "Vídeo removido com sucesso" |}, w2) /\
    videos w2 = videos w /\ streamings w2 = streamings w /\
    (fails o2 OpSshDelete = None ->
     first_serverId (user_id (raw_user raw)) w = serverId_of userData ->
     remote_files w !! placed = None ->
     remote_files w2 = remote_files w).
Proof.
  intros Hp Hdb Hlogin Hsize Hinv Hfresh req placed.
  destruct (persisted_run _ _ _ _ _ _ Hp) as (out & w1 & t & Hrun & Hw & _ & _).
  destruct Hw as (_ & Hremote & Hvideos & _ & Hstreamings).
  set (row := inserted_row o raw w part login userData) in *.
  assert (may_delete req w1 row) as Hmay.
  { split.
    - unfold deletable_rows. rewrite Hvideos, List.filter_app.
      rewrite filter_none.
      + cbn [app List.filter req dreq_id dreq_user]. unfold row, inserted_row.
        cbn [id v_codigo_cliente]. by rewrite Z.eqb_refl, String.eqb_refl.
      + intros y Hy%list_elem_of_In. rewrite Forall_forall in Hfresh.
        apply Hfresh in Hy. cbn [req dreq_id].
        apply andb_false_iff. left. apply Z.eqb_neq. lia.
    - cbn [req dreq_user]. rewrite Hlogin. unfold row, inserted_row, remotePath_of.
      cbn [caminho].
      apply path_includes_login. }
  destruct (delete_found_run o2 req w1 row Hdb Hmay)
    as (w2 & sz & t2 & Hdel & Hvideos2 & Hstreamings2 & Hsz & _ & _ & Hremote2 & _).
  exists out, w1, w2. split; [exact Hrun|]. split; [exact Hdel|].
  assert (sz = in_size part) as ->.
  { apply Hsz. unfold row, inserted_row. cbn [tamanho_arquivo]. lia. }
  split; [|split].
  - rewrite Hvideos2, Hvideos, List.filter_app, filter_every.
    + cbn [List.filter req dreq_id]. unfold row at 1, inserted_row.
      cbn [id]. rewrite Z.eqb_refl. cbn [negb]. apply app_nil_r.
    + intros y Hy%list_elem_of_In. rewrite Forall_forall in Hfresh.
      apply Hfresh in Hy. cbn [req dreq_id].
      apply negb_true_iff, Z.eqb_neq. lia.
  - rewrite Hstreamings2, Hstreamings, List.map_map.
    rewrite <- (List.map_id (streamings w)) at 2.
    apply map_ext_in. intros s Hs%list_elem_of_In.
    unfold quota_inv in Hinv. rewrite Forall_forall in Hinv.
    apply Hinv in Hs. unfold quota_ok in Hs.
    apply release_add_used; [lia|apply ceilMB_nonneg; lia].
  - intros Hssh Hserver Hfree.
    rewrite Hssh, bool_decide_eq_true_2 in Hremote2 by done.
    rewrite (first_serverId_add_used _ w w1 _ _ Hstreamings) in Hremote2.
    cbn [req dreq_user] in Hremote2. rewrite Hserver in Hremote2.
    rewrite Hremote2, Hremote. by apply delete_insert_id.
Qed.

Lemma X15_upload_then_delete_witness :
  let o := Scenario.oracle (Scenario.report "h264" 1200) [] in
  let raw := Scenario.send (Some "12") "clip.mkv" 3000000 in
  let w := Scenario.world 100 in
  let req := {| dreq_user := Scenario.ana; dreq_id := 1 |} in
  let placed := (1, "/home/streaming/ana/filmes/1700000000000_clip.mkv") in
  exists out w1 w2,
    route_upload o raw w = (out, w1) /\
    delete_handler o req w1
    = (Ok {| status := 200; body := BSuccess "Vídeo removido com sucesso" |}, w2) /\
    videos w2 = videos w /\ streamings w2 = streamings w /\
    (fails o OpSshDelete = None ->
     first_serverId "7" w = 1 ->
     remote_files w !! placed = None ->
     remote_files w2 = remote_files w).
Proof.
  intros o raw w req placed.
  apply (X15_upload_then_delete o o raw w (Scenario.part "clip.mkv" 3000000) "ana"
           (Scenario.filmes 100)).
  - repeat split; vm_compute; (reflexivity || discriminate).
  - repeat split; reflexivity.
  - vm_compute. reflexivity.
  - vm_compute. reflexivity.
  - repeat constructor; vm_compute; discriminate.
  - apply Forall_nil. done.
Defined.

(** X16 — The upload files a video under the login taken from the e-mail
    address, the delete handler checks the path against
    [usuario || email login || user_<id>]. When the stored path does not
    contain [/<that login>/], the uploader's own delete of the new video
    is answered 403 and nothing is removed. *)
Theorem X16_upload_then_delete_denied o o2 raw w part login userData :
  persists o raw w part login userData ->
  fails o2 OpSelectVideo = None ->
  Forall (fun v => id v < next_insert_id w) (videos w) ->
  Str.includes (remotePath_of login userData (stored_file (raw_now raw) part))
    ("/" ++ delete_login (raw_user raw) ++ "/") = false ->
  let req := {| dreq_user := raw_user raw; dreq_id := next_insert_id w |} in
  exists out w1 w2,
    route_upload o raw w = (out, w1) /\
    persisted o raw w w1 part login userData /\
    delete_handler o2 req w1
    = (Ok {| status := 403; body := BError "Acesso negado" None |}, w2) /\
    same_data w1 w2.
Proof.
  intros Hp Hsv Hfresh Hpath req.
  destruct (persisted_run _ _ _ _ _ _ Hp) as (out & w1 & t & Hrun & Hw & _ & _).
  pose proof Hw as (_ & _ & Hvideos & _ & _).
  set (row := inserted_row o raw w part login userData) in *.
  assert (List.filter
            (fun v => (id v =? dreq_id req) &&
               (String.eqb (v_codigo_cliente v) (user_id (dreq_user req)) ||
                existsb (fun s => String.eqb (codigo_cliente s) (user_id (dreq_user req)) &&
                                  String.eqb (codigo s) (v_codigo_cliente v))
                        (streamings w1)))
            (videos w1) = [row]) as Hrows.
  { rewrite Hvideos, List.filter_app, filter_none.
    - cbn [app List.filter req dreq_id dreq_user]. unfold row at 1 2, inserted_row.
      cbn [id v_codigo_cliente]. by rewrite Z.eqb_refl, String.eqb_refl.
    - intros y Hy%list_elem_of_In. rewrite Forall_forall in Hfresh.
      apply Hfresh in Hy. cbn [req dreq_id].
      apply andb_false_iff. left. apply Z.eqb_neq. lia. }
  assert (Str.includes (caminho row) ("/" ++ delete_login (dreq_user req) ++ "/") = false)
    as Hdenied by exact Hpath.
  assert (delete_handler o2 req w1
          = (Ok {| status := 403; body := BError "Acesso negado" None |},
             log (ESelectVideo (dreq_id req) (user_id (dreq_user req))) w1)) as Hdel.
  { destruct (delete_handler o2 req w1) as [out2 w2] eqn:H.
    run_delete H. by simplify_eq. }
  eexists out, w1, _. split; [exact Hrun|]. split; [exact Hw|].
  split; [exact Hdel|]. done.
Qed.

Lemma X16_upload_then_delete_denied_witness :
  let ana := {| user_id := "7"; user_email := Some "ana@example.com";
                user_usuario := Some "ana.silva"; user_bitrate := Some 2500;
                user_espectadores := None |} in
  let o := Scenario.oracle (Scenario.report "h264" 1200) [] in
  let part := Scenario.part "clip.mkv" 3000000 in
  let raw := {| raw_user := ana; raw_folder_id := Some "12";
                raw_part := Some part; raw_now := 1700000000000 |} in
  let w := Scenario.world 100 in
  exists out w1 w2,
    route_upload o raw w = (out, w1) /\
    persisted o raw w w1 part "ana" (Scenario.filmes 100) /\
    delete_handler o {| dreq_user := ana; dreq_id := 1 |} w1
    = (Ok {| status := 403; body := BError "Acesso negado" None |}, w2) /\
    same_data w1 w2.
Proof.
  intros ana o part raw w.
  apply (X16_upload_then_delete_denied o o raw w part "ana" (Scenario.filmes 100)).
  - repeat split; vm_compute; (reflexivity || discriminate).
  - reflexivity.
  - apply Forall_nil. done.
  - vm_compute. reflexivity.
Defined.

(** ** The test route *)

Ltac run_test H :=
  unfold test_handler, read_relativePath in H;
  red_M_in H; cbn [treq_user treq_userId treq_folder treq_filename] in H;
  repeat (first [rewrite take_one_head in H | run_step H]; red_M_in H;
          cbn [treq_user treq_userId treq_folder treq_filename] in H).

(** X17 — The test route only reads. It answers 200 exactly when the
    two lookups succeed and the file is on the media host of the user's
    first streaming under the Wowza content directory, and then reports
    that path and the file's size. Its "not found" answer cannot be
    produced: building it reads [relativePath], which is not declared
    there, so a missing file is answered 500 with "relativePath is not
    defined", like a failure of the lookup on the media host. *)
Theorem X17_test_route o req w :
  let remotePath login := wowza_content ++ login ++ "/" ++ treq_folder req
                            ++ "/" ++ treq_filename req in
  exists r w',
    test_handler o req w = (Ok r, w') /\
    same_data w w' /\
    (forall url, t_body r <> TNotFound url) /\
    (t_status r = 200 \/ t_status r = 500) /\
    (t_status r = 200 <->
     exists email sz,
       user_email (treq_user req) = Some email /\
       fails o OpSelectServer = None /\ fails o OpSshStat = None /\
       remote_files w !! (first_serverId (treq_userId req) w,
                          remotePath (Str.before "@" email)) = Some sz /\
       t_body r = TExists (remotePath (Str.before "@" email)) sz
                    ("/content/" ++ Str.before "@" email ++ "/" ++ treq_folder req
                       ++ "/" ++ treq_filename req)) /\
    (forall email,
       user_email (treq_user req) = Some email ->
       fails o OpSelectServer = None -> fails o OpSshStat = None ->
       remote_files w !! (first_serverId (treq_userId req) w,
                          remotePath (Str.before "@" email)) = None ->
       r = {| t_status := 500; t_body := TCheckFailed "relativePath is not defined" |}).
Proof.
  intros remotePath. subst remotePath. unfold first_serverId.
  destruct (test_handler o req w) as [out w'] eqn:H.
  run_test H.
  all: simplify_eq.
  all: eexists _, _; split; [reflexivity|]; cbn [t_status t_body]; world_simpl.
  all: split; [done|]; split; [done|].
  all: split; [first [by left | by right]|].
  all: split.
  all: try (split; [done|intros (email & sz & ? & ? & ? & ? & ?); congruence]).
  all: try (intros email ? ? ? ?; congruence).
  all: try (split; [intros _; by eexists _, _|done]).
  all: by intros.
Qed.

(** ** [formatDuration] *)

Lemma pad2_table :
  forallb (fun k => Nat.eqb (String.length (pad2 (Z.of_nat k))) 2) (seq 0 100) = true.
Proof. vm_compute. reflexivity. Qed.

Lemma pad2_length n : 0 <= n < 100 -> String.length (pad2 n) = 2%nat.
Proof.
  intros Hn. pose proof pad2_table as Ht.
  rewrite forallb_forall in Ht. specialize (Ht (Z.to_nat n)).
  rewrite Z2Nat.id in Ht by lia. apply Nat.eqb_eq, Ht, in_seq. lia.
Qed.

Lemma pad2_inj_table :
  forallb (fun a => forallb (fun b =>
             implb (String.eqb (pad2 (Z.of_nat a)) (pad2 (Z.of_nat b))) (Nat.eqb a b))
             (seq 0 100)) (seq 0 100) = true.
Proof. vm_compute. reflexivity. Qed.

Lemma pad2_inj a b : 0 <= a < 100 -> 0 <= b < 100 -> pad2 a = pad2 b -> a = b.
Proof.
  intros Ha Hb Hab. pose proof pad2_inj_table as Ht.
  rewrite forallb_forall in Ht.
  assert (In (Z.to_nat a) (seq 0 100)) as Hia by (apply in_seq; lia).
  assert (In (Z.to_nat b) (seq 0 100)) as Hib by (apply in_seq; lia).
  specialize (Ht (Z.to_nat a) Hia). rewrite forallb_forall in Ht.
  specialize (Ht (Z.to_nat b) Hib). rewrite !Z2Nat.id in Ht by lia.
  rewrite Hab, String.eqb_refl in Ht. cbn [implb] in Ht.
  apply Nat.eqb_eq in Ht. lia.
Qed.

Lemma length_append (a b : string) :
  String.length (a ++ b) = (String.length a + String.length b)%nat.
Proof.
  induction a as [|x a IH]; [done|].
  change (String x a ++ b) with (String x (a ++ b)). cbn [String.length]. by rewrite IH.
Qed.

Lemma append_inj_length (a a' b b' : string) :
  String.length a = String.length a' -> a ++ b = a' ++ b' -> a = a' /\ b = b'.
Proof.
  revert a'. induction a as [|x a IH]; intros [|x' a'] Hlen Hab; try done.
  change (String x (a ++ b) = String x' (a' ++ b')) in Hab.
  injection Hab as -> Hab. cbn [String.length] in Hlen.
  destruct (IH a') as [-> ->]; [lia|done|done].
Qed.

Lemma formatDuration_short s :
  0 <= s < 3600 ->
  formatDuration s = pad2 (s / 60) ++ ":" ++ pad2 (s mod 60).
Proof.
  intros Hs. unfold formatDuration.
  rewrite !Z.rem_mod_nonneg by lia.
  rewrite (Z.div_small s 3600), (Z.mod_small s 3600) by lia. done.
Qed.

Lemma formatDuration_long s :
  3600 <= s ->
  formatDuration s
  = pad2 (s / 3600) ++ ":" ++ pad2 (s mod 3600 / 60) ++ ":" ++ pad2 (s mod 60).
Proof.
  intros Hs. unfold formatDuration.
  rewrite !Z.rem_mod_nonneg by lia.
  assert (0 < s / 3600) as Hh by (apply Z.div_str_pos; lia).
  apply Z.gtb_lt in Hh. by rewrite Hh.
Qed.

(** X18 — On whole seconds under a hundred hours [formatDuration] writes
    [MM:SS] (five characters) below one hour and [HH:MM:SS] (eight) from
    one hour on, every field padded to two digits, and two different
    durations are never written alike. *)
Theorem X18_formatDuration_shape a b :
  0 <= a < 360000 -> 0 <= b < 360000 ->
  String.length (formatDuration a) = (if a <? 3600 then 5%nat else 8%nat) /\
  (formatDuration a = formatDuration b -> a = b).
Proof.
  assert (forall s, 0 <= s < 360000 ->
            String.length (formatDuration s) = (if s <? 3600 then 5%nat else 8%nat)) as Hlen.
  { intros s Hs. destruct (s <? 3600) eqn:E.
    - apply Z.ltb_lt in E. rewrite formatDuration_short by lia.
      rewrite !length_append, !pad2_length; [done|..].
      + pose proof (Z.mod_pos_bound s 60). lia.
      + split; [apply Z.div_pos; lia|]. apply Z.div_lt_upper_bound; lia.
    - apply Z.ltb_ge in E. rewrite formatDuration_long by lia.
      rewrite !length_append, !pad2_length; [done|..].
      + pose proof (Z.mod_pos_bound s 60). lia.
      + pose proof (Z.mod_pos_bound s 3600).
        split; [apply Z.div_pos; lia|]. apply Z.div_lt_upper_bound; lia.
      + split; [apply Z.div_pos; lia|]. apply Z.div_lt_upper_bound; lia. }
  intros Ha Hb. split; [by apply Hlen|]. intros Heq.
  pose proof (Hlen a Ha) as Hla. pose proof (Hlen b Hb) as Hlb.
  rewrite Heq in Hla. rewrite Hla in Hlb.
  assert (0 <= a mod 60 < 100 /\ 0 <= b mod 60 < 100) as [Ha60 Hb60].
  { pose proof (Z.mod_pos_bound a 60). pose proof (Z.mod_pos_bound b 60). lia. }
  destruct (a <? 3600) eqn:Ea, (b <? 3600) eqn:Eb; try done.
  - apply Z.ltb_lt in Ea, Eb.
    rewrite !formatDuration_short in Heq by lia.
    assert (0 <= a / 60 < 100 /\ 0 <= b / 60 < 100) as [Ham Hbm].
    { split; (split; [apply Z.div_pos; lia|apply Z.div_lt_upper_bound; lia]). }
    apply append_inj_length in Heq as [Hm Hs]; [|by rewrite !pad2_length].
    injection Hs as Hs. apply pad2_inj in Hm, Hs; try done.
    rewrite (Z.div_mod a 60), (Z.div_mod b 60) by lia. lia.
  - apply Z.ltb_ge in Ea, Eb.
    rewrite !formatDuration_long in Heq by lia.
    assert (0 <= a / 3600 < 100 /\ 0 <= b / 3600 < 100) as [Hah Hbh].
    { split; (split; [apply Z.div_pos; lia|apply Z.div_lt_upper_bound; lia]). }
    assert (0 <= a mod 3600 / 60 < 100 /\ 0 <= b mod 3600 / 60 < 100) as [Ham Hbm].
    { pose proof (Z.mod_pos_bound a 3600). pose proof (Z.mod_pos_bound b 3600).
      split; (split; [apply Z.div_pos; lia|apply Z.div_lt_upper_bound; lia]). }
    apply append_inj_length in Heq as [Hh Hrest]; [|by rewrite !pad2_length].
    injection Hrest as Hrest.
    match type of Hrest with
    | "" ++ ?x = "" ++ ?y => change (x = y) in Hrest
    end.
    apply append_inj_length in Hrest as [Hm Hs]; [|by rewrite !pad2_length].
    injection Hs as Hs. apply pad2_inj in Hh, Hm, Hs; try done.
    assert (a mod 3600 = b mod 3600) as Hr.
    { assert ((a mod 3600) mod 60 = a mod 60) as Hra
        by (apply Z.mod_mod_divide; exists 60; lia).
      assert ((b mod 3600) mod 60 = b mod 60) as Hrb
        by (apply Z.mod_mod_divide; exists 60; lia).
      rewrite (Z.div_mod (a mod 3600) 60), (Z.div_mod (b mod 3600) 60) by lia.
      lia. }
    rewrite (Z.div_mod a 3600), (Z.div_mod b 3600) by lia. lia.
Qed.

Lemma X18_formatDuration_shape_witness :
  String.length (formatDuration 3725) = 8%nat /\
  (formatDuration 3725 = formatDuration 125 -> 3725 = 125).
Proof.
  apply (X18_formatDuration_shape 3725 125); lia.
Defined.

(** ** Generated file names *)

Lemma digits_then_underscore d1 d2 r1 r2 :
  Str.forallb Str.is_digit d1 = true -> Str.forallb Str.is_digit d2 = true ->
  d1 ++ String "_" r1 = d2 ++ String "_" r2 -> d1 = d2 /\ r1 = r2.
Proof.
  revert d2. induction d1 as [|c d1 IH]; intros [|c' d2] H1 H2 Heq.
  - by injection Heq as ->.
  - change (String "_" r1 = String c' (d2 ++ String "_" r2)) in Heq.
    injection Heq as <- _. cbn [Str.forallb] in H2. done.
  - change (String c (d1 ++ String "_" r1) = String "_" r2) in Heq.
    injection Heq as -> _. cbn [Str.forallb] in H1. done.
  - change (String c (d1 ++ String "_" r1) = String c' (d2 ++ String "_" r2)) in Heq.
    injection Heq as -> Heq. cbn [Str.forallb] in H1, H2.
    apply andb_true_iff in H1 as [_ H1]. apply andb_true_iff in H2 as [_ H2].
    by destruct (IH d2 H1 H2 Heq) as [-> ->].
Qed.

(** X19 — The generated name determines the millisecond of the upload
    and the sanitised original name: two uploads get the same temp file
    (and the same remote file within a folder) only if they arrive in the
    same millisecond with names that sanitise alike. *)
Theorem X19_generated_names_distinct now1 now2 name1 name2 :
  storage_filename now1 name1 = storage_filename now2 name2 <->
  now1 = now2 /\ sanitizedName name1 = sanitizedName name2.
Proof.
  split; [|by intros [-> Hs]; unfold storage_filename; rewrite Hs].
  unfold storage_filename. intros Heq.
  apply digits_then_underscore in Heq as [Hn Hs]; try apply pretty_N_digits.
  split; [by apply (inj pretty)|done].
Qed.

Lemma replace_disallowed_fixed s :
  Str.forallb filename_char s = true -> replace_disallowed s = s.
Proof.
  unfold replace_disallowed. induction s as [|c s IH]; [done|].
  cbn [Str.forallb Str.map]. intros [Hc Hs]%andb_true_iff.
  rewrite (IH Hs). f_equal.
  destruct (allowed_char c) eqn:E; [done|].
  unfold filename_char in Hc. rewrite E in Hc. cbn [orb] in Hc.
  by apply Ascii.eqb_eq in Hc.
Qed.

Lemma collapse_underscores_fixed s :
  Str.includes s "__" = false -> collapse_underscores s = s.
Proof.
  induction s as [|c s IH]; [done|].
  rewrite includes_cons, prefix_cons. intros [Hhead Htail]%orb_false_iff.
  cbn [collapse_underscores]. rewrite (IH Htail).
  fold (Str.startsWith s "_") in Hhead. by rewrite Hhead.
Qed.

Lemma length_collapse_underscores s :
  (String.length (collapse_underscores s) <= String.length s)%nat.
Proof.
  induction s as [|c s IH]; [done|]. cbn [collapse_underscores].
  destruct (Ascii.eqb c "_" && Str.startsWith s "_"); cbn [String.length]; lia.
Qed.

Lemma length_map f s : String.length (Str.map f s) = String.length s.
Proof. induction s as [|c s IH]; [done|]. cbn [Str.map String.length]. by rewrite IH. Qed.

(** X20 — Sanitising is idempotent and never lengthens: a name that is
    already made of [a-zA-Z0-9._-] without two underscores in a row is
    kept as it is, the sanitised name is such a name, and it has at most
    as many characters as the original. *)
Theorem X20_sanitizedName_idempotent name :
  sanitizedName (sanitizedName name) = sanitizedName name /\
  (String.length (sanitizedName name) <= String.length name)%nat /\
  (Str.forallb filename_char name = true -> Str.includes name "__" = false ->
   sanitizedName name = name).
Proof.
  assert (forall s, Str.forallb filename_char s = true -> Str.includes s "__" = false ->
            sanitizedName s = s) as Hfixed.
  { intros s Hchars Hruns. unfold sanitizedName.
    rewrite replace_disallowed_fixed by done. by apply collapse_underscores_fixed. }
  split; [|split; [|apply Hfixed]].
  - apply Hfixed.
    + apply collapse_underscores_chars, replace_disallowed_chars.
    + apply collapse_underscores_no_run.
  - unfold sanitizedName, replace_disallowed.
    etransitivity; [apply length_collapse_underscores|]. by rewrite length_map.
Qed.

(** ** The quota check, in bytes *)

Lemma ceilMB_bounds n : (ceilMB n - 1) * 1048576 < n <= ceilMB n * 1048576.
Proof.
  unfold ceilMB. change (1024 * 1024) with 1048576.
  pose proof (Z.div_mod (- n) 1048576). pose proof (Z.mod_pos_bound (- n) 1048576). lia.
Qed.

Lemma ceilMB_gt n m : ceilMB n > m <-> n > m * 1048576.
Proof. pose proof (ceilMB_bounds n). nia. Qed.

(** X21 — For a request that reaches the quota check, the answer is 400
    exactly when the file has more bytes than the megabytes left on the
    destination times 1048576: the megabyte a file starts counts in full,
    and a file that fills the destination to the last byte is accepted. *)
Theorem X21_quota_in_bytes o raw w part login userData :
  looked_up o raw w part login userData ->
  exists r w',
    route_upload o raw w = (Ok r, w') /\
    (status r = 400
     <-> in_size part > (espaco userData - espaco_usado userData) * 1048576) /\
    (status r = 400 ->
     body r = body (quota_response (ceilMB (in_size part))
                      (espaco userData - espaco_usado userData) userData)).
Proof.
  intros Hl.
  destruct (ceilMB (in_size part) >? espaco userData - espaco_usado userData) eqn:Hq.
  - apply Z.gtb_lt, Z.lt_gt in Hq.
    destruct (quota_rejection_run _ _ _ _ _ _ Hl Hq) as (w' & Hrun & _).
    eexists _, w'. split; [exact Hrun|]. rewrite <- ceilMB_gt. by split.
  - assert (~ ceilMB (in_size part) > espaco userData - espaco_usado userData) as Hfit
      by (rewrite Z.gtb_ltb in Hq; apply Z.ltb_ge in Hq; lia).
    rewrite ceilMB_gt in Hfit.
    use_looked_up Hl.
    destruct (route_upload o raw w) as [out w'] eqn:H.
    run_upload H.
    all: simplify_eq.
    all: eexists _, _; split; [reflexivity|]; cbn [status].
    all: by split.
Qed.

Lemma X21_quota_in_bytes_witness :
  let o := Scenario.oracle (Scenario.report "h264" 1200) [] in
  let raw := Scenario.send (Some "12") "clip.mkv" 5242881 in
  let w := Scenario.world 995 in
  exists r w',
    route_upload o raw w = (Ok r, w') /\
    (status r = 400 <-> 5242881 > (1000 - 995) * 1048576) /\
    (status r = 400 ->
     body r = body (quota_response 6 5 (Scenario.filmes 995))).
Proof.
  intros o raw w.
  apply (X21_quota_in_bytes o raw w (Scenario.part "clip.mkv" 5242881) "ana"
           (Scenario.filmes 995)).
  repeat split; vm_compute; reflexivity.
Defined.

(** ** multer's filter and the handler's extension check *)

Lemma take_drop_until stop l :
  l = (Path.take_until stop l ++ Path.drop_until stop l)%list.
Proof.
  induction l as [|c l IH]; [done|].
  cbn [Path.take_until Path.drop_until].
  destruct (Ascii.eqb c stop); [done|]. cbn [app]. by rewrite <- IH.
Qed.

Lemma string_of_list_app (a b : list ascii) :
  string_of_list_ascii (a ++ b) = string_of_list_ascii a ++ string_of_list_ascii b.
Proof.
  induction a as [|c a IH]; [done|].
  cbn [app string_of_list_ascii].
  change (String c (string_of_list_ascii a) ++ string_of_list_ascii b)
    with (String c (string_of_list_ascii a ++ string_of_list_ascii b)).
  by rewrite IH.
Qed.

Lemma drop_app (a e : string) : Str.drop (String.length a) (a ++ e) = e.
Proof. induction a as [|c a IH]; [by destruct e|]. exact IH. Qed.

Lemma endsWith_app (a e : string) : Str.endsWith (a ++ e) e = true.
Proof.
  unfold Str.endsWith. rewrite length_append.
  replace (String.length a + String.length e - String.length e)%nat
    with (String.length a) by lia.
  rewrite drop_app, String.eqb_refl, andb_true_r. apply Nat.leb_le. lia.
Qed.

Lemma drop_slashes_id l :
  (forall l', l <> ("/"%char :: l')%list) -> Path.drop_slashes l = l.
Proof.
  destruct l as [|c l]; [done|]. intros Hl. cbn [Path.drop_slashes].
  destruct (Ascii.eqb c "/") eqn:E; [|done].
  apply Ascii.eqb_eq in E as ->. by destruct (Hl l).
Qed.

(** Unless the name ends with a slash, its extension is its end. *)
Lemma extname_suffix name :
  Str.endsWith name "/" = false -> exists a, name = a ++ Path.extname name.
Proof.
  intros Hslash.
  set (r := rev (list_ascii_of_string name)).
  assert (name = string_of_list_ascii (rev r)) as Hname
    by (unfold r; by rewrite rev_involutive, string_of_list_ascii_of_string).
  assert (Path.drop_slashes r = r) as Hr.
  { apply drop_slashes_id. intros l' Hl'. rewrite Hl' in Hname.
    cbn [rev] in Hname. rewrite string_of_list_app in Hname.
    rewrite Hname, endsWith_app in Hslash. done. }
  unfold Path.extname, Path.rev_basename. fold r. rewrite Hr.
  set (rb := Path.take_until "/" r).
  assert (exists a, name = a ++ "") as Hwhole.
  { exists name. clear. induction name as [|c s IH]; [done|].
    change (String c s ++ "") with (String c (s ++ "")). by rewrite <- IH. }
  destruct (Path.drop_until "." rb) as [|dot [|x rest]] eqn:Hdot; [done..|].
  case_bool_decide; [done|].
  pose proof (take_drop_until "/" r) as Hsplit. fold rb in Hsplit.
  pose proof (take_drop_until "." rb) as Hsplit'. rewrite Hdot in Hsplit'.
  exists (string_of_list_ascii (rev (x :: rest ++ Path.drop_until "/" r))).
  rewrite <- string_of_list_app, Hname. f_equal.
  rewrite Hsplit at 1. rewrite Hsplit' at 1.
  rewrite <- app_assoc. cbn [app]. rewrite rev_app_distr. cbn [rev].
  by rewrite <- !app_assoc.
Qed.

Lemma append_nil_r (s : string) : s ++ "" = s.
Proof.
  induction s as [|c s IH]; [done|].
  change (String c s ++ "") with (String c (s ++ "")). by rewrite IH.
Qed.

Lemma toLowerCase_app_upto n a t :
  (String.length a <= n)%nat ->
  Str.toLowerCase (a ++ String "." t)
  = Str.toLowerCase a ++ Str.toLowerCase (String "." t).
Proof.
  revert a. induction n as [|n IH]; intros a Hlen.
  { destruct a; [done|]. cbn [String.length] in Hlen. lia. }
  destruct a as [|c a']; [done|]. cbn [String.length] in Hlen.
  change (String c a' ++ String "." t) with (String c (a' ++ String "." t)).
  destruct (Ascii.eqb c "226") eqn:Ec.
  - apply Ascii.eqb_eq in Ec as ->. rewrite !toLowerCase_226.
    destruct a' as [|c2 [|c3 a'']].
    + by destruct t.
    + change (String c2 "" ++ String "." t) with (String c2 (String "." t)).
      lazy beta iota. change (Ascii.eqb "." "170") with false.
      rewrite andb_false_r.
      change (String c2 (String "." t)) with (String c2 "" ++ String "." t).
      rewrite IH by (cbn [String.length] in *; lia). done.
    + change (String c2 (String c3 a'') ++ String "." t)
        with (String c2 (String c3 (a'' ++ String "." t))).
      lazy beta iota.
      destruct (Ascii.eqb c2 "132" && Ascii.eqb c3 "170").
      * rewrite IH by (cbn [String.length] in *; lia). done.
      * change (String c2 (String c3 (a'' ++ String "." t)))
          with (String c2 (String c3 a'') ++ String "." t).
        rewrite IH by (cbn [String.length] in *; lia). done.
  - rewrite !toLowerCase_cons by done. rewrite IH by lia. done.
Qed.

(** Lower-casing a name lower-cases its extension. *)
Lemma toLowerCase_app a e :
  e = "" \/ (exists t, e = String "." t) ->
  Str.toLowerCase (a ++ e) = Str.toLowerCase a ++ Str.toLowerCase e.
Proof.
  intros [->|[t ->]].
  - by rewrite !append_nil_r.
  - by apply (toLowerCase_app_upto (String.length a)).
Qed.

(** X22 — Whatever the handler accepts by extension, multer's filter
    lets through: a part whose name does not end with a slash and whose
    lower-cased extension is one of the fifteen supported ones passes the
    filter with any MIME type. *)
Theorem X22_supported_extension_passes_filter part :
  Str.endsWith (in_originalname part) "/" = false ->
  Str.mem (fileExtension_of (in_originalname part)) videoExtensions = true ->
  fileFilter part = true.
Proof.
  intros Hslash Hext. unfold fileFilter. apply orb_true_iff. right.
  apply existsb_exists. exists (fileExtension_of (in_originalname part)).
  split.
  - unfold Str.mem in Hext. apply existsb_exists in Hext as (e & He & <-%String.eqb_eq).
    exact He.
  - destruct (extname_suffix _ Hslash) as [a Ha].
    unfold fileExtension_of. rewrite Ha at 1.
    rewrite toLowerCase_app; [apply endsWith_app|].
    destruct (extname_shape (in_originalname part)) as [->|[t ->]]; [by left|].
    right. by exists t.
Qed.

Lemma X22_supported_extension_passes_filter_witness :
  fileFilter {| in_originalname := "Férias 2024.MKV"; in_mimetype := "text/plain";
                in_size := 10 |} = true.
Proof.
  apply X22_supported_extension_passes_filter; vm_compute; reflexivity.
Defined.

(** ** A failing counter update *)

(** X23 — When the file is placed and its row inserted but the update of
    the used-space counter fails, the handler answers 500 with the cause
    and compensates nothing: the file stays on the media host, the row
    stays in [videos], and no counter has grown, so the video occupies
    space that the quota does not count. *)
Theorem X23_counter_failure_leaves_uncounted_video o raw w part login userData msg :
  looked_up o raw w part login userData ->
  ceilMB (in_size part) <= espaco userData - espaco_usado userData ->
  placement_ok o -> fails o OpInsertVideo = None ->
  fails o OpAddUsed = Some msg ->
  let file := stored_file (raw_now raw) part in
  exists w',
    route_upload o raw w
    = (Ok {| status := 500; body := BError "Erro no upload do vídeo" (Some msg) |}, w') /\
    tmp_files w' !! path file = None /\
    remote_files w'
    = <[(serverId_of userData, remotePath_of login userData file) := in_size part]>
        (remote_files w) /\
    videos w' = (videos w ++ [inserted_row o raw w part login userData])%list /\
    streamings w' = streamings w.
Proof.
  intros Hl Hfit (Hstructure & Hfolder & Hupload) Hinsert Hadd file. subst file.
  use_looked_up Hl.
  apply Z.le_ngt in Hfit. rewrite <- Z.gtb_lt in Hfit.
  apply not_true_is_false in Hfit.
  unfold inserted_row, upload_needs_conversion, fileExtension_of,
    remotePath_of, serverId_of, folderId_of.
  destruct (route_upload o raw w) as [out w'] eqn:H.
  run_upload H.
  all: simplify_eq.
  all: eexists; split; [reflexivity|]; world_simpl.
  all: rewrite ?lookup_delete_eq.
  all: repeat match goal with E : _ = _ |- _ => rewrite E end.
  all: cbn [negb orb].
  all: done.
Qed.

Lemma X23_counter_failure_leaves_uncounted_video_witness :
  let o := Scenario.oracle (Scenario.report "h264" 1200) [OpAddUsed] in
  let part := Scenario.part "clip.mkv" 3000000 in
  let raw := Scenario.send (Some "12") "clip.mkv" 3000000 in
  let w := Scenario.world 100 in
  exists w',
    route_upload o raw w
    = (Ok {| status := 500;
             body := BError "Erro no upload do vídeo" (Some "connection lost") |}, w') /\
    tmp_files w' !! "/tmp/video-uploads/1700000000000_clip.mkv" = None /\
    remote_files w'
    = <[(1, "/home/streaming/ana/filmes/1700000000000_clip.mkv") := 3000000]>
        (remote_files w) /\
    videos w' = (videos w ++ [inserted_row o raw w part "ana" (Scenario.filmes 100)])%list /\
    streamings w' = streamings w.
Proof.
  intros o part raw w.
  apply (X23_counter_failure_leaves_uncounted_video o raw w part "ana"
           (Scenario.filmes 100) "connection lost").
  - repeat split; vm_compute; reflexivity.
  - vm_compute. discriminate.
  - repeat split; reflexivity.
  - reflexivity.
  - reflexivity.
Defined.

(** ** Rows without a recorded size *)

Lemma release_nothing folderId s :
  0 <= espaco_usado s -> release_used 0 folderId s = s.
Proof.
  intros Hu. unfold release_used.
  destruct (String.eqb (codigo s) folderId); [|done].
  destruct s as [c cc cs i e u]. unfold with_used.
  cbn [codigo codigo_cliente codigo_servidor identificacao espaco espaco_usado] in *.
  f_equal. lia.
Qed.

(** X24 — For a row whose recorded size is 0 the delete handler asks the
    media host: it releases the started megabytes of the file it finds at
    the row's path, and releases nothing, leaving counters that are not
    negative as they are, when the file is not there or the lookup
    fails. *)
Theorem X24_delete_measures_unsized_file o req w video :
  delete_db_ok o -> may_delete req w video ->
  tamanho_arquivo video = 0 ->
  let found :=
    match fails o OpSshStat with
    | None => default 0 (remote_files w
                           !! (first_serverId (user_id (dreq_user req)) w,
                               delete_remotePath video))
    | Some _ => 0
    end in
  exists w',
    delete_handler o req w
    = (Ok {| status := 200; body := BSuccess "Vídeo removido com sucesso" |}, w') /\
    streamings w'
    = List.map (release_used (ceilMB found) (pasta video)) (streamings w) /\
    (found = 0 -> quota_inv w -> streamings w' = streamings w).
Proof.
  intros Hdb Hmay Hzero found.
  destruct (delete_found_run o req w video Hdb Hmay)
    as (w' & sz & t & Hrun & _ & Hstreamings & _ & _ & _ & _ & _ & Hsz).
  specialize (Hsz Hzero). fold found in Hsz. subst sz.
  exists w'. split; [exact Hrun|]. split; [exact Hstreamings|].
  intros Hnone Hinv. rewrite Hstreamings, Hnone.
  rewrite <- (List.map_id (streamings w)) at 2.
  apply map_ext_in. intros s Hs%list_elem_of_In.
  unfold quota_inv in Hinv. rewrite Forall_forall in Hinv.
  apply Hinv in Hs. unfold quota_ok in Hs.
  apply release_nothing. lia.
Qed.

Lemma X24_delete_measures_unsized_file_witness :
  let unsized :=
    {| id := 1; nome := "clip.mkv"; descricao := "";
       url := "ana/filmes/1700000000000_clip.mkv";
       caminho := "/home/streaming/ana/filmes/1700000000000_clip.mkv";
       duracao := 0; tamanho_arquivo := 0;
       v_codigo_cliente := "7"; pasta := "12";
       bitrate_video := 0; formato_original := "mkv";
       codec_video := "unknown"; largura := 0; altura := 0;
       is_mp4 := 0; compativel := "nao" |} in
  let w := {| tmp_files := ∅;
              remote_files := {[ (1, caminho unsized) := 3000000 ]};
              streamings := [Scenario.filmes 103];
              videos := [unsized]; next_insert_id := 2; trace := [] |} in
  let o := Scenario.oracle DocNull [] in
  exists w',
    delete_handler o Stored.remove w
    = (Ok {| status := 200; body := BSuccess "Vídeo removido com sucesso" |}, w') /\
    streamings w' = [Scenario.filmes 100] /\
    (3000000 = 0 -> quota_inv w -> streamings w' = streamings w).
Proof.
  intros unsized w o.
  apply (X24_delete_measures_unsized_file o Stored.remove w unsized).
  - repeat split; reflexivity.
  - split; vm_compute; reflexivity.
  - reflexivity.
Defined.

(** ** The calls of an upload *)

(** X25 — An upload that goes through issues exactly these calls, in this
    order: ffprobe on the temp file, the destination lookup, the user
    structure on the folder's media host (with the account's bitrate and
    viewer limits, 2500 and 100 when missing or 0), the folder, the
    transfer, the removal of the temp file, the insert, the counter
    update and the SMIL refresh. When no conversion is needed, the failing
    read of [userBitrateLimit] adds two more attempts to remove the temp
    file, one per [catch]. *)
Theorem X25_upload_call_sequence o raw w part login userData :
  persists o raw w part login userData ->
  exists out w',
    route_upload o raw w = (out, w') /\
    trace w'
    = (trace w ++ upload_calls raw part login userData
         ++ (if upload_needs_conversion o part then []
             else [EUnlink (path (stored_file (raw_now raw) part));
                   EUnlink (path (stored_file (raw_now raw) part))]))%list.
Proof.
  intros (Hl & Hfit & (Hstructure & Hfolder & Hupload) & Hinsert & Hadd).
  use_looked_up Hl.
  apply Z.le_ngt in Hfit. rewrite <- Z.gtb_lt in Hfit.
  apply not_true_is_false in Hfit.
  unfold upload_calls, upload_needs_conversion, fileExtension_of,
    remotePath_of, serverId_of, folderId_of.
  destruct (route_upload o raw w) as [out w'] eqn:H.
  run_upload H.
  all: simplify_eq.
  all: eexists _, _; split; [reflexivity|]; world_simpl.
  all: rewrite <- ?app_assoc; cbn [app].
  all: repeat match goal with E : _ = _ |- _ => rewrite E end.
  all: cbn [negb orb].
  all: done.
Qed.

Lemma X25_upload_call_sequence_witness :
  let o := Scenario.oracle (Scenario.report "h264" 1200) [] in
  let raw := Scenario.send (Some "12") "clip.mp4" 3000000 in
  let w := Scenario.world 100 in
  let tmp := "/tmp/video-uploads/1700000000000_clip.mp4" in
  let remote := "/home/streaming/ana/filmes/1700000000000_clip.mp4" in
  exists out w',
    route_upload o raw w = (out, w') /\
    trace w'
    = [ EProbe tmp; ESelectFolder "12" "7"; ESshStructure 1 "ana" 2500 100;
        ESshFolder 1 "ana" "filmes"; ESshUpload 1 tmp remote; EUnlink tmp;
        EInsertVideo "clip.mp4" remote; EAddUsed "12" 3; ESmil "7" "ana" 1;
        EUnlink tmp; EUnlink tmp ].
Proof.
  intros o raw w tmp remote.
  apply (X25_upload_call_sequence o raw w (Scenario.part "clip.mp4" 3000000) "ana"
           (Scenario.filmes 100)).
  repeat split; vm_compute; (reflexivity || discriminate).
Defined.

(** ** The URL of a view *)

Lemma or_else_nonempty s d : s <> "" -> Str.or_else s d = s.
Proof. intros Hs. unfold Str.or_else. apply String.eqb_neq in Hs. by rewrite Hs. Qed.

Lemma replace_at_start pat rep s :
  String.prefix pat s = true ->
  Str.replace pat rep s = rep ++ Str.drop (String.length pat) s.
Proof. intros Hp. destruct s; cbn [Str.replace]; by rewrite Hp. Qed.

Lemma replace_prefix pat rest : Str.replace pat "" (pat ++ rest) = rest.
Proof. rewrite replace_at_start by apply prefix_app. by rewrite drop_app. Qed.

Lemma view_url_of_url login folder v :
  url v <> "" ->
  view_url login folder v
  = let u := if Str.includes (url v) wowza_content
             then Str.replace wowza_content "" (url v) else url v in
    if Str.startsWith u "/" then Str.substring1 u else u.
Proof.
  intros Hne. unfold view_url. rewrite or_else_nonempty by done.
  apply String.eqb_neq in Hne. rewrite Hne. cbn [andb]. by rewrite Hne.
Qed.

(** X26 — The URL a view shows is made from the stored [url] whenever
    that is not empty, whatever the row's path and name, the login and
    the folder: it is the stored [url] itself when that neither contains
    the Wowza content directory nor starts with a slash. A row without
    [url] whose path lies in the Wowza content directory is shown with
    the path relative to that directory. *)
Theorem X26_view_url login folder v :
  (forall login' folder' v',
     url v <> "" -> url v' = url v ->
     view_url login' folder' v' = view_url login folder v) /\
  (url v <> "" -> Str.includes (url v) wowza_content = false ->
   Str.startsWith (url v) "/" = false ->
   view_url login folder v = url v) /\
  (forall rest,
     url v = "" -> caminho v = wowza_content ++ rest ->
     view_url login folder v
     = if Str.startsWith rest "/" then Str.substring1 rest else rest).
Proof.
  split; [|split].
  - intros login' folder' v' Hne Hsame.
    rewrite !view_url_of_url by congruence. by rewrite Hsame.
  - intros Hne Hwowza Hslash. rewrite view_url_of_url by done.
    cbn zeta. by rewrite Hwowza, Hslash.
  - intros rest Hurl Hpath. unfold view_url. rewrite Hurl, Hpath.
    change (Str.or_else "" (wowza_content ++ rest)) with (wowza_content ++ rest).
    assert (String.eqb (wowza_content ++ rest) "" = false) as Hne by done.
    rewrite Hne. cbn [andb]. rewrite ?Hne.
    rewrite (includes_app "" wowza_content rest : Str.includes (wowza_content ++ rest) _ = true).
    by rewrite replace_prefix.
Qed.
